(** * SecondaryCoordinates: a status-bar widget showing a second coordinate readout

    Shallow embedding of [SecondaryCoordinates.py] and the properties of its
    transform resolver, its settings persistence, its configuration dialog and
    its coordinate display.

    Conventions of the embedding:
    - a Python [str] is a [string] (a sequence of bytes; non-ASCII text is its
      UTF-8 encoding, and [chars] gives its characters);
    - a Python [dict] is an association list in insertion order, without
      duplicate keys ([dict_set] keeps it so);
    - a Python exception is a value of [exn]; a call that may raise returns a
      [result];
    - the settings object of the widget lives in a store of objects ([heap]),
      and [self.settings] is a reference into it, so that two references to
      one object see each other's writes. *)

From Stdlib Require Import ZArith NArith List String Ascii Bool Lia Arith Floats.
Import ListNotations.
#[local] Set Warnings "-register-all".
Local Open Scope list_scope.
Local Open Scope string_scope.

(** ** Python values, exceptions *)

Inductive exn : Type :=
| KeyError (key : string)
| TypeError
| ValueError
| AttributeError
| JSONDecodeError
| ZeroDivisionError
| OverflowError
| RuntimeError
| QgsCsException
(** not an exception of Python: the code was given a value of a type it was
    not written for, and the model does not follow it there *)
| OutsideModel.

Inductive result (A : Type) : Type :=
| Ok (a : A)
| Raise (e : exn).
Arguments Ok {A} a.
Arguments Raise {A} e.

(** The values [json.loads] produces and the settings are made of. A float is
    kept as the text of its literal, from which [int_of] computes the double
    it stands for. *)
Inductive pyval : Type :=
| PyNone
| PyBool (b : bool)
| PyInt (n : Z)
| PyFloat (literal : string)
| PyStr (s : string)
| PyList (items : list pyval)
| PyDict (members : list (string * pyval)).

Definition pydict : Type := list (string * pyval).

Definition is_dict (v : pyval) : bool :=
  match v with PyDict _ => true | _ => false end.

(** [d[k]] as an option, [k in d], and [d[k] = v] of a Python dict: an
    existing key keeps its position, a new key goes last. *)
Fixpoint dict_get (d : pydict) (k : string) : option pyval :=
  match d with
  | [] => None
  | (k', v) :: rest => if String.eqb k k' then Some v else dict_get rest k
  end.

Definition dict_has (d : pydict) (k : string) : bool :=
  match dict_get d k with Some _ => true | None => false end.

Fixpoint dict_set (d : pydict) (k : string) (v : pyval) : pydict :=
  match d with
  | [] => [(k, v)]
  | (k', v') :: rest =>
      if String.eqb k k' then (k', v) :: rest else (k', v') :: dict_set rest k v
  end.

Definition dict_keys (d : pydict) : list string := map fst d.

(** [d.update(other)] *)
Definition dict_update (d other : pydict) : pydict :=
  fold_left (fun acc kv => dict_set acc (fst kv) (snd kv)) other d.

(** ** The settings merge: [SecondaryCoordinates._recursive_update] *)

(** [for k, v in d2.items(): ...; return d1] for a dict [d2]; the recursion
    is on [d2], whose nested dicts are the only values it is called on. *)
Fixpoint recursive_update_dict (d1 : pydict) (d2 : pyval) {struct d2} : pydict :=
  match d2 with
  | PyDict items =>
      (fix loop (d1 : pydict) (items : list (string * pyval)) {struct items} : pydict :=
         match items with
         | [] => d1
         | (k, v) :: rest =>
             loop (match v, dict_get d1 k with
                   | PyDict _, Some (PyDict d1k) =>
                       dict_set d1 k (PyDict (recursive_update_dict d1k v))
                   | _, _ => dict_set d1 k v
                   end) rest
         end) d1 items
  | _ => d1
  end.

(** [d2.items()] raises [AttributeError] on anything but a dict. *)
Definition _recursive_update (d1 : pydict) (d2 : pyval) : result pydict :=
  match d2 with
  | PyDict _ => Ok (recursive_update_dict d1 d2)
  | _ => Raise AttributeError
  end.

(** [s.startswith(prefix)] *)
Fixpoint startswith (s prefix : string) {struct prefix} : bool :=
  match prefix with
  | EmptyString => true
  | String a prefix' =>
      match s with
      | String b s' => Ascii.eqb a b && startswith s' prefix'
      | EmptyString => false
      end
  end.

(** ** [json.loads]

    The decoder of the Python standard library, as far as the stored text can
    exercise it: whitespace, the three literals, [NaN] and the infinities,
    numbers, strings with their escapes, arrays and objects. A repeated key
    keeps its first position and its last value, as [dict(pairs)] does. *)

Definition is_ws (c : ascii) : bool :=
  match N_of_ascii c with
  | 32%N | 9%N | 10%N | 13%N => true
  | _ => false
  end.

Fixpoint skip_ws (s : string) : string :=
  match s with
  | String c r => if is_ws c then skip_ws r else s
  | EmptyString => s
  end.

Definition is_digit (c : ascii) : bool :=
  (48 <=? N_of_ascii c)%N && (N_of_ascii c <=? 57)%N.

Definition digit_val (c : ascii) : Z := Z.of_N (N_of_ascii c) - 48.

(** The longest run of decimal digits at the head of [s], and what follows. *)
Fixpoint span_digits (s : string) : string * string :=
  match s with
  | String c r =>
      if is_digit c then let (ds, rest) := span_digits r in (String c ds, rest)
      else (EmptyString, s)
  | EmptyString => (EmptyString, s)
  end.

Fixpoint digits_to_Z_acc (acc : Z) (ds : string) : Z :=
  match ds with
  | String c r => digits_to_Z_acc (10 * acc + digit_val c) r
  | EmptyString => acc
  end.

Definition digits_to_Z (ds : string) : Z := digits_to_Z_acc 0 ds.

Definition is_empty (s : string) : bool :=
  match s with EmptyString => true | _ => false end.

(** NUMBER_RE: an optional minus sign, then 0 or a run of digits that does not
    start with 0, then an optional fraction (a dot and at least one digit),
    then an optional exponent (e or E, an optional sign, at least one digit).
    The value is an [int] when it has neither fraction nor exponent. *)
Definition scan_number (s : string) : option (pyval * string) :=
  let (neg, s1) :=
    match s with
    | String c r => if Ascii.eqb c "-"%char then (true, r) else (false, s)
    | EmptyString => (false, s)
    end in
  match s1 with
  | String c r =>
      if is_digit c then
        let (int_part, s2) :=
          if Ascii.eqb c "0"%char then ("0", r) else span_digits s1 in
        let (frac, s3) :=
          match s2 with
          | String d r2 =>
              if Ascii.eqb d "."%char then
                let (fd, r3) := span_digits r2 in
                if is_empty fd then (EmptyString, s2) else (String "."%char fd, r3)
              else (EmptyString, s2)
          | EmptyString => (EmptyString, s2)
          end in
        let (exp, s4) :=
          match s3 with
          | String e r3 =>
              if Ascii.eqb e "e"%char || Ascii.eqb e "E"%char then
                let (sign, r4) :=
                  match r3 with
                  | String g r' =>
                      if Ascii.eqb g "+"%char then ("+", r')
                      else if Ascii.eqb g "-"%char then ("-", r')
                      else (EmptyString, r3)
                  | EmptyString => (EmptyString, r3)
                  end in
                let (ed, r5) := span_digits r4 in
                if is_empty ed then (EmptyString, s3)
                else (String e (sign ++ ed), r5)
              else (EmptyString, s3)
          | EmptyString => (EmptyString, s3)
          end in
        if is_empty frac && is_empty exp then
          Some (PyInt (if neg then - digits_to_Z int_part else digits_to_Z int_part), s4)
        else
          Some (PyFloat ((if neg then "-" else "") ++ int_part ++ frac ++ exp), s4)
      else None
  | EmptyString => None
  end.

Definition hex_val (c : ascii) : option N :=
  let n := N_of_ascii c in
  if (48 <=? n)%N && (n <=? 57)%N then Some (n - 48)%N
  else if (97 <=? n)%N && (n <=? 102)%N then Some (n - 87)%N
  else if (65 <=? n)%N && (n <=? 70)%N then Some (n - 55)%N
  else None.

Definition hex4 (a b c d : ascii) : option N :=
  match hex_val a, hex_val b, hex_val c, hex_val d with
  | Some x, Some y, Some z, Some w => Some (((x * 16 + y) * 16 + z) * 16 + w)%N
  | _, _, _, _ => None
  end.

Definition byte_of (n : N) : ascii := ascii_of_N n.

(** The UTF-8 bytes of a code point (a lone surrogate is written as any other
    three-byte code point). *)
Definition utf8_encode (cp : N) : string :=
  if (cp <? 128)%N then String (byte_of cp) EmptyString
  else if (cp <? 2048)%N then
    String (byte_of (192 + cp / 64)) (String (byte_of (128 + cp mod 64)) EmptyString)
  else if (cp <? 65536)%N then
    String (byte_of (224 + cp / 4096))
      (String (byte_of (128 + (cp / 64) mod 64))
         (String (byte_of (128 + cp mod 64)) EmptyString))
  else
    String (byte_of (240 + cp / 262144))
      (String (byte_of (128 + (cp / 4096) mod 64))
         (String (byte_of (128 + (cp / 64) mod 64))
            (String (byte_of (128 + cp mod 64)) EmptyString))).

Definition simple_escape (e : ascii) : option ascii :=
  match N_of_ascii e with
  | 34%N => Some (byte_of 34)    (* quote *)
  | 92%N => Some (byte_of 92)    (* backslash *)
  | 47%N => Some (byte_of 47)    (* slash *)
  | 98%N => Some (byte_of 8)     (* b: backspace *)
  | 102%N => Some (byte_of 12)   (* f: form feed *)
  | 110%N => Some (byte_of 10)   (* n: line feed *)
  | 114%N => Some (byte_of 13)   (* r: carriage return *)
  | 116%N => Some (byte_of 9)    (* t: tab *)
  | _ => None
  end.

Definition is_high_surrogate (cp : N) : bool := (55296 <=? cp)%N && (cp <=? 56319)%N.
Definition is_low_surrogate (cp : N) : bool := (56320 <=? cp)%N && (cp <=? 57343)%N.
Definition join_surrogates (hi lo : N) : N :=
  (65536 + (hi - 55296) * 1024 + (lo - 56320))%N.

Definition prepend (t : string) (r : option (string * string)) : option (string * string) :=
  match r with
  | Some (body, rest) => Some (t ++ body, rest)
  | None => None
  end.

(** The body of a string after its opening quote, up to the closing one. *)
Fixpoint scan_string (s : string) : option (string * string) :=
  match s with
  | EmptyString => None
  | String c r =>
      if Ascii.eqb c (byte_of 34) then Some (EmptyString, r)
      else if Ascii.eqb c (byte_of 92) then
        match r with
        | EmptyString => None
        | String e r1 =>
            match simple_escape e with
            | Some ch => prepend (String ch EmptyString) (scan_string r1)
            | None =>
                if Ascii.eqb e "u"%char then
                  match r1 with
                  | String h1 (String h2 (String h3 (String h4 r5))) =>
                      match hex4 h1 h2 h3 h4 with
                      | None => None
                      | Some cp =>
                          if is_high_surrogate cp then
                            match r5 with
                            | String b (String u (String g1 (String g2 (String g3 (String g4 r11))))) =>
                                if Ascii.eqb b (byte_of 92) && Ascii.eqb u "u"%char then
                                  match hex4 g1 g2 g3 g4 with
                                  | None => None
                                  | Some cp2 =>
                                      if is_low_surrogate cp2 then
                                        prepend (utf8_encode (join_surrogates cp cp2)) (scan_string r11)
                                      else prepend (utf8_encode cp) (scan_string r5)
                                  end
                                else prepend (utf8_encode cp) (scan_string r5)
                            | _ => prepend (utf8_encode cp) (scan_string r5)
                            end
                          else prepend (utf8_encode cp) (scan_string r5)
                      end
                  | _ => None
                  end
                else None
            end
        end
      else if (N_of_ascii c <? 32)%N then None
      else prepend (String c EmptyString) (scan_string r)
  end.

(** [strip_prefix p s]: what follows [p] in [s], when [s] starts with [p]. *)
Fixpoint strip_prefix (p s : string) : option string :=
  match p, s with
  | EmptyString, _ => Some s
  | String a p', String b s' => if Ascii.eqb a b then strip_prefix p' s' else None
  | String _ _, EmptyString => None
  end.

(** Whether [s] starts with the character [c], and [s] without its first
    character. *)
Definition starts_with (c : ascii) (s : string) : bool :=
  match s with
  | String c' _ => Ascii.eqb c c'
  | EmptyString => false
  end.

Definition tail (s : string) : string :=
  match s with
  | String _ r => r
  | EmptyString => EmptyString
  end.

Inductive parsed (A : Type) : Type :=
| Parsed (a : A) (rest : string)
| Malformed
| Exhausted.
Arguments Parsed {A} a rest.
Arguments Malformed {A}.
Arguments Exhausted {A}.

Definition scan_literal (s : string) : parsed pyval :=
  match strip_prefix "null" s with
  | Some r => Parsed PyNone r
  | None =>
  match strip_prefix "true" s with
  | Some r => Parsed (PyBool true) r
  | None =>
  match strip_prefix "false" s with
  | Some r => Parsed (PyBool false) r
  | None =>
  match strip_prefix "NaN" s with
  | Some r => Parsed (PyFloat "NaN") r
  | None =>
  match strip_prefix "Infinity" s with
  | Some r => Parsed (PyFloat "Infinity") r
  | None =>
  match strip_prefix "-Infinity" s with
  | Some r => Parsed (PyFloat "-Infinity") r
  | None =>
  match scan_number s with
  | Some (v, r) => Parsed v r
  | None => Malformed
  end end end end end end end.

(** [scan_once] reads one value at the head of [s]; [parse_members] and
    [parse_elements] are the loops of an object and of an array, entered
    after the opening bracket and the whitespace behind it. [fuel] bounds the
    depth of the calls; twice the length of the text is always enough
    ([json_loads_fuel]). *)
Fixpoint scan_once (fuel : nat) (s : string) {struct fuel} : parsed pyval :=
  match fuel with
  | O => Exhausted
  | S fuel' =>
      match s with
      | EmptyString => Malformed
      | String c r =>
          if Ascii.eqb c (byte_of 34) then
            match scan_string r with
            | Some (t, rest) => Parsed (PyStr t) rest
            | None => Malformed
            end
          else if Ascii.eqb c "{"%char then
            if starts_with "}"%char (skip_ws r) then Parsed (PyDict []) (tail (skip_ws r))
            else parse_members fuel' [] (skip_ws r)
          else if Ascii.eqb c "["%char then
            if starts_with "]"%char (skip_ws r) then Parsed (PyList []) (tail (skip_ws r))
            else parse_elements fuel' [] (skip_ws r)
          else scan_literal s
      end
  end
with parse_members (fuel : nat) (acc : pydict) (s : string) {struct fuel} : parsed pyval :=
  match fuel with
  | O => Exhausted
  | S fuel' =>
      match s with
      | String q r =>
          if Ascii.eqb q (byte_of 34) then
            match scan_string r with
            | None => Malformed
            | Some (key, r1) =>
                if starts_with ":"%char (skip_ws r1) then
                  match scan_once fuel' (skip_ws (tail (skip_ws r1))) with
                  | Parsed v r3 =>
                      let acc' := dict_set acc key v in
                      if starts_with "}"%char (skip_ws r3) then
                        Parsed (PyDict acc') (tail (skip_ws r3))
                      else if starts_with ","%char (skip_ws r3) then
                        parse_members fuel' acc' (skip_ws (tail (skip_ws r3)))
                      else Malformed
                  | Malformed => Malformed
                  | Exhausted => Exhausted
                  end
                else Malformed
            end
          else Malformed
      | EmptyString => Malformed
      end
  end
with parse_elements (fuel : nat) (acc : list pyval) (s : string) {struct fuel} : parsed pyval :=
  match fuel with
  | O => Exhausted
  | S fuel' =>
      match scan_once fuel' s with
      | Parsed v r1 =>
          let acc' := (acc ++ [v])%list in
          if starts_with "]"%char (skip_ws r1) then Parsed (PyList acc') (tail (skip_ws r1))
          else if starts_with ","%char (skip_ws r1) then
            parse_elements fuel' acc' (skip_ws (tail (skip_ws r1)))
          else Malformed
      | Malformed => Malformed
      | Exhausted => Exhausted
      end
  end.

Definition json_loads (s : string) : result pyval :=
  match scan_once (S (2 * String.length s)) (skip_ws s) with
  | Parsed v rest => if is_empty (skip_ws rest) then Ok v else Raise JSONDecodeError
  | Malformed => Raise JSONDecodeError
  | Exhausted => Raise JSONDecodeError
  end.

(** ** The characters of a text

    [chars s] lists the characters of the [str] whose UTF-8 encoding is [s],
    each with its code point and the bytes that write it. A byte that begins
    no sequence of the encoding, or a longer one than its code point needs,
    which the encoding of a [str] never has, is listed alone and with no
    code point. *)

Definition is_continuation (c : ascii) : bool :=
  (128 <=? N_of_ascii c)%N && (N_of_ascii c <? 192)%N.

Definition payload (c : ascii) : N := (N_of_ascii c - 128)%N.

Fixpoint chars (s : string) : list (option N * string) :=
  match s with
  | EmptyString => []
  | String a r =>
      let n := N_of_ascii a in
      let alone := (None, String a EmptyString) :: chars r in
      if (n <? 128)%N then (Some n, String a EmptyString) :: chars r
      else if (n <? 192)%N then alone
      else if (n <? 224)%N then
        match r with
        | String b r2 =>
            let cp := ((n - 192) * 64 + payload b)%N in
            if is_continuation b && (128 <=? cp)%N then
              (Some cp, String a (String b EmptyString)) :: chars r2
            else alone
        | EmptyString => alone
        end
      else if (n <? 240)%N then
        match r with
        | String b (String c r3) =>
            let cp := (((n - 224) * 64 + payload b) * 64 + payload c)%N in
            if is_continuation b && is_continuation c && (2048 <=? cp)%N then
              (Some cp, String a (String b (String c EmptyString))) :: chars r3
            else alone
        | _ => alone
        end
      else
        match r with
        | String b (String c (String d r4)) =>
            let cp := ((((n - 240) * 64 + payload b) * 64 + payload c) * 64 + payload d)%N in
            if is_continuation b && is_continuation c && is_continuation d
               && (65536 <=? cp)%N && (cp <? 1114112)%N then
              (Some cp, String a (String b (String c (String d EmptyString)))) :: chars r4
            else alone
        | _ => alone
        end
  end.

(** ** [int(text)] and [str(n)] for decimal integers

    [int] of a [str] works in two steps, as in CPython: the text is rewritten
    in ASCII after the Unicode database ([to_ascii], below the host), and the
    result is read by [long_from_string]. The limit the interpreter puts on
    the number of digits of a text (4300 by default since Python 3.11) is a
    resource limit, and is not modelled. *)

(** [Py_ISSPACE]: the whitespace of the C locale. *)
Definition is_space (c : ascii) : bool :=
  let n := N_of_ascii c in
  ((9 <=? n)%N && (n <=? 13)%N) || (n =? 32)%N.

Fixpoint lstrip (s : string) : string :=
  match s with
  | String c r => if is_space c then lstrip r else s
  | EmptyString => s
  end.

(** Digits with single underscores between them, up to trailing whitespace;
    [prev_digit] tells whether the character before was a digit. *)
Fixpoint int_digits (acc : Z) (prev_digit : bool) (s : string) : option Z :=
  match s with
  | EmptyString => if prev_digit then Some acc else None
  | String c r =>
      if is_digit c then int_digits (10 * acc + digit_val c) true r
      else if Ascii.eqb c "_"%char then
        if prev_digit then
          match r with
          | String d _ => if is_digit d then int_digits acc false r else None
          | EmptyString => None
          end
        else None
      else if is_space c then
        if prev_digit && is_empty (lstrip r) then Some acc else None
      else None
  end.

(** [PyLong_FromString] in base 10: whitespace, an optional sign, the digits,
    whitespace. [None] stands for [ValueError]. *)
Definition long_from_string (text : string) : option Z :=
  let s := lstrip text in
  if starts_with "-"%char s then option_map Z.opp (int_digits 0 false (tail s))
  else if starts_with "+"%char s then int_digits 0 false (tail s)
  else int_digits 0 false s.

Definition digit_char (d : Z) : ascii := ascii_of_N (Z.to_N (48 + d)).

Fixpoint pos_digits (fuel : nat) (n : Z) (acc : string) : string :=
  match fuel with
  | O => acc
  | S fuel' =>
      let acc' := String (digit_char (n mod 10)) acc in
      if (n <? 10)%Z then acc' else pos_digits fuel' (n / 10) acc'
  end.

(** [str(n)] *)
Definition py_str (n : Z) : string :=
  let a := Z.abs n in
  let ds := pos_digits (S (Z.to_nat (Z.log2 a))) a EmptyString in
  if (n <? 0)%Z then String "-"%char ds else ds.

(** ** The host application

    QGIS, the geodesy engine and the formatting of floats are outside the
    program. What the program asks of them is a parameter of the model; the
    objects it passes around are data. *)

(** The argument of [get_transform]: an [int] or a [str]. *)
Inductive crs_arg : Type :=
| CrsInt (code : Z)
| CrsStr (text : string).

(** A [QgsCoordinateReferenceSystem] object, known by what it was built from. *)
Inductive QgsCrs : Type :=
| QgsCoordinateReferenceSystem (definition : crs_arg).

(** A [QgsPointXY]. *)
Record QgsPointXY : Type := { x : float; y : float }.

Class Host : Type := {
  (** [crs.isValid()]: whether the registry knows the definition *)
  isValid : QgsCrs -> bool;
  (** [crs.toWkt()] *)
  toWkt : QgsCrs -> string;
  (** [a != b] between two CRS objects *)
  crs_ne : QgsCrs -> QgsCrs -> bool;
  (** the native engine, from a source to a destination CRS; [None] stands
      for [QgsCsException] *)
  native_transform : QgsCrs -> QgsCrs -> QgsPointXY -> option (float * float);
  (** [osr.CoordinateTransformation(src, dst).TransformPoint(a, b)], the
      source given by its WKT and the destination by its proj4 text;
      [None] stands for [RuntimeError] *)
  TransformPoint : string -> string -> float -> float -> option (float * float * float);
  (** [format(value, pattern)], which an f-string with a pattern calls;
      [None] stands for [ValueError] *)
  format_float : float -> string -> option string;
  (** [json.dumps] of the settings *)
  json_dumps : pydict -> string;
  (** the Unicode database of the interpreter, which [int] asks about the
      code points above 127: whether one is whitespace, and the value of a
      decimal digit (a negative number for any other character) *)
  Py_UNICODE_ISSPACE : N -> bool;
  Py_UNICODE_TODECIMAL : N -> Z;
  (** the Unicode database of Qt: [QChar::isNumber] for the code units above
      127 that are no surrogates *)
  QChar_isNumber : N -> bool
}.

Section Int.
Context {H : Host}.

(** [_PyUnicode_TransformDecimalAndSpaceToASCII]: an ASCII character stays,
    whitespace beyond ASCII becomes a space and a decimal digit beyond ASCII
    the ASCII digit of its value; at any other character the text ends with
    a question mark, which [long_from_string] refuses. (CPython sends the
    character 127 the way of the characters beyond ASCII, where it is
    neither whitespace nor a digit; kept, it is refused as well.) *)
Fixpoint to_ascii (cs : list (option N * string)) : string :=
  match cs with
  | [] => EmptyString
  | (Some cp, bytes) :: rest =>
      if (cp <? 128)%N then bytes ++ to_ascii rest
      else if Py_UNICODE_ISSPACE cp then String " "%char (to_ascii rest)
      else
        let decimal := Py_UNICODE_TODECIMAL cp in
        if (0 <=? decimal)%Z && (decimal <=? 9)%Z
        then String (digit_char decimal) (to_ascii rest)
        else "?"
  | (None, _) :: _ => "?"
  end.

(** [int(text)]: [None] stands for [ValueError]. *)
Definition py_int (text : string) : option Z :=
  long_from_string (to_ascii (chars text)).

End Int.

(** The calls the program makes to the outside, in the order it makes them. *)
Inductive call : Type :=
| CallInt (arg : crs_arg)                      (* int(crs) *)
| CallCrs (arg : crs_arg)                      (* QgsCoordinateReferenceSystem(arg) *)
| CallNativeTransform (p : QgsPointXY)         (* QgsCoordinateTransform.transform *)
| CallTransformPoint (a b : float).            (* osr TransformPoint(a, b) *)

(** A reference to a dict object of the store. *)
Definition ref : Type := nat.

Record World : Type := {
  (** the dict objects that are referred to from more than one place *)
  heap : list pydict;
  (** [QgsProject.instance().crs()]; the program allows for [None] *)
  project_crs : option QgsCrs;
  (** the text stored under qgis_secondary_coordinates/settings, empty when
      nothing is stored *)
  qsettings : string;
  (** calls made so far, oldest first *)
  calls : list call;
  (** texts of the error boxes shown so far, oldest first *)
  messages : list string
}.

Definition set_heap (h : list pydict) (w : World) : World :=
  {| heap := h; project_crs := project_crs w; qsettings := qsettings w;
     calls := calls w; messages := messages w |}.
Definition set_qsettings (t : string) (w : World) : World :=
  {| heap := heap w; project_crs := project_crs w; qsettings := t;
     calls := calls w; messages := messages w |}.
Definition add_call (c : call) (w : World) : World :=
  {| heap := heap w; project_crs := project_crs w; qsettings := qsettings w;
     calls := (calls w ++ [c])%list; messages := messages w |}.
Definition add_message (m : string) (w : World) : World :=
  {| heap := heap w; project_crs := project_crs w; qsettings := qsettings w;
     calls := calls w; messages := (messages w ++ [m])%list |}.

(** [h[r] = d] for an existing object. *)
Fixpoint heap_write (h : list pydict) (r : ref) (d : pydict) : list pydict :=
  match h, r with
  | [], _ => []
  | _ :: rest, O => d :: rest
  | d0 :: rest, S r' => d0 :: heap_write rest r' d
  end.

(** ** Computations that change a state and may raise

    A raised exception leaves the state as the code had changed it so far. *)

Definition M (St A : Type) : Type := St -> result A * St.

Definition ret {St A : Type} (a : A) : M St A := fun s => (Ok a, s).
Definition raise {St A : Type} (e : exn) : M St A := fun s => (Raise e, s).
Definition bind {St A B : Type} (m : M St A) (f : A -> M St B) : M St B :=
  fun s =>
    match m s with
    | (Ok a, s') => f a s'
    | (Raise e, s') => (Raise e, s')
    end.
Definition get {St : Type} : M St St := fun s => (Ok s, s).
Definition modify {St : Type} (f : St -> St) : M St unit := fun s => (Ok tt, f s).

Declare Scope m_scope.
Delimit Scope m_scope with M.
Notation "x <- m ;; k" := (bind m (fun x => k))
  (at level 61, m at next level, right associativity) : m_scope.
Notation "m ;; k" := (bind m (fun _ => k))
  (at level 61, right associativity) : m_scope.
Local Open Scope m_scope.

(** [try: m except e: handler], for the exception [e] alone. *)
Definition try_except {St A : Type} (m : M St A) (catches : exn -> bool)
    (handler : M St A) : M St A :=
  fun s =>
    match m s with
    | (Raise e, s') => if catches e then handler s' else (Raise e, s')
    | r => r
    end.

Definition of_result {St A : Type} (r : result A) : M St A :=
  match r with Ok a => ret a | Raise e => raise e end.

(** A computation on the world, run by an object that has a state of its own. *)
Definition in_world {X A : Type} (m : M World A) : M (World * X) A :=
  fun s =>
    match m (fst s) with
    | (r, w') => (r, (w', snd s))
    end.

Definition self {X : Type} : M (World * X) X := fun s => (Ok (snd s), s).
Definition set_self {X : Type} (f : X -> X) : M (World * X) unit :=
  fun s => (Ok tt, (fst s, f (snd s))).

(** The object behind a reference. *)
Definition deref (r : ref) : M World pydict :=
  fun w =>
    match nth_error (heap w) r with
    | Some d => (Ok d, w)
    | None => (Raise RuntimeError, w)
    end.

Definition assign (r : ref) (d : pydict) : M World unit :=
  modify (fun w => set_heap (heap_write (heap w) r d) w).

(** A new dict object holding [d]: what [copy.deepcopy] or a dict display
    gives. *)
Definition alloc (d : pydict) : M World ref :=
  fun w => (Ok (List.length (heap w)), set_heap (heap w ++ [d])%list w).

(** ** Subscripts and membership on Python values *)

(** [v[k]] for a [str] key [k]. *)
Definition getitem (v : pyval) (k : string) : result pyval :=
  match v with
  | PyDict d =>
      match dict_get d k with
      | Some v' => Ok v'
      | None => Raise (KeyError k)
      end
  | _ => Raise TypeError
  end.

Fixpoint is_substring (p s : string) : bool :=
  startswith s p ||
  match s with
  | String _ r => is_substring p r
  | EmptyString => false
  end.

Definition is_str (k : string) (v : pyval) : bool :=
  match v with PyStr s => String.eqb k s | _ => false end.

(** [k in v] for a [str] key [k]: a key of a dict, an item of a list, a
    substring of a string. *)
Definition contains (v : pyval) (k : string) : result bool :=
  match v with
  | PyDict d => Ok (dict_has d k)
  | PyList l => Ok (existsb (is_str k) l)
  | PyStr s => Ok (is_substring k s)
  | _ => Raise TypeError
  end.

(** A value passed where Qt wants a [str]. *)
Definition as_str (v : pyval) : result string :=
  match v with PyStr s => Ok s | _ => Raise TypeError end.

Fixpoint all_str (l : list pyval) : result (list string) :=
  match l with
  | [] => Ok []
  | PyStr s :: rest =>
      match all_str rest with
      | Ok ss => Ok (s :: ss)
      | Raise e => Raise e
      end
  | _ :: _ => Raise TypeError
  end.

(** A value passed where Qt wants a sequence of [str]: a list of strings, or
    a dict, which gives its keys. *)
Definition as_str_list (v : pyval) : result (list string) :=
  match v with
  | PyList l => all_str l
  | PyDict d => Ok (dict_keys d)
  | _ => Raise TypeError
  end.

(** [v.keys()] *)
Definition keys (v : pyval) : result (list string) :=
  match v with
  | PyDict d => Ok (dict_keys d)
  | _ => Raise AttributeError
  end.

(** ** The transform objects *)

(** An [osr.CoordinateTransformation], known by the WKT of its source and the
    proj4 text of its destination. *)
Record CoordinateTransformation : Type := {
  source_wkt : string;
  target_proj4 : string
}.

(** A [CalcofiTransformer]: both attributes are [None] until [setSourceCrs]
    has run, which the constructor sees to. *)
Record CalcofiTransformer : Type := {
  src_crs : option QgsCrs;
  crs : option CoordinateTransformation
}.

(** A [QgsCoordinateTransform(source, destination, project)]. *)
Record QgsCoordinateTransform : Type := {
  source : QgsCrs;
  destination : QgsCrs
}.

(** What the widget holds in [self._crs]: one of the two, used through the
    methods [sourceCrs], [setSourceCrs] and [transform] they share. *)
Inductive Transform : Type :=
| Native (t : QgsCoordinateTransform)
| Custom (t : CalcofiTransformer).

Definition calcofi_proj4 : string := "+proj=calcofi +ellps=clrk66".

(** [QgsCoordinateReferenceSystem(arg)] *)
Definition new_crs (arg : crs_arg) : M World QgsCrs :=
  modify (add_call (CallCrs arg)) ;;
  ret (QgsCoordinateReferenceSystem arg).

(** [QgsProject.instance().crs()] *)
Definition current_project_crs : M World (option QgsCrs) :=
  w <- get ;; ret (project_crs w).

Module Calcofi.
Section Methods.
Context {H : Host}.

(** [CalcofiTransformer.sourceCrs] *)
Definition sourceCrs (self : CalcofiTransformer) : option QgsCrs := src_crs self.

(** [CalcofiTransformer.setSourceCrs]; [arg] is [None] when the argument is
    left out. Both attributes of [self] are assigned. *)
Definition setSourceCrs (self : CalcofiTransformer) (arg : option QgsCrs)
    : M World CalcofiTransformer :=
  chosen <- match arg with
            | None => current_project_crs
            | Some c => ret (Some c)
            end ;;
  src <- match chosen with
         | None => new_crs (CrsStr "EPSG:4326")
         | Some c => ret c
         end ;;
  ret {| src_crs := Some src;
         crs := Some {| source_wkt := toWkt src; target_proj4 := calcofi_proj4 |} |}.

(** [CalcofiTransformer.__init__] *)
Definition init : M World CalcofiTransformer :=
  setSourceCrs {| src_crs := None; crs := None |} None.

(** [CalcofiTransformer.transform]: a [RuntimeError] of the engine becomes a
    [QgsCsException]; without an engine object the attribute lookup fails. *)
Definition transform (self : CalcofiTransformer) (xy : QgsPointXY) : M World (float * float) :=
  match crs self with
  | None => raise AttributeError
  | Some ct =>
      modify (add_call (CallTransformPoint (y xy) (x xy))) ;;
      match TransformPoint (source_wkt ct) (target_proj4 ct) (y xy) (x xy) with
      | Some (line, sta, _) => ret (line, sta)
      | None => raise QgsCsException
      end
  end.

End Methods.
End Calcofi.

Section Resolver.
Context {H : Host}.

(** What the three methods do on either kind of transform object. *)
Definition sourceCrs (t : Transform) : option QgsCrs :=
  match t with
  | Native n => Some (source n)
  | Custom c => Calcofi.sourceCrs c
  end.

(** The native [setSourceCrs] takes a CRS and refuses [None]. *)
Definition setSourceCrs (t : Transform) (arg : option QgsCrs) : M World Transform :=
  match t with
  | Native n =>
      match arg with
      | Some c => ret (Native {| source := c; destination := destination n |})
      | None => raise TypeError
      end
  | Custom c => c' <- Calcofi.setSourceCrs c arg ;; ret (Custom c')
  end.

Definition transform (t : Transform) (xy : QgsPointXY) : M World (float * float) :=
  match t with
  | Native n =>
      modify (add_call (CallNativeTransform xy)) ;;
      match native_transform (source n) (destination n) xy with
      | Some p => ret p
      | None => raise QgsCsException
      end
  | Custom c => Calcofi.transform c xy
  end.

Definition is_calcofi_marker (arg : crs_arg) : bool :=
  match arg with
  | CrsStr s => startswith s "+proj=calcofi"
  | CrsInt _ => false
  end.

(** [try: crs = int(crs) except ValueError: pass] *)
Definition to_int_if_possible (arg : crs_arg) : M World crs_arg :=
  modify (add_call (CallInt arg)) ;;
  match arg with
  | CrsInt n => ret (CrsInt n)
  | CrsStr s =>
      match py_int s with
      | Some n => ret (CrsInt n)
      | None => ret (CrsStr s)
      end
  end.

(** [get_transform]: the canonical name and the transform object, or [None]. *)
Definition get_transform (arg : crs_arg) : M World (option (string * Transform)) :=
  p <- current_project_crs ;;
  src <- match p with
         | None => new_crs (CrsStr "EPSG:4326")
         | Some c => ret c
         end ;;
  if is_calcofi_marker arg then
    t <- Calcofi.init ;;
    ret (Some (calcofi_proj4, Custom t))
  else
    arg' <- to_int_if_possible arg ;;
    qcrs <- new_crs arg' ;;
    if isValid qcrs then
      let name :=
        match arg' with
        | CrsInt n => "EPSG:" ++ py_str n
        | CrsStr s => s
        end in
      ret (Some (name, Native {| source := src; destination := qcrs |}))
    else ret None.

End Resolver.

(** ** The widget: [SecondaryCoordinates] *)

Definition entry (x_format y_format transform_name scaler : string) : pyval :=
  PyDict [("x_format", PyStr x_format); ("y_format", PyStr y_format);
          ("transform_name", PyStr transform_name); ("scaler", PyStr scaler)].

(** [self.default_settings] *)
Definition default_settings : pydict :=
  [("transforms",
    PyDict [("EPSG:6414", entry ",.0f" ",.0f" "EPSG:6414" "1");
            ("+proj=calcofi +ellps=clrk66", entry ",.1f" ",.1f" "Line, Station" "1")]);
   ("last_transform", PyStr "EPSG:6414");
   ("x_formats", PyList [PyStr ".1f"; PyStr ",.0f"]);
   ("y_formats", PyList [PyStr ".1f"; PyStr ",.0f"]);
   ("scalers", PyList [PyStr "1"; PyStr "1000"; PyStr "1852"])].

(** The attributes of the widget; [label] and [edit] hold the texts of the
    two Qt widgets of these names. *)
Record SecondaryCoordinates : Type := {
  settings : option ref;
  xy : option QgsPointXY;
  _transform : string;
  _crs : Transform;
  _x_format : string;
  _y_format : string;
  _scaler : Z;
  label : string;
  edit : string
}.

Definition with_settings (r : option ref) (w : SecondaryCoordinates) :=
  {| settings := r; xy := xy w; _transform := _transform w; _crs := _crs w;
     _x_format := _x_format w; _y_format := _y_format w; _scaler := _scaler w;
     label := label w; edit := edit w |}.
Definition with_xy (p : option QgsPointXY) (w : SecondaryCoordinates) :=
  {| settings := settings w; xy := p; _transform := _transform w; _crs := _crs w;
     _x_format := _x_format w; _y_format := _y_format w; _scaler := _scaler w;
     label := label w; edit := edit w |}.
Definition with_transform (name : string) (t : Transform) (w : SecondaryCoordinates) :=
  {| settings := settings w; xy := xy w; _transform := name; _crs := t;
     _x_format := _x_format w; _y_format := _y_format w; _scaler := _scaler w;
     label := label w; edit := edit w |}.
Definition with_crs (t : Transform) (w : SecondaryCoordinates) :=
  with_transform (_transform w) t w.
Definition with_x_format (f : string) (w : SecondaryCoordinates) :=
  {| settings := settings w; xy := xy w; _transform := _transform w; _crs := _crs w;
     _x_format := f; _y_format := _y_format w; _scaler := _scaler w;
     label := label w; edit := edit w |}.
Definition with_y_format (f : string) (w : SecondaryCoordinates) :=
  {| settings := settings w; xy := xy w; _transform := _transform w; _crs := _crs w;
     _x_format := _x_format w; _y_format := f; _scaler := _scaler w;
     label := label w; edit := edit w |}.
Definition with_scaler (n : Z) (w : SecondaryCoordinates) :=
  {| settings := settings w; xy := xy w; _transform := _transform w; _crs := _crs w;
     _x_format := _x_format w; _y_format := _y_format w; _scaler := n;
     label := label w; edit := edit w |}.
Definition with_label (t : string) (w : SecondaryCoordinates) :=
  {| settings := settings w; xy := xy w; _transform := _transform w; _crs := _crs w;
     _x_format := _x_format w; _y_format := _y_format w; _scaler := _scaler w;
     label := t; edit := edit w |}.
Definition with_edit (t : string) (w : SecondaryCoordinates) :=
  {| settings := settings w; xy := xy w; _transform := _transform w; _crs := _crs w;
     _x_format := _x_format w; _y_format := _y_format w; _scaler := _scaler w;
     label := label w; edit := t |}.

(** [float(n)]: the nearest double, ties to even. *)
Definition float_of_Z (n : Z) : float :=
  SF2Prim (SpecFloat.binary_normalize 53 1024 n 0 false).

(** [value / n] for a float [value] and an int [n]. *)
Definition truediv (value : float) (n : Z) : result float :=
  if (n =? 0)%Z then Raise ZeroDivisionError
  else if PrimFloat.is_infinity (float_of_Z n) then Raise OverflowError
  else Ok (value / float_of_Z n)%float.

(** [num / den] rounded to the nearest integer, ties to even, for a positive
    [den]. *)
Definition round_half_even (num den : Z) : Z :=
  let q := (num / den)%Z in
  let r := (num mod den)%Z in
  if (2 * r <? den)%Z then q
  else if (den <? 2 * r)%Z then (q + 1)%Z
  else if Z.even q then q else (q + 1)%Z.

(** The literal of a JSON number, as [scan_number] keeps it: whether it has a
    minus sign, its digits before and after the point, and the power of ten
    they are to be multiplied by. *)
Definition read_literal (lit : string) : bool * string * Z :=
  let (neg, s1) :=
    match lit with
    | String "-"%char r => (true, r)
    | _ => (false, lit)
    end in
  let (int_part, s2) := span_digits s1 in
  let (frac, s3) :=
    match s2 with
    | String "."%char r => span_digits r
    | _ => (EmptyString, s2)
    end in
  let exponent :=
    match s3 with
    | String _ (String "-"%char r) => (- digits_to_Z (fst (span_digits r)))%Z
    | String _ (String "+"%char r) => digits_to_Z (fst (span_digits r))
    | String _ r => digits_to_Z (fst (span_digits r))
    | EmptyString => 0%Z
    end in
  (neg, int_part ++ frac, (exponent - Z.of_nat (String.length frac))%Z).

(** The double nearest to [p / q], ties to even, for positive [p] and [q]:
    its 53-bit significand [m] and its exponent [e], the double being
    [m * 2 ^ e]; the exponent stops at -1074, where the subnormal numbers
    are. *)
Definition nearest_double (p q : Z) : Z * Z :=
  let l0 := (Z.log2 p - Z.log2 q)%Z in
  let l := if (p * 2 ^ Z.max 0 (- l0) <? q * 2 ^ Z.max 0 l0)%Z then (l0 - 1)%Z else l0 in
  let e := Z.max (l - 52) (-1074) in
  (round_half_even (p * 2 ^ Z.max 0 (- e)) (q * 2 ^ Z.max 0 e), e).

(** [int(x)] for the float [x] that [json.loads] makes of a literal, which
    is the double nearest to the number the literal writes: the integer part
    of [x]; [ValueError] for NaN and [OverflowError] for an infinity, which a
    literal beyond the largest double gives too. A literal above [10 ^ 400]
    gives an infinity and one below [1 / 10] a double below 1, so these are
    settled without the large powers. *)
Definition int_of_literal (lit : string) : result Z :=
  if String.eqb lit "NaN" then Raise ValueError
  else if String.eqb lit "Infinity" || String.eqb lit "-Infinity" then Raise OverflowError
  else
    let '(neg, digits, e) := read_literal lit in
    let m := digits_to_Z digits in
    if (m =? 0)%Z then Ok 0%Z
    else if (400 <? e)%Z then Raise OverflowError
    else if (e + Z.of_nat (String.length digits) <? 0)%Z then Ok 0%Z
    else
      let (significand, e2) :=
        nearest_double (m * 10 ^ Z.max 0 e) (10 ^ Z.max 0 (- e)) in
      if (2 ^ 1024 <=? significand * 2 ^ e2)%Z then Raise OverflowError
      else
        let n := if (0 <=? e2)%Z then (significand * 2 ^ e2)%Z
                 else (significand / 2 ^ (- e2))%Z in
        Ok (if neg then (- n)%Z else n).

(** [int(v)] for a value of the settings. *)
Definition int_of `{H : Host} (v : pyval) : result Z :=
  match v with
  | PyStr s => match py_int s with Some n => Ok n | None => Raise ValueError end
  | PyInt n => Ok n
  | PyBool b => Ok (if b then 1 else 0)%Z
  | PyFloat lit => int_of_literal lit
  | PyNone | PyList _ | PyDict _ => Raise TypeError
  end.

(** A value that the program takes for a [str] without looking. *)
Definition expect_str (v : pyval) : result string :=
  match v with PyStr s => Ok s | _ => Raise OutsideModel end.


(** ** Qt's editable combo box

    An editable [QComboBox] as the dialog uses it: its items, the text of its
    line edit, and its [maxCount]. The current index is valid exactly when
    there are items: the first insertion into an empty box selects item 0 and
    shows its text, and [clear] leaves no selection and an empty text. *)

Record QComboBox : Type := {
  items : list string;
  currentText : string;
  maxCount : option nat
}.

Definition new_combo : QComboBox :=
  {| items := []; currentText := ""; maxCount := None |}.

Definition count (c : QComboBox) : nat := List.length (items c).

Definition itemText (c : QComboBox) (i : nat) : string := nth i (items c) "".

(** [addItems]: what exceeds [maxCount] is dropped. The flag tells whether
    the current index has changed (signal [currentIndexChanged]). *)
Definition addItems (l : list string) (c : QComboBox) : QComboBox * bool :=
  let room :=
    match maxCount c with
    | None => l
    | Some m => firstn (m - count c) l
    end in
  match items c, room with
  | [], first :: _ =>
      ({| items := room; currentText := first; maxCount := maxCount c |}, true)
  | _, _ =>
      ({| items := (items c ++ room)%list; currentText := currentText c;
          maxCount := maxCount c |}, false)
  end.

(** [setMaxCount(m)] for [m] at least 1: the items beyond [m] are removed. *)
Definition setMaxCount (m : nat) (c : QComboBox) : QComboBox :=
  {| items := firstn m (items c); currentText := currentText c; maxCount := Some m |}.

(** [clear], with the same flag as [addItems]. *)
Definition clear (c : QComboBox) : QComboBox * bool :=
  match items c with
  | [] => (c, false)
  | _ :: _ => ({| items := []; currentText := ""; maxCount := maxCount c |}, true)
  end.

(** [setEditText], and [setCurrentText] on an editable box. *)
Definition setEditText (t : string) (c : QComboBox) : QComboBox :=
  {| items := items c; currentText := t; maxCount := maxCount c |}.

(** [list(set(l))]: the distinct elements of [l]. Python leaves their order
    open; the model keeps them in the order of their last occurrence. *)
Definition list_set (l : list string) : list string := nodup string_dec l.

(** *** The input mask of a line edit

    [QLineEdit.setInputMask] with a mask of characters 9, the kind the dialog
    sets: each 9 is a place for one character that [QChar::isNumber] holds a
    number. [setText(t)] goes through [t] and puts each character the mask
    takes into the next free place, leaving out the others, until the places
    are filled ([maskString]); [text()] returns what the places hold. The
    characters are the UTF-16 code units of a [QString]: a character beyond
    the Basic Multilingual Plane is two surrogates, which are no numbers. The
    null character is taken at any place ([findInMask] returns the place
    itself when it is asked for a null character). *)

Section Mask.
Context {H : Host}.

Definition isNumber (cp : N) : bool :=
  if (cp <? 128)%N then (48 <=? cp)%N && (cp <=? 57)%N
  else if (cp <? 65536)%N then
    negb (is_high_surrogate cp || is_low_surrogate cp) && QChar_isNumber cp
  else false.

Definition takes_9 (c : option N) : bool :=
  match c with
  | Some cp => (cp =? 0)%N || isNumber cp
  | None => false
  end.

(** What [places] places 9 keep of the characters [cs]. *)
Fixpoint maskString (places : nat) (cs : list (option N * string)) : string :=
  match cs with
  | [] => EmptyString
  | (c, bytes) :: rest =>
      match places with
      | O => EmptyString
      | S places' =>
          if takes_9 c then bytes ++ maskString places' rest
          else maskString places rest
      end
  end.

(** The text a line edit with the mask [mask] holds after [setText(t)]. *)
Definition masked (mask t : string) : string :=
  maskString (String.length mask) (chars t).

(** The box as it is when its line edit has the mask [mask]: the text that
    was set in the line edit is held as the mask takes it. *)
Definition under_mask (mask : string) (c : QComboBox) : QComboBox :=
  {| items := items c; currentText := masked mask (currentText c);
     maxCount := maxCount c |}.

(** [lineEdit().setInputMask(mask)]: the text the line edit has is set again
    under the new mask. *)
Definition setInputMask (mask : string) (c : QComboBox) : QComboBox :=
  under_mask mask c.

End Mask.

(** ** The dialog: [ConfigDialog] *)

(** What the user does in the dialog. Typing into a field replaces its text;
    leaving the transform field after typing, or picking one of its items,
    calls [on_transform_change]. What is typed into the scale field is held
    as the input mask of that field takes it. *)
Inductive event : Type :=
| EditTransform (text : string)
| PickTransform (i : nat)
| EditLabel (text : string)
| EditXFormat (text : string)
| PickXFormat (i : nat)
| EditYFormat (text : string)
| PickYFormat (i : nat)
| EditScaler (text : string)
| PickScaler (i : nat)
| ClickReset
| ClickOk
| ClickCancel.

(** [QDialog.Accepted] and [QDialog.Rejected] *)
Inductive DialogCode : Type := Accepted | Rejected.

Module Dialog.

Record ConfigDialog : Type := {
  settings : option ref;
  transform_combo : QComboBox;
  transform_name_edit : string;
  x_format_combo : QComboBox;
  y_format_combo : QComboBox;
  scaler_combo : QComboBox;
  (** the result code once the dialog has closed *)
  result_code : option DialogCode
}.

Definition with_settings (r : option ref) (d : ConfigDialog) :=
  {| settings := r; transform_combo := transform_combo d;
     transform_name_edit := transform_name_edit d;
     x_format_combo := x_format_combo d; y_format_combo := y_format_combo d;
     scaler_combo := scaler_combo d; result_code := result_code d |}.
Definition with_transform_combo (c : QComboBox) (d : ConfigDialog) :=
  {| settings := settings d; transform_combo := c;
     transform_name_edit := transform_name_edit d;
     x_format_combo := x_format_combo d; y_format_combo := y_format_combo d;
     scaler_combo := scaler_combo d; result_code := result_code d |}.
Definition with_transform_name_edit (t : string) (d : ConfigDialog) :=
  {| settings := settings d; transform_combo := transform_combo d;
     transform_name_edit := t;
     x_format_combo := x_format_combo d; y_format_combo := y_format_combo d;
     scaler_combo := scaler_combo d; result_code := result_code d |}.
Definition with_x_format_combo (c : QComboBox) (d : ConfigDialog) :=
  {| settings := settings d; transform_combo := transform_combo d;
     transform_name_edit := transform_name_edit d;
     x_format_combo := c; y_format_combo := y_format_combo d;
     scaler_combo := scaler_combo d; result_code := result_code d |}.
Definition with_y_format_combo (c : QComboBox) (d : ConfigDialog) :=
  {| settings := settings d; transform_combo := transform_combo d;
     transform_name_edit := transform_name_edit d;
     x_format_combo := x_format_combo d; y_format_combo := c;
     scaler_combo := scaler_combo d; result_code := result_code d |}.
Definition with_scaler_combo (c : QComboBox) (d : ConfigDialog) :=
  {| settings := settings d; transform_combo := transform_combo d;
     transform_name_edit := transform_name_edit d;
     x_format_combo := x_format_combo d; y_format_combo := y_format_combo d;
     scaler_combo := c; result_code := result_code d |}.
Definition with_result_code (r : option DialogCode) (d : ConfigDialog) :=
  {| settings := settings d; transform_combo := transform_combo d;
     transform_name_edit := transform_name_edit d;
     x_format_combo := x_format_combo d; y_format_combo := y_format_combo d;
     scaler_combo := scaler_combo d; result_code := r |}.

Section Methods.
Context {H : Host}.

Definition St : Type := (World * ConfigDialog)%type.

(** The input mask of the line edit of the scale box. The constructor sets
    it on the new box, before the box has any item or text (line 176), and
    nothing changes it afterwards: whatever the program, the box or the user
    sets in this line edit is held as the mask takes it, so every step on
    the scale box ends with [under_mask scaler_mask]. *)
Definition scaler_mask : string := "999999999".

(** The dict [self.settings] refers to. *)
Definition settings_object : M St pydict :=
  me <- self ;;
  match settings me with
  | Some r => in_world (deref r)
  | None => raise TypeError
  end.

(** [self.settings[k]] *)
Definition setting (k : string) : M St pyval :=
  d <- settings_object ;;
  of_result (getitem (PyDict d) k).

(** [self.settings[k] = v]: a write to the object referred to. *)
Definition set_setting (k : string) (v : pyval) : M St unit :=
  me <- self ;;
  match settings me with
  | Some r =>
      d <- in_world (deref r) ;;
      in_world (assign r (dict_set d k v))
  | None => raise TypeError
  end.

(** [ConfigDialog.raise_error_msg] *)
Definition raise_error_msg (err : string) : M St unit :=
  in_world (modify (add_message err)).

(** [ConfigDialog.update_gui] *)
Definition update_gui : M St unit :=
  trans_v <- setting "last_transform" ;;
  trans <- of_result (expect_str trans_v) ;;
  transforms <- setting "transforms" ;;
  known <- of_result (contains transforms trans) ;;
  (if known then
     set_self (fun d => with_transform_combo (setEditText trans (transform_combo d)) d) ;;
     e <- of_result (getitem transforms trans) ;;
     has_name <- of_result (contains e "transform_name") ;;
     (if has_name then
        v <- of_result (getitem e "transform_name") ;;
        t <- of_result (as_str v) ;;
        set_self (with_transform_name_edit t)
      else ret tt) ;;
     has_x <- of_result (contains e "x_format") ;;
     (if has_x then
        v <- of_result (getitem e "x_format") ;;
        t <- of_result (as_str v) ;;
        set_self (fun d => with_x_format_combo (setEditText t (x_format_combo d)) d)
      else ret tt) ;;
     has_y <- of_result (contains e "y_format") ;;
     (if has_y then
        v <- of_result (getitem e "y_format") ;;
        t <- of_result (as_str v) ;;
        set_self (fun d => with_y_format_combo (setEditText t (y_format_combo d)) d)
      else ret tt) ;;
     has_s <- of_result (contains e "scaler") ;;
     (if has_s then
        v <- of_result (getitem e "scaler") ;;
        t <- of_result (as_str v) ;;
        set_self (fun d => with_scaler_combo
                             (under_mask scaler_mask (setEditText t (scaler_combo d))) d)
      else ret tt)
   else ret tt) ;;
  me <- self ;;
  let txt := transform_name_edit me in
  (if is_empty txt || startswith txt "EPSG"
   then set_self (with_transform_name_edit trans) else ret tt) ;;
  me <- self ;;
  (if is_empty (currentText (x_format_combo me))
   then set_self (fun d => with_x_format_combo (setEditText ",.0f" (x_format_combo d)) d)
   else ret tt) ;;
  me <- self ;;
  (if is_empty (currentText (y_format_combo me))
   then set_self (fun d => with_y_format_combo (setEditText ",.0f" (y_format_combo d)) d)
   else ret tt) ;;
  me <- self ;;
  (if is_empty (currentText (scaler_combo me))
   then set_self (fun d => with_scaler_combo
                             (under_mask scaler_mask (setEditText "1" (scaler_combo d))) d)
   else ret tt).

(** [ConfigDialog.on_transform_change] *)
Definition on_transform_change : M St unit :=
  me <- self ;;
  let txt := currentText (transform_combo me) in
  if is_empty txt then ret tt
  else
    trans <- in_world (get_transform (CrsStr txt)) ;;
    match trans with
    | None =>
        raise_error_msg ("The transform '" ++ txt ++ "' is invalid") ;;
        v <- setting "last_transform" ;;
        t <- of_result (as_str v) ;;
        set_self (fun d => with_transform_combo (setEditText t (transform_combo d)) d)
    | Some (name, _) =>
        set_self (fun d => with_transform_combo (setEditText name (transform_combo d)) d) ;;
        set_setting "last_transform" (PyStr name) ;;
        update_gui
    end.

(** [ConfigDialog.get_combo_items] *)
Definition get_combo_items (combo : QComboBox) : list string :=
  let items := [currentText combo] in
  let items := (items ++ map (itemText combo) (seq 0 (count combo)))%list in
  list_set items.

Definition str_list (l : list string) : pyval := PyList (map PyStr l).

(** [ConfigDialog.update_settings] *)
Definition update_settings : M St unit :=
  me <- self ;;
  let trans := currentText (transform_combo me) in
  let trans_label := transform_name_edit me in
  let x_format := currentText (x_format_combo me) in
  let y_format := currentText (y_format_combo me) in
  let scaler := currentText (scaler_combo me) in
  let setting_ : pydict :=
    [("transform_name", PyStr trans_label); ("x_format", PyStr x_format);
     ("y_format", PyStr y_format); ("scaler", PyStr scaler)] in
  transforms <- setting "transforms" ;;
  known <- of_result (contains transforms trans) ;;
  (if known then
     e <- of_result (getitem transforms trans) ;;
     match transforms, e with
     | PyDict ts, PyDict old =>
         set_setting "transforms" (PyDict (dict_set ts trans (PyDict (dict_update old setting_))))
     | _, _ => raise AttributeError
     end
   else
     match transforms with
     | PyDict ts => set_setting "transforms" (PyDict (dict_set ts trans (PyDict setting_)))
     | _ => raise TypeError
     end) ;;
  set_setting "last_transform" (PyStr trans) ;;
  me <- self ;;
  set_setting "x_formats" (str_list (get_combo_items (x_format_combo me))) ;;
  me <- self ;;
  set_setting "y_formats" (str_list (get_combo_items (y_format_combo me))) ;;
  me <- self ;;
  set_setting "scalers" (str_list (get_combo_items (scaler_combo me))).

(** The sample value of the format check, [1.2]. *)
Definition sample : float := 0x1.3333333333333p+0%float.

(** [ConfigDialog.accept] *)
Definition accept : M St unit :=
  me <- self ;;
  let trans := currentText (transform_combo me) in
  t <- in_world (get_transform (CrsStr trans)) ;;
  match t with
  | None => raise_error_msg ("The transform '" ++ trans ++ "' is invalid")
  | Some _ =>
      match format_float sample (currentText (x_format_combo me)) with
      | None => raise_error_msg "The x format string is invalid"
      | Some _ =>
          match format_float sample (currentText (y_format_combo me)) with
          | None => raise_error_msg "The y format string is invalid"
          | Some _ =>
              match py_int (currentText (scaler_combo me)) with
              | None => raise_error_msg "Multiplier is not an integer"
              | Some _ =>
                  update_settings ;;
                  set_self (with_result_code (Some Accepted))
              end
          end
      end
  end.

(** [QDialog.reject], which the Cancel button calls. *)
Definition reject : M St unit := set_self (with_result_code (Some Rejected)).

(** A call that may make the transform box emit [currentIndexChanged], to
    which [on_transform_change] is connected. *)
Definition change_transform_combo (f : QComboBox -> QComboBox * bool) : M St unit :=
  me <- self ;;
  let (c, changed) := f (transform_combo me) in
  set_self (with_transform_combo c) ;;
  if changed then on_transform_change else ret tt.

(** [ConfigDialog.reset_to_defaults] *)
Definition reset_to_defaults : M St unit :=
  r <- in_world (alloc default_settings) ;;
  set_self (with_settings (Some r)) ;;
  change_transform_combo clear ;;
  transforms <- setting "transforms" ;;
  ks <- of_result (keys transforms) ;;
  change_transform_combo (addItems ks) ;;
  set_self (fun d => with_x_format_combo (fst (clear (x_format_combo d))) d) ;;
  xs <- setting "x_formats" ;;
  xs <- of_result (as_str_list xs) ;;
  set_self (fun d => with_x_format_combo (fst (addItems xs (x_format_combo d))) d) ;;
  set_self (fun d => with_y_format_combo (fst (clear (y_format_combo d))) d) ;;
  ys <- setting "y_formats" ;;
  ys <- of_result (as_str_list ys) ;;
  set_self (fun d => with_y_format_combo (fst (addItems ys (y_format_combo d))) d) ;;
  set_self (fun d => with_scaler_combo
                       (under_mask scaler_mask (fst (clear (scaler_combo d)))) d) ;;
  ss <- setting "scalers" ;;
  ss <- of_result (as_str_list ss) ;;
  set_self (fun d => with_scaler_combo
                       (under_mask scaler_mask (fst (addItems ss (scaler_combo d)))) d) ;;
  update_gui.

(** [ConfigDialog.__init__], given [parent.settings]. The scale box gets its
    input mask when it is new, then its items. The signals are connected
    last, so nothing here calls [on_transform_change]. *)
Definition init (parent_settings : option ref) : M St unit :=
  set_self (with_settings parent_settings) ;;
  transforms <- setting "transforms" ;;
  ks <- of_result (keys transforms) ;;
  set_self (fun d => with_transform_combo
                       (setMaxCount 10 (fst (addItems ks new_combo))) d) ;;
  set_self (with_transform_name_edit "") ;;
  xs <- setting "x_formats" ;;
  xs <- of_result (as_str_list xs) ;;
  set_self (fun d => with_x_format_combo
                       (setMaxCount 10 (fst (addItems xs new_combo))) d) ;;
  ys <- setting "y_formats" ;;
  ys <- of_result (as_str_list ys) ;;
  set_self (fun d => with_y_format_combo
                       (setMaxCount 10 (fst (addItems ys new_combo))) d) ;;
  set_self (fun d => with_scaler_combo (setInputMask scaler_mask new_combo) d) ;;
  ss <- setting "scalers" ;;
  ss <- of_result (as_str_list ss) ;;
  set_self (fun d => with_scaler_combo
                       (under_mask scaler_mask
                          (setMaxCount 10 (fst (addItems ss (scaler_combo d))))) d) ;;
  v <- setting "last_transform" ;;
  t <- of_result (as_str v) ;;
  set_self (fun d => with_transform_combo (setEditText t (transform_combo d)) d) ;;
  update_gui.

(** The dialog object before its constructor has run. *)
Definition blank : ConfigDialog :=
  {| settings := None; transform_combo := new_combo; transform_name_edit := "";
     x_format_combo := new_combo; y_format_combo := new_combo;
     scaler_combo := new_combo; result_code := None |}.

(** A slot called by the event loop: an exception that escapes it is
    reported by the host, and the loop goes on with the state as it is. *)
Definition slot (m : M St unit) : M St unit :=
  fun s => match m s with (_, s') => (Ok tt, s') end.

Definition pick (i : nat) (c : QComboBox) : QComboBox :=
  if (i <? count c)%nat then setEditText (itemText c i) c else c.

(** What one event does to the open dialog. *)
Definition handle (e : event) : M St unit :=
  match e with
  | EditTransform t =>
      set_self (fun d => with_transform_combo (setEditText t (transform_combo d)) d) ;;
      slot on_transform_change
  | PickTransform i =>
      set_self (fun d => with_transform_combo (pick i (transform_combo d)) d) ;;
      slot on_transform_change
  | EditLabel t => set_self (with_transform_name_edit t)
  | EditXFormat t =>
      set_self (fun d => with_x_format_combo (setEditText t (x_format_combo d)) d)
  | PickXFormat i => set_self (fun d => with_x_format_combo (pick i (x_format_combo d)) d)
  | EditYFormat t =>
      set_self (fun d => with_y_format_combo (setEditText t (y_format_combo d)) d)
  | PickYFormat i => set_self (fun d => with_y_format_combo (pick i (y_format_combo d)) d)
  | EditScaler t =>
      set_self (fun d => with_scaler_combo
                           (under_mask scaler_mask (setEditText t (scaler_combo d))) d)
  | PickScaler i =>
      set_self (fun d => with_scaler_combo
                           (under_mask scaler_mask (pick i (scaler_combo d))) d)
  | ClickReset => slot reset_to_defaults
  | ClickOk => slot accept
  | ClickCancel => slot reject
  end.

(** [dlg.exec_()]: the events are handled in turn until the dialog closes;
    [None] when they run out while it is still open. *)
Fixpoint exec_ (events : list event) : M St (option DialogCode) :=
  match events with
  | [] => ret None
  | e :: rest =>
      handle e ;;
      me <- self ;;
      match result_code me with
      | Some code => ret (Some code)
      | None => exec_ rest
      end
  end.

End Methods.
End Dialog.

Module Widget.
Section Methods.
Context {H : Host}.

Definition St : Type := (World * SecondaryCoordinates)%type.

(** The object [self.settings] refers to; [None] has no subscript. *)
Definition settings_object (r : option ref) : M St pydict :=
  match r with
  | Some r => in_world (deref r)
  | None => raise TypeError
  end.

(** [SecondaryCoordinates._recursive_update] is [_recursive_update] above. *)

(** [SecondaryCoordinates.read_settings] *)
Definition read_settings : M St unit :=
  w <- in_world get ;;
  let json_settings := qsettings w in
  r <- in_world (alloc default_settings) ;;
  set_self (with_settings (Some r)) ;;
  if is_empty json_settings then ret tt
  else
    json_dict <- of_result (json_loads json_settings) ;;
    d1 <- in_world (deref r) ;;
    d1' <- of_result (_recursive_update d1 json_dict) ;;
    in_world (assign r d1') ;;
    set_self (with_settings (Some r)).

(** [SecondaryCoordinates.write_settings] *)
Definition write_settings : M St unit :=
  me <- self ;;
  d <- settings_object (settings me) ;;
  in_world (modify (set_qsettings (json_dumps d))).

(** The setter of the property [transform]. *)
Definition set_transform (value : crs_arg) : M St unit :=
  trans <- in_world (get_transform value) ;;
  match trans with
  | None => raise ValueError
  | Some (name, t) => set_self (with_transform name t)
  end.

(** The setter of the property [transform_name]: [QLabel.setText] takes a
    [str]. *)
Definition set_transform_name (value : pyval) : M St unit :=
  t <- of_result (as_str value) ;;
  set_self (with_label t).

(** The setters of [x_format] and [y_format]. The formatter closures read
    the attribute when they are called: [x_formatter] below. *)
Definition set_x_format (value : pyval) : M St unit :=
  f <- of_result (expect_str value) ;;
  set_self (with_x_format f).

Definition set_y_format (value : pyval) : M St unit :=
  f <- of_result (expect_str value) ;;
  set_self (with_y_format f).

(** The setter of [scaler]: [int(value)] of an int. *)
Definition set_scaler (value : Z) : M St unit :=
  set_self (with_scaler value).

(** [SecondaryCoordinates.update_src_crs] *)
Definition update_src_crs : M St unit :=
  p <- in_world current_project_crs ;;
  me <- self ;;
  let differs :=
    match sourceCrs (_crs me), p with
    | Some a, Some b => crs_ne a b
    | None, None => false
    | _, _ => true
    end in
  if differs then
    t <- in_world (setSourceCrs (_crs me) p) ;;
    set_self (with_crs t)
  else ret tt.

(** [SecondaryCoordinates.update_from_settings]; [arg] is the [settings]
    argument, [None] when it is left out. *)
Definition update_from_settings (arg : option ref) : M St unit :=
  me <- self ;;
  let chosen := match arg with Some r => Some r | None => settings me end in
  d <- settings_object chosen ;;
  trans_v <- of_result (getitem (PyDict d) "last_transform") ;;
  trans <- of_result (expect_str trans_v) ;;
  set_transform (CrsStr trans) ;;
  transforms <- of_result (getitem (PyDict d) "transforms") ;;
  e1 <- of_result (getitem transforms trans) ;;
  v1 <- of_result (getitem e1 "transform_name") ;;
  set_transform_name v1 ;;
  e2 <- of_result (getitem transforms trans) ;;
  v2 <- of_result (getitem e2 "x_format") ;;
  set_x_format v2 ;;
  e3 <- of_result (getitem transforms trans) ;;
  v3 <- of_result (getitem e3 "y_format") ;;
  set_y_format v3 ;;
  e4 <- of_result (getitem transforms trans) ;;
  v4 <- of_result (getitem e4 "scaler") ;;
  n <- of_result (int_of v4) ;;
  set_scaler n ;;
  set_self (with_settings chosen) ;;
  write_settings ;;
  set_self (with_edit "").

(** [self._x_formatter(v)] and [self._y_formatter(v)] *)
Definition x_formatter (v : float) : M St string :=
  me <- self ;;
  match format_float v (_x_format me) with
  | Some t => ret t
  | None => raise ValueError
  end.

Definition y_formatter (v : float) : M St string :=
  me <- self ;;
  match format_float v (_y_format me) with
  | Some t => ret t
  | None => raise ValueError
  end.

Definition is_QgsCsException (e : exn) : bool :=
  match e with QgsCsException => true | _ => false end.

(** [SecondaryCoordinates.read_coords] *)
Definition read_coords (p : QgsPointXY) : M St unit :=
  set_self (with_xy (Some p)) ;;
  update_src_crs ;;
  me <- self ;;
  r <- try_except
         (q <- in_world (transform (_crs me) p) ;; ret (Some q))
         is_QgsCsException
         (set_self (with_edit "") ;; ret None) ;;
  match r with
  | None => ret tt
  | Some (x1, y1) =>
      me <- self ;;
      x2 <- of_result (truediv x1 (_scaler me)) ;;
      y2 <- of_result (truediv y1 (_scaler me)) ;;
      tx <- x_formatter x2 ;;
      ty <- y_formatter y2 ;;
      set_self (with_edit (tx ++ ", " ++ ty))
  end.

(** [SecondaryCoordinates.on_config_dialog], with what the user does in the
    dialog. When the events run out while the dialog is still open, nothing
    has been returned to the widget yet, and nothing is adopted. *)
Definition on_config_dialog (events : list event) : M St unit :=
  fun s =>
    let (w, me) := s in
    match (Dialog.init (settings me) ;; Dialog.exec_ events) (w, Dialog.blank) with
    | (Raise e, (w', _)) => (Raise e, (w', me))
    | (Ok res, (w', dlg)) =>
        match res with
        | Some Accepted => update_from_settings (Dialog.settings dlg) (w', me)
        | _ => (Ok tt, (w', me))
        end
    end.

(** The widget object before [__init__] has assigned its attributes. *)
Definition blank : SecondaryCoordinates :=
  {| settings := None; xy := None; _transform := "";
     _crs := Native {| source := QgsCoordinateReferenceSystem (CrsStr "");
                       destination := QgsCoordinateReferenceSystem (CrsStr "") |};
     _x_format := ""; _y_format := ""; _scaler := 0; label := ""; edit := "" |}.

(** [SecondaryCoordinates.__init__]: the settings are read first, then the
    attributes get their first values. [QgsCoordinateTransform] takes a CRS
    and refuses [None]. *)
Definition init : M St unit :=
  read_settings ;;
  p <- in_world current_project_crs ;;
  dst <- in_world (new_crs (CrsStr "EPSG:6414")) ;;
  match p with
  | None => raise TypeError
  | Some src =>
      set_self (with_transform "EPSG:6414" (Native {| source := src; destination := dst |})) ;;
      set_self (with_x_format ",.0f") ;;
      set_self (with_y_format ",.0f") ;;
      set_self (with_scaler 1)
  end.

(** [SecondaryCoordinates.initGui]: the label starts with the text of
    [self._transform_name], the line edit empty. *)
Definition initGui : M St unit :=
  set_self (with_label "EPSG:6414") ;;
  set_self (with_edit "") ;;
  update_from_settings None.

End Methods.
End Widget.

(** ** A host to run the model on

    One host among those the theorems quantify over, used where a statement
    is evaluated on concrete input. Its registry knows EPSG:4326 and
    EPSG:6414, by number and by name; its two engines reject a latitude
    beyond 90 degrees and otherwise hand the coordinates on; it formats
    floats for the fixed-point patterns (an optional comma, an optional
    precision, the letter f) as Python does and rejects every other pattern;
    it writes JSON as [json.dumps] does for ASCII text; its Unicode database
    is that of Unicode 14.0. *)

Definition known_code (n : Z) : bool := (n =? 4326)%Z || (n =? 6414)%Z.

Definition demo_name (c : QgsCrs) : string :=
  match c with
  | QgsCoordinateReferenceSystem (CrsInt n) => "EPSG:" ++ py_str n
  | QgsCoordinateReferenceSystem (CrsStr s) => s
  end.

Definition demo_isValid (c : QgsCrs) : bool :=
  match c with
  | QgsCoordinateReferenceSystem (CrsInt n) => known_code n
  | QgsCoordinateReferenceSystem (CrsStr s) =>
      String.eqb s "EPSG:4326" || String.eqb s "EPSG:6414"
  end.

Definition in_domain (lat : float) : bool :=
  (PrimFloat.abs lat <=? 90)%float.

Definition demo_native (src dst : QgsCrs) (p : QgsPointXY) : option (float * float) :=
  if in_domain (y p) then Some (x p, y p) else None.

Definition demo_TransformPoint (wkt proj4 : string) (a b : float)
    : option (float * float * float) :=
  if in_domain a then Some (a, b, 0%float) else None.

(** The pattern of a fixed-point format: whether it groups thousands, and
    its precision (6 when none is given). *)
Definition parse_fixed (pattern : string) : option (bool * nat) :=
  let (grouping, s1) :=
    match pattern with
    | String ","%char r => (true, r)
    | _ => (false, pattern)
    end in
  let after_precision :=
    match s1 with
    | String "."%char r =>
        let (ds, rest) := span_digits r in
        if is_empty ds then None else Some (Z.to_nat (digits_to_Z ds), rest)
    | _ => Some (6%nat, s1)
    end in
  match after_precision with
  | Some (prec, "f") => Some (grouping, prec)
  | _ => None
  end.

Fixpoint zeros (n : nat) : string :=
  match n with O => EmptyString | S n' => String "0"%char (zeros n') end.

(** Commas between groups of three digits, counted from the right; [s] is
    read from the right, [n] is the number of digits since the last comma. *)
Fixpoint group_rev (rev : list ascii) (n : nat) (acc : string) : string :=
  match rev with
  | [] => acc
  | c :: rest =>
      if (n =? 3)%nat then group_rev rest 1 (String c (String ","%char acc))
      else group_rev rest (S n) (String c acc)
  end.

Definition group_thousands (digits : string) : string :=
  group_rev (rev (list_ascii_of_string digits)) 0 EmptyString.

Definition format_fixed (negative : bool) (scaled : Z) (grouping : bool) (prec : nat) : string :=
  let ds := py_str scaled in
  let ds := zeros (S prec - String.length ds) ++ ds in
  let n := (String.length ds - prec)%nat in
  let int_part := String.substring 0 n ds in
  let frac_part := String.substring n prec ds in
  (if negative then "-" else "")
  ++ (if grouping then group_thousands int_part else int_part)
  ++ (if (prec =? 0)%nat then "" else "." ++ frac_part).

Definition demo_format (v : float) (pattern : string) : option string :=
  match parse_fixed pattern with
  | None => None
  | Some (grouping, prec) =>
      Some
        match Prim2SF v with
        | SpecFloat.S754_nan => "nan"
        | SpecFloat.S754_infinity neg => if neg then "-inf" else "inf"
        | SpecFloat.S754_zero neg => format_fixed neg 0 grouping prec
        | SpecFloat.S754_finite neg m e =>
            let t := (10 ^ Z.of_nat prec)%Z in
            let scaled :=
              if (0 <=? e)%Z then (Z.pos m * 2 ^ e * t)%Z
              else round_half_even (Z.pos m * t) (2 ^ (- e)) in
            format_fixed neg scaled grouping prec
        end
  end.

Definition hex_digit (n : N) : ascii :=
  if (n <? 10)%N then ascii_of_N (48 + n) else ascii_of_N (87 + n).

Fixpoint dumps_str_body (s : string) : string :=
  match s with
  | EmptyString => EmptyString
  | String c r =>
      let n := N_of_ascii c in
      (if (n =? 34)%N then String (byte_of 92) (String (byte_of 34) EmptyString)
       else if (n =? 92)%N then String (byte_of 92) (String (byte_of 92) EmptyString)
       else if (n =? 10)%N then String (byte_of 92) "n"
       else if (n =? 13)%N then String (byte_of 92) "r"
       else if (n =? 9)%N then String (byte_of 92) "t"
       else if (n =? 8)%N then String (byte_of 92) "b"
       else if (n =? 12)%N then String (byte_of 92) "f"
       else if (n <? 32)%N then
         String (byte_of 92) ("u00" ++ String (hex_digit (n / 16)) (String (hex_digit (n mod 16)) EmptyString))
       else String c EmptyString)
      ++ dumps_str_body r
  end.

Definition dumps_str (s : string) : string :=
  String (byte_of 34) (dumps_str_body s ++ String (byte_of 34) EmptyString).

Fixpoint dumps (v : pyval) : string :=
  match v with
  | PyNone => "null"
  | PyBool b => if b then "true" else "false"
  | PyInt n => py_str n
  | PyFloat lit => lit
  | PyStr s => dumps_str s
  | PyList l =>
      "[" ++ (fix go (l : list pyval) (first : bool) : string :=
                match l with
                | [] => EmptyString
                | v :: rest => (if first then "" else ", ") ++ dumps v ++ go rest false
                end) l true ++ "]"
  | PyDict d =>
      "{" ++ (fix go (d : list (string * pyval)) (first : bool) : string :=
                match d with
                | [] => EmptyString
                | (k, v) :: rest =>
                    (if first then "" else ", ") ++ dumps_str k ++ ": " ++ dumps v
                    ++ go rest false
                end) d true ++ "}"
  end.

(** The whitespace and the decimal digits of Unicode 14.0 beyond ASCII, and
    its characters of the categories Nd, Nl and No in the Basic Multilingual
    Plane. The decimal digits come in runs of ten, listed by their zeros. *)
Definition demo_whitespace : list N :=
  [133; 160; 5760; 8192; 8193; 8194; 8195; 8196;
   8197; 8198; 8199; 8200; 8201; 8202; 8232; 8233;
   8239; 8287; 12288]%N.

Definition demo_zeros : list N :=
  [1632; 1776; 1984; 2406; 2534; 2662; 2790; 2918;
   3046; 3174; 3302; 3430; 3558; 3664; 3792; 3872;
   4160; 4240; 6112; 6160; 6470; 6608; 6784; 6800;
   6992; 7088; 7232; 7248; 42528; 43216; 43264; 43472;
   43504; 43600; 44016; 65296; 66720; 68912; 69734; 69872;
   69942; 70096; 70384; 70736; 70864; 71248; 71360; 71472;
   71904; 72016; 72784; 73040; 73120; 92768; 92864; 93008;
   120782; 120792; 120802; 120812; 120822; 123200; 123632; 125264;
   130032]%N.

Definition demo_numbers : list (N * N) :=
  [(178, 179); (185, 185); (188, 190); (1632, 1641); (1776, 1785);
   (1984, 1993); (2406, 2415); (2534, 2543); (2548, 2553); (2662, 2671);
   (2790, 2799); (2918, 2927); (2930, 2935); (3046, 3058); (3174, 3183);
   (3192, 3198); (3302, 3311); (3416, 3422); (3430, 3448); (3558, 3567);
   (3664, 3673); (3792, 3801); (3872, 3891); (4160, 4169); (4240, 4249);
   (4969, 4988); (5870, 5872); (6112, 6121); (6128, 6137); (6160, 6169);
   (6470, 6479); (6608, 6618); (6784, 6793); (6800, 6809); (6992, 7001);
   (7088, 7097); (7232, 7241); (7248, 7257); (8304, 8304); (8308, 8313);
   (8320, 8329); (8528, 8578); (8581, 8585); (9312, 9371); (9450, 9471);
   (10102, 10131); (11517, 11517); (12295, 12295); (12321, 12329); (12344, 12346);
   (12690, 12693); (12832, 12841); (12872, 12879); (12881, 12895); (12928, 12937);
   (12977, 12991); (42528, 42537); (42726, 42735); (43056, 43061); (43216, 43225);
   (43264, 43273); (43472, 43481); (43504, 43513); (43600, 43609); (44016, 44025);
   (65296, 65305)]%N.

Definition demo_isspace (cp : N) : bool := existsb (N.eqb cp) demo_whitespace.

Definition demo_decimal (cp : N) : Z :=
  match find (fun zero => (zero <=? cp)%N && (cp <? zero + 10)%N) demo_zeros with
  | Some zero => Z.of_N (cp - zero)
  | None => (-1)%Z
  end.

Definition demo_isNumber (cp : N) : bool :=
  existsb (fun r => (fst r <=? cp)%N && (cp <=? snd r)%N) demo_numbers.

#[local] Instance demo_host : Host := {|
  isValid := demo_isValid;
  toWkt := demo_name;
  crs_ne := fun a b => negb (String.eqb (demo_name a) (demo_name b));
  native_transform := demo_native;
  TransformPoint := demo_TransformPoint;
  format_float := demo_format;
  json_dumps := fun d => dumps (PyDict d);
  Py_UNICODE_ISSPACE := demo_isspace;
  Py_UNICODE_TODECIMAL := demo_decimal;
  QChar_isNumber := demo_isNumber
|}.

Definition wgs84 : QgsCrs := QgsCoordinateReferenceSystem (CrsStr "EPSG:4326").

(** A world with nothing stored, and its project in geographic coordinates. *)
Definition fresh_world : World :=
  {| heap := []; project_crs := Some wgs84; qsettings := ""; calls := []; messages := [] |}.

Definition stored (text : string) : World := set_qsettings text fresh_world.

(** ** Vocabulary of the statements *)

(** The value found by following the keys of [path] through nested dicts. *)
Fixpoint lookup_path (v : pyval) (path : list string) : option pyval :=
  match path with
  | [] => Some v
  | k :: rest =>
      match v with
      | PyDict d =>
          match dict_get d k with
          | Some v' => lookup_path v' rest
          | None => None
          end
      | _ => None
      end
  end.

(** [agrees d1 d2]: wherever [d1] has a dict under a key that [d2] has too,
    [d2] has a dict there as well, and so on inside the two. A stored text
    written from a settings structure agrees with the defaults: it has a dict
    of transforms, and a dict for each of them. *)
Fixpoint agrees (d1 : pydict) (d2 : pyval) {struct d2} : bool :=
  match d2 with
  | PyDict items =>
      (fix all (items : list (string * pyval)) : bool :=
         match items with
         | [] => true
         | (k, v) :: rest =>
             match dict_get d1 k with
             | Some (PyDict d1k) =>
                 match v with
                 | PyDict _ => agrees d1k v
                 | _ => false
                 end
             | _ => true
             end && all rest
         end) items
  | _ => true
  end.

(** What [_recursive_update] leaves under the key [k] of [d1] when the other
    dict has [v] there: the merge of the two when both are dicts, otherwise
    [v]. *)
Definition merged_value (d1 : pydict) (k : string) (v : pyval) : pyval :=
  match v, dict_get d1 k with
  | PyDict _, Some (PyDict d1k) => PyDict (recursive_update_dict d1k v)
  | _, _ => v
  end.

(** No dict inside the value has a key twice. *)
Inductive unique_keys : pyval -> Prop :=
| uk_none : unique_keys PyNone
| uk_bool : forall b, unique_keys (PyBool b)
| uk_int : forall n, unique_keys (PyInt n)
| uk_float : forall lit, unique_keys (PyFloat lit)
| uk_str : forall s, unique_keys (PyStr s)
| uk_list : forall l, Forall unique_keys l -> unique_keys (PyList l)
| uk_dict : forall d,
    NoDup (dict_keys d) ->
    Forall (fun kv => unique_keys (snd kv)) d ->
    unique_keys (PyDict d).

(** A quoted string of a JSON text. *)
Definition q (s : string) : string :=
  String (byte_of 34) (s ++ String (byte_of 34) EmptyString).

(** A text stored by an older version: one transform with one of its fields,
    and no list of scale factors. *)
Definition old_text : string :=
  "{" ++ q "transforms" ++ ": {" ++ q "EPSG:6414" ++ ": {" ++ q "x_format" ++ ": " ++ q ".3f"
  ++ "}}, " ++ q "last_transform" ++ ": " ++ q "EPSG:6414" ++ ", " ++ q "x_formats" ++ ": ["
  ++ q ".3f" ++ "]}".

Definition old_settings : pydict :=
  [("transforms", PyDict [("EPSG:6414", PyDict [("x_format", PyStr ".3f")])]);
   ("last_transform", PyStr "EPSG:6414");
   ("x_formats", PyList [PyStr ".3f"])].

(** The CRS a transform starts from when the project has none. *)
Definition source_or_default (w : World) : QgsCrs :=
  match project_crs w with
  | Some c => c
  | None => QgsCoordinateReferenceSystem (CrsStr "EPSG:4326")
  end.

(** The adapter the resolver builds in the world [w]. *)
Definition adapter_for `{H : Host} (w : World) : CalcofiTransformer :=
  {| src_crs := Some (source_or_default w);
     crs := Some {| source_wkt := toWkt (source_or_default w);
                    target_proj4 := calcofi_proj4 |} |}.

(** The lookups of the default CRS that the resolver and the constructor of
    the adapter make when the project has no CRS. *)
Definition default_lookups (w : World) : list call :=
  match project_crs w with
  | Some _ => []
  | None => [CallCrs (CrsStr "EPSG:4326"); CallCrs (CrsStr "EPSG:4326")]
  end.

Definition add_calls (cs : list call) (w : World) : World :=
  {| heap := heap w; project_crs := project_crs w; qsettings := qsettings w;
     calls := (calls w ++ cs)%list; messages := messages w |}.

(** The widget on the host above, constructed and shown, with nothing
    stored. *)
Definition demo_state : World * SecondaryCoordinates :=
  Eval vm_compute in
    snd ((Widget.init ;; Widget.initGui)%M (fresh_world, Widget.blank)).

Definition off_california : QgsPointXY := {| x := (-122)%float; y := 37%float |}.




(** A stored text that names a last transform and nothing else. *)
Definition lone_last_transform : string :=
  "{" ++ q "last_transform" ++ ": " ++ q "EPSG:4326" ++ "}".

(** The widget constructed with that text stored: the defaults, with a last
    transform that is not among the transforms. *)
Definition unlisted_state : World * SecondaryCoordinates :=
  Eval vm_compute in snd (Widget.init (stored lone_last_transform, Widget.blank)).

(** A session in which the user types a new x format and accepts. *)
Definition new_format_session (pattern : string) : list event :=
  [EditXFormat pattern; ClickOk].

(** One dialog after the other. *)
Fixpoint sessions `{H : Host} (l : list (list event)) : M Widget.St unit :=
  match l with
  | [] => ret tt
  | events :: rest => Widget.on_config_dialog events ;; sessions rest
  end.

(** Nine sessions, each with an x format not used before. *)
Definition nine_sessions : list (list event) :=
  map new_format_session [".2f"; ".3f"; ".4f"; ".5f"; ".6f"; ".7f"; ".8f"; ".9f"; ".0f"].

(** The strings of a list of the settings. *)
Definition settings_list (w : World) (r : option ref) (key : string) : option (list string) :=
  match r with
  | Some r =>
      match nth_error (heap w) r with
      | Some d =>
          match dict_get d key with
          | Some (PyList l) =>
              match all_str l with
              | Ok ss => Some ss
              | Raise _ => None
              end
          | _ => None
          end
      | None => None
      end
  | None => None
  end.

(** A combo box after [setMaxCount(10)]. *)
Definition capped (c : QComboBox) : Prop :=
  maxCount c = Some 10 /\ count c <= 10.

(** The dialog while it is open: its three history boxes are capped, and it
    has no result code yet. *)
Definition open_dialog (d : Dialog.ConfigDialog) : Prop :=
  capped (Dialog.x_format_combo d) /\ capped (Dialog.y_format_combo d)
  /\ capped (Dialog.scaler_combo d) /\ Dialog.result_code d = None.

(** [preserves P m]: whatever [m] returns or raises, a dialog that satisfies
    [P] before satisfies it after. *)
Definition preserves {A : Type} (P : Dialog.ConfigDialog -> Prop) (m : M Dialog.St A) : Prop :=
  forall s r s', m s = (r, s') -> P (snd s) -> P (snd s').

(** [establishes P m]: when [m] returns, the dialog satisfies [P]. *)
Definition establishes {A : Type} (P : Dialog.ConfigDialog -> Prop) (m : M Dialog.St A) : Prop :=
  forall s a s', m s = (Ok a, s') -> P (snd s').

(** The three history lists of the settings object [r]: lists of distinct
    strings, eleven at most. *)
Definition lists_bounded (w : World) (r : option ref) : Prop :=
  forall key, In key ["x_formats"; "y_formats"; "scalers"] ->
              exists l, settings_list w r key = Some l /\ NoDup l /\ List.length l <= 11.

(** [keeps P m]: whatever [m] returns or raises, a state of the widget that
    satisfies [P] before satisfies it after; [reaches P m]: when [m]
    returns, the state satisfies [P]. *)
Definition keeps {A : Type} (P : Widget.St -> Prop) (m : M Widget.St A) : Prop :=
  forall s r s', m s = (r, s') -> P s -> P s'.

Definition reaches {A : Type} (P : Widget.St -> Prop) (m : M Widget.St A) : Prop :=
  forall s a s', m s = (Ok a, s') -> P s'.

(** A text of ASCII characters. *)
Fixpoint all_ascii (s : string) : bool :=
  match s with
  | EmptyString => true
  | String c r => (N_of_ascii c <? 128)%N && all_ascii r
  end.

(** A text of the digits 0 to 9. *)
Fixpoint all_digits (s : string) : bool :=
  match s with
  | EmptyString => true
  | String c r => is_digit c && all_digits r
  end.

(** A decoded value that is neither a list nor a dict. *)
Definition is_atom (v : pyval) : Prop :=
  match v with
  | PyList _ | PyDict _ => False
  | _ => True
  end.

(** [extends v1 d]: the dict [d] has the keys of the dict [v1] first and in
    the order of [v1], and so on inside the dicts the two have under the
    same key. *)
Fixpoint extends (v1 : pyval) (d : pydict) {struct v1} : bool :=
  match v1 with
  | PyDict items1 =>
      (fix go (items1 : list (string * pyval)) (d : pydict) {struct items1} : bool :=
         match items1, d with
         | [], _ => true
         | _ :: _, [] => false
         | (k1, a) :: rest1, (k, b) :: rest =>
             String.eqb k1 k
             && match a, b with
                | PyDict _, PyDict db => extends a db
                | _, _ => true
                end
             && go rest1 rest
         end) items1 d
  | _ => true
  end.

(** The widget after a session in which the user has typed a scale of zero
    and accepted. *)
Definition zero_scale_state : World * SecondaryCoordinates :=
  Eval vm_compute in snd (Widget.on_config_dialog [EditScaler "0"; ClickOk] demo_state).

(** The settings object of a state of the widget. *)
Definition settings_value (s : World * SecondaryCoordinates) : option pydict :=
  match settings (snd s) with
  | Some r => nth_error (heap (fst s)) r
  | None => None
  end.

(** [stable P m]: whatever [m] returns or raises, a state that satisfies [P]
    before satisfies it after. *)
Definition stable {St A : Type} (P : St -> Prop) (m : M St A) : Prop :=
  forall s r s', m s = (r, s') -> P s -> P s'.

(** What [update_gui] leaves in a field that it finds empty. *)
Definition or_default (text default : string) : string :=
  if is_empty text then default else text.

(** The label [update_gui] shows for a transform whose stored label is
    [name]. *)
Definition shown_label (name trans : string) : string :=
  if is_empty name || startswith name "EPSG" then trans else name.

(** The settings object of a state of the dialog. *)
Definition dialog_settings_value (s : World * Dialog.ConfigDialog) : option pydict :=
  match Dialog.settings (snd s) with
  | Some r => nth_error (heap (fst s)) r
  | None => None
  end.

(** The dialog opened on the widget of [demo_state]. *)
Definition demo_dialog : World * Dialog.ConfigDialog :=
  Eval vm_compute in
    snd (Dialog.init (settings (snd demo_state)) (fst demo_state, Dialog.blank)).

(** The dialog with a text typed into its transform field, before the field
    is left. *)
Definition with_transform_text (text : string) (s : World * Dialog.ConfigDialog)
    : World * Dialog.ConfigDialog :=
  (fst s, Dialog.with_transform_combo (setEditText text (Dialog.transform_combo (snd s))) (snd s)).

(** The dict [update_settings] builds from the fields of the dialog. *)
Definition dialog_entry (d : Dialog.ConfigDialog) : pydict :=
  [("transform_name", PyStr (Dialog.transform_name_edit d));
   ("x_format", PyStr (currentText (Dialog.x_format_combo d)));
   ("y_format", PyStr (currentText (Dialog.y_format_combo d)));
   ("scaler", PyStr (currentText (Dialog.scaler_combo d)))].

(** The settings object after [update_settings], from the object [obj]
    before it, whose transforms are [ts]. *)
Definition saved_settings (obj ts : pydict) (d : Dialog.ConfigDialog) : pydict :=
  let trans := currentText (Dialog.transform_combo d) in
  let e :=
    match dict_get ts trans with
    | Some (PyDict old) => dict_update old (dialog_entry d)
    | _ => dialog_entry d
    end in
  dict_set
    (dict_set
       (dict_set
          (dict_set
             (dict_set obj "transforms" (PyDict (dict_set ts trans (PyDict e))))
             "last_transform" (PyStr trans))
          "x_formats" (Dialog.str_list (Dialog.get_combo_items (Dialog.x_format_combo d))))
       "y_formats" (Dialog.str_list (Dialog.get_combo_items (Dialog.y_format_combo d))))
    "scalers" (Dialog.str_list (Dialog.get_combo_items (Dialog.scaler_combo d))).

(** A box that lists [l] and shows [text]. *)
Definition box (l : list string) (text : string) : QComboBox :=
  {| items := l; currentText := text; maxCount := Some 10 |}.

(** The dialog that shows the default settings, held in the object [r]: the
    first of the two default transforms with its entry, and the default
    lists. *)
Definition defaults_shown (r : ref) (code : option DialogCode) : Dialog.ConfigDialog :=
  {| Dialog.settings := Some r;
     Dialog.transform_combo := box ["EPSG:6414"; "+proj=calcofi +ellps=clrk66"] "EPSG:6414";
     Dialog.transform_name_edit := "EPSG:6414";
     Dialog.x_format_combo := box [".1f"; ",.0f"] ",.0f";
     Dialog.y_format_combo := box [".1f"; ",.0f"] ",.0f";
     Dialog.scaler_combo := box ["1"; "1000"; "1852"] "1";
     Dialog.result_code := code |}.

(** A dict as the settings are: no key twice, at any depth, and the keys of
    the defaults first. *)
Definition settings_like (obj : pydict) : Prop :=
  unique_keys (PyDict obj) /\ extends (PyDict default_settings) obj = true.

(** Every object of the store is one. *)
Definition store_of_settings (w : World) : Prop := Forall settings_like (heap w).

(** Two sessions: in the first the user types a new x format and accepts,
    in the second a new transform and a label for it, and accepts. *)
Definition two_sessions : list (list event) :=
  [new_format_session ".2f"; [EditTransform "4326"; EditLabel "WGS 84"; ClickOk]].

(** The widget constructed and shown with the text of an older version
    stored, after these two sessions. *)
Definition after_sessions : result unit * (World * SecondaryCoordinates) :=
  Eval vm_compute in
    (Widget.init ;; Widget.initGui ;; sessions two_sessions)%M (stored old_text, Widget.blank).

(** A stored text whose last transform the registry of the host above does
    not know, and the widget constructed with it. *)
Definition unknown_last_transform : string :=
  "{" ++ q "last_transform" ++ ": " ++ q "EPSG:1" ++ "}".

Definition unknown_state : World * SecondaryCoordinates :=
  Eval vm_compute in snd (Widget.init (stored unknown_last_transform, Widget.blank)).

(** A stored text that gives the first default transform a scale that is no
    integer, and the widget constructed with it. *)
Definition bad_scale_text : string :=
  "{" ++ q "transforms" ++ ": {" ++ q "EPSG:6414" ++ ": {" ++ q "scaler" ++ ": " ++ q "1e3"
  ++ "}}}".

Definition bad_scale_state : World * SecondaryCoordinates :=
  Eval vm_compute in snd (Widget.init (stored bad_scale_text, Widget.blank)).

(** * Properties *)

(** ** Dicts *)

Lemma dict_get_set_same (d : pydict) (k : string) (v : pyval) :
  dict_get (dict_set d k v) k = Some v.
Proof.
  induction d as [|[k' v'] d IH]; simpl.
  - now rewrite String.eqb_refl.
  - destruct (String.eqb k k') eqn:E; simpl; rewrite E; auto.
Qed.

Lemma dict_get_set_other (d : pydict) (k k' : string) (v : pyval) :
  k <> k' -> dict_get (dict_set d k v) k' = dict_get d k'.
Proof.
  intros Hne. induction d as [|[k0 v0] d IH]; simpl.
  - destruct (String.eqb k' k) eqn:E; auto.
    apply String.eqb_eq in E. congruence.
  - destruct (String.eqb k k0) eqn:E; simpl.
    + apply String.eqb_eq in E. subst k0.
      destruct (String.eqb k' k) eqn:E'; auto.
      apply String.eqb_eq in E'. congruence.
    + now rewrite IH.
Qed.

Lemma dict_keys_set (d : pydict) (k : string) (v : pyval) :
  dict_keys (dict_set d k v) =
  if dict_has d k then dict_keys d else (dict_keys d ++ [k])%list.
Proof.
  unfold dict_has, dict_keys. induction d as [|[k' v'] d IH]; simpl; auto.
  destruct (String.eqb k k') eqn:E; simpl; auto.
  rewrite IH. now destruct (dict_get d k).
Qed.

Lemma dict_get_None_keys (d : pydict) (k : string) :
  dict_get d k = None <-> ~ In k (dict_keys d).
Proof.
  unfold dict_keys. induction d as [|[k' v'] d IH]; simpl.
  - tauto.
  - destruct (String.eqb k k') eqn:E.
    + apply String.eqb_eq in E. subst. split; [discriminate | tauto].
    + apply String.eqb_neq in E. rewrite IH. split.
      * intros Hn [Hk|Hk]; [congruence | contradiction].
      * intros Hn Hk. apply Hn. now right.
Qed.

Lemma dict_get_In (d : pydict) (k : string) (v : pyval) :
  dict_get d k = Some v -> In (k, v) d.
Proof.
  induction d as [|[k' v'] d IH]; simpl; [discriminate|].
  destruct (String.eqb k k') eqn:E.
  - apply String.eqb_eq in E. intros [= ->]. subst. now left.
  - intros Hg. right. auto.
Qed.

Lemma dict_set_unique_keys (d : pydict) (k : string) (v : pyval) :
  NoDup (dict_keys d) -> NoDup (dict_keys (dict_set d k v)).
Proof.
  intros Hd. rewrite dict_keys_set. unfold dict_has.
  destruct (dict_get d k) eqn:E; auto.
  apply dict_get_None_keys in E.
  apply NoDup_app; auto.
  - constructor; [intros []|constructor].
  - intros a Ha [<-|[]]. contradiction.
Qed.

Lemma dict_set_Forall (P : pyval -> Prop) (d : pydict) (k : string) (v : pyval) :
  Forall (fun kv => P (snd kv)) d -> P v ->
  Forall (fun kv => P (snd kv)) (dict_set d k v).
Proof.
  intros Hd Hv. induction Hd as [|[k' v'] d Hkv Hd IH]; simpl.
  - constructor; auto.
  - destruct (String.eqb k k'); constructor; auto.
Qed.

(** ** The decoder *)

Lemma atom_unique_keys (v : pyval) : is_atom v -> unique_keys v.
Proof. destruct v; simpl; intros Hv; try contradiction; constructor. Qed.

Lemma scan_number_atom (s : string) (v : pyval) (r : string) :
  scan_number s = Some (v, r) -> is_atom v.
Proof.
  unfold scan_number.
  repeat match goal with
         | |- context [let (_, _) := ?e in _] => destruct e
         | |- context [match ?e with _ => _ end] => destruct e
         end;
    (intros [= <- <-]; exact I) || (intros; discriminate).
Qed.

Lemma scan_literal_atom (s : string) (v : pyval) (r : string) :
  scan_literal s = Parsed v r -> is_atom v.
Proof.
  unfold scan_literal.
  repeat match goal with
         | |- context [match strip_prefix ?p ?s with _ => _ end] =>
             destruct (strip_prefix p s)
         end;
    try (intros [= <- <-]; exact I).
  destruct (scan_number s) as [[v' r']|] eqn:E; [|intros; discriminate].
  intros [= <- <-]. eapply scan_number_atom; eauto.
Qed.

Lemma scan_once_S (fuel : nat) (s : string) :
  scan_once (S fuel) s =
  match s with
  | EmptyString => Malformed
  | String c r =>
      if Ascii.eqb c (byte_of 34) then
        match scan_string r with
        | Some (t, rest) => Parsed (PyStr t) rest
        | None => Malformed
        end
      else if Ascii.eqb c "{"%char then
        if starts_with "}"%char (skip_ws r) then Parsed (PyDict []) (tail (skip_ws r))
        else parse_members fuel [] (skip_ws r)
      else if Ascii.eqb c "["%char then
        if starts_with "]"%char (skip_ws r) then Parsed (PyList []) (tail (skip_ws r))
        else parse_elements fuel [] (skip_ws r)
      else scan_literal s
  end.
Proof. reflexivity. Qed.

Lemma parse_members_S (fuel : nat) (acc : pydict) (s : string) :
  parse_members (S fuel) acc s =
  match s with
  | String q r =>
      if Ascii.eqb q (byte_of 34) then
        match scan_string r with
        | None => Malformed
        | Some (key, r1) =>
            if starts_with ":"%char (skip_ws r1) then
              match scan_once fuel (skip_ws (tail (skip_ws r1))) with
              | Parsed v r3 =>
                  if starts_with "}"%char (skip_ws r3) then
                    Parsed (PyDict (dict_set acc key v)) (tail (skip_ws r3))
                  else if starts_with ","%char (skip_ws r3) then
                    parse_members fuel (dict_set acc key v) (skip_ws (tail (skip_ws r3)))
                  else Malformed
              | Malformed => Malformed
              | Exhausted => Exhausted
              end
            else Malformed
        end
      else Malformed
  | EmptyString => Malformed
  end.
Proof. reflexivity. Qed.

Lemma parse_elements_S (fuel : nat) (acc : list pyval) (s : string) :
  parse_elements (S fuel) acc s =
  match scan_once fuel s with
  | Parsed v r1 =>
      if starts_with "]"%char (skip_ws r1) then Parsed (PyList (acc ++ [v])) (tail (skip_ws r1))
      else if starts_with ","%char (skip_ws r1) then
        parse_elements fuel (acc ++ [v]) (skip_ws (tail (skip_ws r1)))
      else Malformed
  | Malformed => Malformed
  | Exhausted => Exhausted
  end.
Proof. reflexivity. Qed.

(** One case of a parser's answer: the head of the match or test that
    decides it. *)
Ltac parser_case :=
  match goal with
  | |- (match ?e with _ => _ end) = _ -> _ => destruct e eqn:?
  | |- (if ?e then _ else _) = _ -> _ => destruct e eqn:?
  | |- (let (_, _) := ?e in _) = _ -> _ => destruct e eqn:?
  | |- Malformed = _ -> _ => intros; discriminate
  | |- Exhausted = _ -> _ => intros; discriminate
  | |- None = _ -> _ => intros; discriminate
  end.

(** Whatever the decoder returns has no key twice in a dict. *)
Lemma parse_unique_keys (fuel : nat) :
  (forall s v r, scan_once fuel s = Parsed v r -> unique_keys v) /\
  (forall acc s v r, parse_members fuel acc s = Parsed v r ->
                     unique_keys (PyDict acc) -> unique_keys v) /\
  (forall acc s v r, parse_elements fuel acc s = Parsed v r ->
                     Forall unique_keys acc -> unique_keys v).
Proof.
  induction fuel as [|fuel (IHv & IHm & IHe)].
  - repeat split; intros; discriminate.
  - repeat split.
    + intros s v r. rewrite scan_once_S. destruct s as [|c s]; [intros; discriminate|].
      parser_case.
      { repeat parser_case. intros [= <- <-]. constructor. }
      parser_case.
      { parser_case.
        - intros [= <- <-]. constructor; constructor.
        - intros Hp. eapply IHm; eauto. constructor; constructor. }
      parser_case.
      { parser_case.
        - intros [= <- <-]. constructor; constructor.
        - intros Hp. eapply IHe; eauto. }
      intros Hp. apply atom_unique_keys. eapply scan_literal_atom; eauto.
    + intros acc s v r. rewrite parse_members_S.
      destruct s as [|c s]; [intros; discriminate|].
      parser_case; [|parser_case].
      destruct (scan_string s) as [[key r1]|]; [|intros; discriminate].
      parser_case; [|parser_case].
      destruct (scan_once fuel _) as [v1 r3| |] eqn:Ev;
        try (intros; discriminate).
      intros Hp Hacc.
      assert (Hacc' : unique_keys (PyDict (dict_set acc key v1))).
      { inversion Hacc; subst. constructor.
        - now apply dict_set_unique_keys.
        - apply dict_set_Forall; eauto. }
      revert Hp. parser_case.
      { intros [= <- <-]. exact Hacc'. }
      parser_case; [|parser_case].
      intros Hp. eapply IHm; eauto.
    + intros acc s v r. rewrite parse_elements_S.
      destruct (scan_once fuel s) as [v1 r1| |] eqn:Ev; try (intros; discriminate).
      intros Hp Hacc.
      assert (Hacc' : Forall unique_keys (acc ++ [v1])).
      { apply Forall_app. split; auto. constructor; eauto. }
      revert Hp. parser_case.
      { intros [= <- <-]. now constructor. }
      parser_case; [|parser_case].
      intros Hp. eapply IHe; eauto.
Qed.

Lemma json_loads_unique_keys (text : string) (v : pyval) :
  json_loads text = Ok v -> unique_keys v.
Proof.
  unfold json_loads.
  destruct (scan_once _ _) as [v' rest| |] eqn:E; try (intros; discriminate).
  destruct (is_empty (skip_ws rest)); [|intros; discriminate].
  intros [= <-]. eapply (proj1 (parse_unique_keys _)); eauto.
Qed.

Lemma json_loads_empty : json_loads "" = Raise JSONDecodeError.
Proof. reflexivity. Qed.

Lemma skip_ws_length (s : string) : String.length (skip_ws s) <= String.length s.
Proof.
  induction s as [|c s IH]; simpl; auto.
  destruct (is_ws c); simpl; lia.
Qed.

Lemma tail_length (c : ascii) (s : string) :
  starts_with c s = true -> S (String.length (tail s)) = String.length s.
Proof. destruct s; simpl; [discriminate | auto]. Qed.

Lemma span_digits_length (s ds rest : string) :
  span_digits s = (ds, rest) ->
  String.length s = String.length ds + String.length rest.
Proof.
  revert ds rest. induction s as [|c s IH]; simpl; intros ds rest.
  - intros [= <- <-]. reflexivity.
  - destruct (is_digit c).
    + destruct (span_digits s) as [ds' rest'] eqn:E. intros [= <- <-].
      simpl. rewrite (IH _ _ eq_refl). reflexivity.
    + intros [= <- <-]. reflexivity.
Qed.

Lemma span_digits_rest (s ds rest : string) :
  span_digits s = (ds, rest) -> String.length rest <= String.length s.
Proof. intros E. apply span_digits_length in E. lia. Qed.

Lemma strip_prefix_length (p s r : string) :
  strip_prefix p s = Some r -> String.length s = String.length p + String.length r.
Proof.
  revert s. induction p as [|a p IH]; simpl; intros s.
  - intros [= <-]. reflexivity.
  - destruct s as [|b s]; [discriminate|].
    destruct (Ascii.eqb a b); [|discriminate].
    intros E. simpl. now rewrite (IH _ E).
Qed.

Lemma scan_number_consumes (s : string) (v : pyval) (r : string) :
  scan_number s = Some (v, r) -> String.length r < String.length s.
Proof.
  unfold scan_number.
  destruct s as [|c0 s0]; [discriminate|].
  set (s := String c0 s0).
  destruct (Ascii.eqb c0 "-"%char) eqn:Eneg.
  all: match goal with
       | |- match ?s1 with _ => _ end = _ -> _ =>
           assert (Hs1 : String.length s1 <= String.length s) by (subst s; simpl; lia);
           destruct s1 as [|c t] eqn:Es1; [discriminate|]
       end.
  all: destruct (is_digit c) eqn:Ed; [|discriminate].
  all: match goal with
       | |- (let (_, _) := ?e in _) = _ -> _ =>
           destruct e as [int_part s2] eqn:E2
       end.
  all: assert (Hs2 : String.length s2 < String.length (String c t))
    by (destruct (Ascii.eqb c "0"%char);
        [ injection E2 as <- <-; simpl; lia
        | simpl in E2; rewrite Ed in E2;
          destruct (span_digits t) as [ds' rest'] eqn:Et; injection E2 as <- <-;
          apply span_digits_rest in Et; simpl; lia ]).
  all: match goal with
       | |- (let (_, _) := ?e in _) = _ -> _ =>
           destruct e as [frac s3] eqn:E3
       end.
  all: assert (Hs3 : String.length s3 <= String.length s2)
    by (destruct s2 as [|d r2]; [injection E3 as <- <-; auto|];
        destruct (Ascii.eqb d "."%char); [|injection E3 as <- <-; auto];
        destruct (span_digits r2) as [fd r3] eqn:Ef;
        destruct (is_empty fd); injection E3 as <- <-; auto;
        apply span_digits_rest in Ef; simpl; lia).
  all: match goal with
       | |- (let (_, _) := ?e in _) = _ -> _ =>
           destruct e as [ex s4] eqn:E4
       end.
  all: assert (Hs4 : String.length s4 <= String.length s3)
    by (destruct s3 as [|e r3]; [injection E4 as <- <-; auto|];
        destruct (Ascii.eqb e "e"%char || Ascii.eqb e "E"%char); [|injection E4 as <- <-; auto];
        match type of E4 with
        | (let (_, _) := ?sg in _) = _ => destruct sg as [sign r4] eqn:Esg
        end;
        assert (String.length r4 <= String.length r3)
          by (destruct r3 as [|g r']; [injection Esg as <- <-; auto|];
              destruct (Ascii.eqb g "+"%char); [injection Esg as <- <-; simpl; lia|];
              destruct (Ascii.eqb g "-"%char); injection Esg as <- <-; simpl; lia);
        destruct (span_digits r4) as [ed r5] eqn:Ee;
        destruct (is_empty ed); injection E4 as <- <-; auto;
        apply span_digits_rest in Ee; simpl; lia).
  all: destruct (is_empty frac && is_empty ex); intros [= <- <-]; simpl in *; lia.
Qed.

Lemma scan_literal_consumes (s : string) (v : pyval) (r : string) :
  scan_literal s = Parsed v r -> String.length r < String.length s.
Proof.
  unfold scan_literal.
  repeat match goal with
         | |- context [match strip_prefix ?p ?s with _ => _ end] =>
             let E := fresh "E" in
             destruct (strip_prefix p s) eqn:E;
             [ intros [= <- <-]; apply strip_prefix_length in E; simpl in E; lia | ]
         end.
  destruct (scan_number s) as [[v' r']|] eqn:En; [|intros; discriminate].
  intros [= <- <-]. eapply scan_number_consumes; eauto.
Qed.

Lemma prepend_Some (t : string) (o : option (string * string)) (b r : string) :
  prepend t o = Some (b, r) -> exists b', o = Some (b', r).
Proof.
  destruct o as [[b' r']|]; simpl; [|discriminate].
  intros [= <- <-]. eauto.
Qed.

Lemma scan_string_String (c : ascii) (r : string) :
  scan_string (String c r) =
  if Ascii.eqb c (byte_of 34) then Some (EmptyString, r)
  else if Ascii.eqb c (byte_of 92) then
    match r with
    | EmptyString => None
    | String e r1 =>
        match simple_escape e with
        | Some ch => prepend (String ch EmptyString) (scan_string r1)
        | None =>
            if Ascii.eqb e "u"%char then
              match r1 with
              | String h1 (String h2 (String h3 (String h4 r5))) =>
                  match hex4 h1 h2 h3 h4 with
                  | None => None
                  | Some cp =>
                      if is_high_surrogate cp then
                        match r5 with
                        | String b (String u (String g1 (String g2 (String g3 (String g4 r11))))) =>
                            if Ascii.eqb b (byte_of 92) && Ascii.eqb u "u"%char then
                              match hex4 g1 g2 g3 g4 with
                              | None => None
                              | Some cp2 =>
                                  if is_low_surrogate cp2 then
                                    prepend (utf8_encode (join_surrogates cp cp2)) (scan_string r11)
                                  else prepend (utf8_encode cp) (scan_string r5)
                              end
                            else prepend (utf8_encode cp) (scan_string r5)
                        | _ => prepend (utf8_encode cp) (scan_string r5)
                        end
                      else prepend (utf8_encode cp) (scan_string r5)
                  end
              | _ => None
              end
            else None
        end
    end
  else if (N_of_ascii c <? 32)%N then None
  else prepend (String c EmptyString) (scan_string r).
Proof. reflexivity. Qed.

Lemma scan_string_consumes_bounded (n : nat) :
  forall s t r, String.length s <= n -> scan_string s = Some (t, r) ->
                String.length r < String.length s.
Proof.
  induction n as [|n IH]; intros s t r Hn.
  - destruct s; simpl in Hn; [discriminate | lia].
  - destruct s as [|c s]; [discriminate|].
    simpl in Hn.
    assert (Hrec : forall s' t', String.length s' <= String.length s ->
                                 prepend t' (scan_string s') = Some (t, r) ->
                                 String.length r < String.length (String c s)).
    { intros s' t' Hs' Hp. apply prepend_Some in Hp as [b' Hb'].
      apply IH in Hb'; [simpl; lia | lia]. }
    rewrite scan_string_String.
    destruct (Ascii.eqb c (byte_of 34)).
    { intros [= <- <-]. simpl. lia. }
    destruct (Ascii.eqb c (byte_of 92)).
    2:{ destruct (N_of_ascii c <? 32)%N; [intros; discriminate|]. apply Hrec. lia. }
    destruct s as [|e r1]; [intros; discriminate|].
    destruct (simple_escape e).
    { apply Hrec. simpl. lia. }
    destruct (Ascii.eqb e "u"%char); [|intros; discriminate].
    destruct r1 as [|h1 [|h2 [|h3 [|h4 r5]]]]; try (intros; discriminate).
    destruct (hex4 h1 h2 h3 h4) as [cp|]; [|intros; discriminate].
    destruct (is_high_surrogate cp).
    2:{ apply Hrec. simpl. lia. }
    destruct r5 as [|b [|u [|g1 [|g2 [|g3 [|g4 r11]]]]]];
      try (apply Hrec; simpl; lia).
    destruct (Ascii.eqb b (byte_of 92) && Ascii.eqb u "u"%char).
    2:{ apply Hrec. simpl. lia. }
    destruct (hex4 g1 g2 g3 g4) as [cp2|]; [|intros; discriminate].
    destruct (is_low_surrogate cp2); apply Hrec; simpl; lia.
Qed.

Lemma scan_string_consumes (s t r : string) :
  scan_string s = Some (t, r) -> String.length r < String.length s.
Proof. apply (scan_string_consumes_bounded (String.length s)). lia. Qed.

(** Every parser consumes at least one character of what it reads. *)
Lemma parse_consumes (fuel : nat) :
  (forall s v r, scan_once fuel s = Parsed v r -> String.length r < String.length s) /\
  (forall acc s v r, parse_members fuel acc s = Parsed v r ->
                     String.length r < String.length s) /\
  (forall acc s v r, parse_elements fuel acc s = Parsed v r ->
                     String.length r < String.length s).
Proof.
  induction fuel as [|fuel (IHv & IHm & IHe)].
  - repeat split; intros; discriminate.
  - repeat split.
    + intros s v r. rewrite scan_once_S. destruct s as [|c s]; [intros; discriminate|].
      parser_case.
      { destruct (scan_string s) as [[t rest]|] eqn:Es; [|intros; discriminate].
        intros [= <- <-]. apply scan_string_consumes in Es. simpl. lia. }
      pose proof (skip_ws_length s) as Hws.
      parser_case.
      { destruct (starts_with "}"%char (skip_ws s)) eqn:Eb.
        - intros [= <- <-]. apply tail_length in Eb. simpl. lia.
        - intros Hp. apply IHm in Hp. simpl. lia. }
      parser_case.
      { destruct (starts_with "]"%char (skip_ws s)) eqn:Eb.
        - intros [= <- <-]. apply tail_length in Eb. simpl. lia.
        - intros Hp. apply IHe in Hp. simpl. lia. }
      apply scan_literal_consumes.
    + intros acc s v r. rewrite parse_members_S.
      destruct s as [|c s]; [intros; discriminate|].
      parser_case; [|parser_case].
      destruct (scan_string s) as [[key r1]|] eqn:Es; [|intros; discriminate].
      apply scan_string_consumes in Es.
      pose proof (skip_ws_length r1) as Hw1.
      destruct (starts_with ":"%char (skip_ws r1)) eqn:Ec; [|intros; discriminate].
      apply tail_length in Ec.
      pose proof (skip_ws_length (tail (skip_ws r1))) as Hw2.
      destruct (scan_once fuel _) as [v1 r3| |] eqn:Ev; try (intros; discriminate).
      apply IHv in Ev.
      pose proof (skip_ws_length r3) as Hw3.
      destruct (starts_with "}"%char (skip_ws r3)) eqn:Eb.
      { intros [= <- <-]. apply tail_length in Eb. simpl. lia. }
      destruct (starts_with ","%char (skip_ws r3)) eqn:Em; [|intros; discriminate].
      apply tail_length in Em.
      pose proof (skip_ws_length (tail (skip_ws r3))) as Hw4.
      intros Hp. apply IHm in Hp. simpl. lia.
    + intros acc s v r. rewrite parse_elements_S.
      destruct (scan_once fuel s) as [v1 r1| |] eqn:Ev; try (intros; discriminate).
      apply IHv in Ev.
      pose proof (skip_ws_length r1) as Hw1.
      destruct (starts_with "]"%char (skip_ws r1)) eqn:Eb.
      { intros [= <- <-]. apply tail_length in Eb. lia. }
      destruct (starts_with ","%char (skip_ws r1)) eqn:Em; [|intros; discriminate].
      apply tail_length in Em.
      pose proof (skip_ws_length (tail (skip_ws r1))) as Hw4.
      intros Hp. apply IHe in Hp. lia.
Qed.

(** With fuel beyond twice the length of the text, no parser runs out. *)
Lemma parse_fuel (fuel : nat) :
  (forall s, 2 * String.length s < fuel -> scan_once fuel s <> Exhausted) /\
  (forall acc s, 2 * String.length s < fuel -> parse_members fuel acc s <> Exhausted) /\
  (forall acc s, 2 * String.length s + 1 < fuel -> parse_elements fuel acc s <> Exhausted).
Proof.
  induction fuel as [|fuel (IHv & IHm & IHe)].
  - repeat split; intros; lia.
  - repeat split.
    + intros s Hf. rewrite scan_once_S. destruct s as [|c s]; [discriminate|].
      simpl in Hf. pose proof (skip_ws_length s) as Hws.
      destruct (Ascii.eqb c (byte_of 34)).
      { destruct (scan_string s) as [[t rest]|]; discriminate. }
      destruct (Ascii.eqb c "{"%char).
      { destruct (starts_with "}"%char (skip_ws s)); [discriminate|]. apply IHm. lia. }
      destruct (Ascii.eqb c "["%char).
      { destruct (starts_with "]"%char (skip_ws s)); [discriminate|]. apply IHe. lia. }
      unfold scan_literal.
      repeat match goal with
             | |- context [match ?e with _ => _ end] => destruct e
             end; discriminate.
    + intros acc s Hf. rewrite parse_members_S.
      destruct s as [|c s]; [discriminate|]. simpl in Hf.
      destruct (Ascii.eqb c (byte_of 34)); [|discriminate].
      destruct (scan_string s) as [[key r1]|] eqn:Es; [|discriminate].
      apply scan_string_consumes in Es.
      pose proof (skip_ws_length r1) as Hw1.
      destruct (starts_with ":"%char (skip_ws r1)) eqn:Ec; [|discriminate].
      apply tail_length in Ec.
      pose proof (skip_ws_length (tail (skip_ws r1))) as Hw2.
      destruct (scan_once fuel _) as [v1 r3| |] eqn:Ev; try discriminate.
      2:{ exfalso. revert Ev. apply IHv. lia. }
      apply (proj1 (parse_consumes _)) in Ev.
      pose proof (skip_ws_length r3) as Hw3.
      destruct (starts_with "}"%char (skip_ws r3)) eqn:Eb; [discriminate|].
      destruct (starts_with ","%char (skip_ws r3)) eqn:Em; [|discriminate].
      apply tail_length in Em.
      pose proof (skip_ws_length (tail (skip_ws r3))) as Hw4.
      apply IHm. lia.
    + intros acc s Hf. rewrite parse_elements_S.
      destruct (scan_once fuel s) as [v1 r1| |] eqn:Ev; try discriminate.
      2:{ exfalso. revert Ev. apply IHv. lia. }
      apply (proj1 (parse_consumes _)) in Ev.
      pose proof (skip_ws_length r1) as Hw1.
      destruct (starts_with "]"%char (skip_ws r1)) eqn:Eb; [discriminate|].
      destruct (starts_with ","%char (skip_ws r1)) eqn:Em; [|discriminate].
      apply tail_length in Em.
      pose proof (skip_ws_length (tail (skip_ws r1))) as Hw4.
      apply IHe. lia.
Qed.

(** [json_loads] gives its parser enough fuel: a text it refuses is refused
    because it is malformed. *)
Lemma json_loads_fuel (text : string) :
  scan_once (S (2 * String.length text)) (skip_ws text) <> Exhausted.
Proof.
  apply (proj1 (parse_fuel _)). pose proof (skip_ws_length text). lia.
Qed.

(** ** The settings merge *)

Lemma recursive_update_dict_nil (d1 : pydict) :
  recursive_update_dict d1 (PyDict []) = d1.
Proof. reflexivity. Qed.

Lemma recursive_update_dict_cons (d1 : pydict) (k : string) (v : pyval) (rest : pydict) :
  recursive_update_dict d1 (PyDict ((k, v) :: rest)) =
  recursive_update_dict (dict_set d1 k (merged_value d1 k v)) (PyDict rest).
Proof.
  unfold merged_value. simpl.
  destruct v; try reflexivity.
  destruct (dict_get d1 k) as [[]|]; reflexivity.
Qed.

Lemma merged_value_ext (d d' : pydict) (k : string) (v : pyval) :
  dict_get d k = dict_get d' k -> merged_value d k v = merged_value d' k v.
Proof. unfold merged_value. now intros ->. Qed.

(** The value under a key after the merge. *)
Lemma recursive_update_dict_get (items : pydict) :
  forall (d1 : pydict) (k : string),
    NoDup (dict_keys items) ->
    dict_get (recursive_update_dict d1 (PyDict items)) k =
    match dict_get items k with
    | None => dict_get d1 k
    | Some v => Some (merged_value d1 k v)
    end.
Proof.
  induction items as [|[k0 v0] rest IH]; intros d1 k Hnd.
  - reflexivity.
  - rewrite recursive_update_dict_cons. inversion Hnd as [|? ? Hnotin Hrest]; subst.
    rewrite IH by assumption. simpl dict_get at 3.
    destruct (String.eqb k k0) eqn:E.
    + apply String.eqb_eq in E. subst k0.
      apply dict_get_None_keys in Hnotin. rewrite Hnotin.
      apply dict_get_set_same.
    + apply String.eqb_neq in E.
      assert (Hget : dict_get (dict_set d1 k0 (merged_value d1 k0 v0)) k = dict_get d1 k)
        by (apply dict_get_set_other; congruence).
      destruct (dict_get rest k) as [v|]; [|exact Hget].
      f_equal. now apply merged_value_ext.
Qed.

Lemma unique_keys_dict (d : pydict) :
  unique_keys (PyDict d) ->
  NoDup (dict_keys d) /\ forall k v, dict_get d k = Some v -> unique_keys v.
Proof.
  intros Hu. inversion Hu as [| | | | | |? Hnd Hall]; subst. split; auto.
  intros k v Hg. apply dict_get_In in Hg.
  rewrite Forall_forall in Hall. exact (Hall _ Hg).
Qed.

Lemma agrees_get (d1 items : pydict) (k : string) (v : pyval) (d1k : pydict) :
  agrees d1 (PyDict items) = true ->
  dict_get items k = Some v ->
  dict_get d1 k = Some (PyDict d1k) ->
  is_dict v = true /\ agrees d1k v = true.
Proof.
  intros Ha Hg Hd. apply dict_get_In in Hg.
  induction items as [|[k0 v0] rest IH]; [contradiction|].
  simpl in Ha. apply andb_prop in Ha as [Hhead Hrest].
  destruct Hg as [[= -> ->]|Hin].
  - rewrite Hd in Hhead. destruct v; try discriminate. auto.
  - apply IH; auto.
Qed.

(** A value the stored dict has under a path is what the merge has there,
    unless it is a dict, and then the merge has a dict there. *)
Lemma merge_keeps_stored (path : list string) :
  forall (d1 d2 : pydict) (v : pyval),
    unique_keys (PyDict d2) ->
    path <> [] ->
    lookup_path (PyDict d2) path = Some v ->
    if is_dict v
    then exists d, lookup_path (PyDict (recursive_update_dict d1 (PyDict d2))) path
                   = Some (PyDict d)
    else lookup_path (PyDict (recursive_update_dict d1 (PyDict d2))) path = Some v.
Proof.
  induction path as [|k rest IH]; intros d1 d2 v Hu Hne Hl; [congruence|].
  apply unique_keys_dict in Hu as [Hnd Hvals].
  cbn [lookup_path] in Hl |- *.
  destruct (dict_get d2 k) as [v2|] eqn:Hg; [|discriminate].
  rewrite recursive_update_dict_get, Hg by assumption.
  unfold merged_value.
  assert (Hplain : if is_dict v
                   then exists d, lookup_path v2 rest = Some (PyDict d)
                   else lookup_path v2 rest = Some v).
  { destruct v; simpl; eauto. }
  destruct v2 as [| | | | | |d2k]; try exact Hplain.
  destruct (dict_get d1 k) as [[| | | | | |d1k]|]; try exact Hplain.
  destruct rest as [|k' rest'].
  - simpl in Hl. injection Hl as <-. simpl. eauto.
  - apply IH; [eapply Hvals; eauto | discriminate | exact Hl].
Qed.

(** A path of the first dict is a path of the merge, when the second dict
    agrees with the first. *)
Lemma merge_keeps_paths (path : list string) :
  forall (d1 d2 : pydict),
    unique_keys (PyDict d2) ->
    agrees d1 (PyDict d2) = true ->
    lookup_path (PyDict d1) path <> None ->
    lookup_path (PyDict (recursive_update_dict d1 (PyDict d2))) path <> None.
Proof.
  induction path as [|k rest IH]; intros d1 d2 Hu Ha Hl; [discriminate|].
  pose proof Hu as Hu'. apply unique_keys_dict in Hu' as [Hnd Hvals].
  cbn [lookup_path] in Hl |- *.
  rewrite recursive_update_dict_get by assumption.
  destruct (dict_get d1 k) as [v1|] eqn:Hd1; [|congruence].
  destruct (dict_get d2 k) as [v2|] eqn:Hd2; [|exact Hl].
  unfold merged_value. rewrite Hd1.
  destruct v1 as [| | | | | |d1k].
  1-6: destruct rest; [destruct v2; discriminate | simpl in Hl; congruence].
  destruct (agrees_get _ _ _ _ _ Ha Hd2 Hd1) as [Hdict Hagree].
  destruct v2 as [| | | | | |d2k]; try discriminate.
  apply IH; eauto.
Qed.

(** ** The store of objects *)

Lemma heap_write_last (h : list pydict) (d0 d : pydict) :
  heap_write (h ++ [d0]) (List.length h) d = (h ++ [d])%list.
Proof. induction h as [|a h IH]; simpl; [reflexivity | now rewrite IH]. Qed.

Lemma nth_error_last (h : list pydict) (d : pydict) :
  nth_error (h ++ [d]) (List.length h) = Some d.
Proof. induction h as [|a h IH]; simpl; auto. Qed.

Lemma nth_error_heap_write (h : list pydict) (r : ref) (d0 d : pydict) :
  nth_error h r = Some d0 -> nth_error (heap_write h r d) r = Some d.
Proof.
  revert r. induction h as [|a h IH]; intros [|r]; simpl; try discriminate; auto.
Qed.

Lemma nth_error_heap_write_other (h : list pydict) (r r' : ref) (d : pydict) :
  r <> r' -> nth_error (heap_write h r d) r' = nth_error h r'.
Proof.
  revert r r'. induction h as [|a h IH]; intros [|r] [|r'] Hne; simpl; auto.
  congruence.
Qed.

Lemma heap_write_length (h : list pydict) (r : ref) (d : pydict) :
  List.length (heap_write h r d) = List.length h.
Proof. revert r. induction h as [|a h IH]; intros [|r]; simpl; auto. Qed.

(** ** Reading the settings (claims C2 and C3) *)

Lemma json_loads_nonempty (text : string) (v : pyval) :
  json_loads text = Ok v -> is_empty text = false.
Proof. destruct text; [discriminate | reflexivity]. Qed.

(** What [read_settings] does, by the three ways the stored text can be. *)
Lemma read_settings_run (w : World) (me : SecondaryCoordinates) :
  Widget.read_settings (w, me) =
  let r := List.length (heap w) in
  let w1 := set_heap (heap w ++ [default_settings]) w in
  let me1 := with_settings (Some r) me in
  if is_empty (qsettings w) then (Ok tt, (w1, me1))
  else
    match json_loads (qsettings w) with
    | Raise e => (Raise e, (w1, me1))
    | Ok json_dict =>
        match _recursive_update default_settings json_dict with
        | Raise e => (Raise e, (w1, me1))
        | Ok d => (Ok tt, (set_heap (heap w ++ [d]) w, me1))
        end
    end.
Proof.
  unfold Widget.read_settings, bind, in_world, get, alloc, set_self, of_result,
    deref, assign, modify, ret, raise.
  cbn [fst snd heap set_heap qsettings].
  destruct (is_empty (qsettings w)); [reflexivity|].
  destruct (json_loads (qsettings w)) as [json_dict|e]; [|reflexivity].
  cbn [fst snd heap set_heap]. rewrite nth_error_last.
  destruct (_recursive_update default_settings json_dict) as [d|e]; [|reflexivity].
  cbn [fst snd heap set_heap]. rewrite heap_write_last.
  destruct w; reflexivity.
Qed.

(** C2 (the claim as stated fails): with the text [{] stored, which no JSON
    decoder accepts, [read_settings] raises the decoder's error instead of
    falling back to the defaults. *)
Lemma C2_malformed_text_raises :
  fst (Widget.read_settings (stored "{", Widget.blank)) = Raise JSONDecodeError.
Proof. reflexivity. Qed.

(** C2, amended: when the stored text is not empty and the decoder refuses
    it, [read_settings] raises the decoder's error, and so does the
    constructor of the widget that calls it; [self.settings] refers by then
    to a new copy of the defaults, and nothing else has changed. With nothing
    stored, or an empty text, [read_settings] returns with a copy of the
    defaults. *)
Theorem C2_unparseable_text_raises (w : World) (me : SecondaryCoordinates) :
  is_empty (qsettings w) = false ->
  json_loads (qsettings w) = Raise JSONDecodeError ->
  Widget.read_settings (w, me)
  = (Raise JSONDecodeError,
     (set_heap (heap w ++ [default_settings]) w,
      with_settings (Some (List.length (heap w))) me))
  /\ fst (Widget.init (w, me)) = Raise JSONDecodeError
  /\ (forall w0 me0,
        is_empty (qsettings w0) = true ->
        Widget.read_settings (w0, me0)
        = (Ok tt,
           (set_heap (heap w0 ++ [default_settings]) w0,
            with_settings (Some (List.length (heap w0))) me0))).
Proof.
  intros Hne Hbad.
  assert (Hrun : Widget.read_settings (w, me)
                 = (Raise JSONDecodeError,
                    (set_heap (heap w ++ [default_settings]) w,
                     with_settings (Some (List.length (heap w))) me))).
  { rewrite read_settings_run. cbv zeta. now rewrite Hne, Hbad. }
  split; [exact Hrun|]. split.
  - unfold Widget.init, bind. now rewrite Hrun.
  - intros w0 me0 Hempty. rewrite read_settings_run. cbv zeta. now rewrite Hempty.
Qed.

Lemma C2_unparseable_text_raises_witness :
  is_empty (qsettings (stored "{")) = false
  /\ json_loads (qsettings (stored "{")) = Raise JSONDecodeError
  /\ fst (Widget.init (stored "{", Widget.blank)) = Raise JSONDecodeError.
Proof.
  split; [reflexivity|]. split; [reflexivity|].
  apply (C2_unparseable_text_raises (stored "{") Widget.blank); reflexivity.
Defined.

(** C3: for every stored text that decodes to a dict agreeing with the
    defaults (a dict wherever the defaults have one under the same keys, as
    every text written from a settings structure has), [read_settings]
    returns, and the settings it leaves have every path of keys the defaults
    have, at every depth; every value the stored dict has under a path of
    keys is the value the settings have there, and where the stored value is
    itself a dict the settings have a dict, merged key by key in the same
    way. *)
Theorem C3_stored_text_merged_onto_defaults
    (w : World) (me : SecondaryCoordinates) (stored_dict : pydict) :
  json_loads (qsettings w) = Ok (PyDict stored_dict) ->
  agrees default_settings (PyDict stored_dict) = true ->
  exists d,
    Widget.read_settings (w, me)
    = (Ok tt, (set_heap (heap w ++ [d]) w, with_settings (Some (List.length (heap w))) me))
    /\ (forall path,
          lookup_path (PyDict default_settings) path <> None ->
          lookup_path (PyDict d) path <> None)
    /\ (forall path v,
          path <> [] ->
          lookup_path (PyDict stored_dict) path = Some v ->
          if is_dict v
          then exists d', lookup_path (PyDict d) path = Some (PyDict d')
          else lookup_path (PyDict d) path = Some v).
Proof.
  intros Hloads Hagrees.
  pose proof (json_loads_unique_keys _ _ Hloads) as Hu.
  exists (recursive_update_dict default_settings (PyDict stored_dict)).
  split; [|split].
  - rewrite read_settings_run. cbv zeta.
    now rewrite (json_loads_nonempty _ _ Hloads), Hloads.
  - intros path. now apply merge_keeps_paths.
  - intros path v. now apply merge_keeps_stored.
Qed.

Lemma C3_stored_text_merged_onto_defaults_witness :
  json_loads old_text = Ok (PyDict old_settings)
  /\ lookup_path (PyDict old_settings) ["scalers"] = None
  /\ exists d,
       Widget.read_settings (stored old_text, Widget.blank)
       = (Ok tt, (set_heap [d] (stored old_text), with_settings (Some 0) Widget.blank))
       /\ (forall path,
             lookup_path (PyDict default_settings) path <> None ->
             lookup_path (PyDict d) path <> None)
       /\ (forall path v,
             path <> [] ->
             lookup_path (PyDict old_settings) path = Some v ->
             if is_dict v
             then exists d', lookup_path (PyDict d) path = Some (PyDict d')
             else lookup_path (PyDict d) path = Some v).
Proof.
  split; [reflexivity|]. split; [reflexivity|].
  apply (C3_stored_text_merged_onto_defaults (stored old_text) Widget.blank old_settings);
    reflexivity.
Defined.

(** ** The transform resolver (claims C6, C7, C8 and C10) *)

(** Unfolding the plumbing of the computations, and the fields of the world. *)
Ltac run :=
  repeat (progress
            (cbv beta iota zeta delta
               [bind ret raise get modify of_result in_world self set_self try_except
                set_heap set_qsettings add_call add_message add_calls
                current_project_crs new_crs];
             cbn [fst snd heap project_crs qsettings calls messages])).

Lemma get_transform_marker `{H : Host} (text : string) (w : World) :
  startswith text "+proj=calcofi" = true ->
  get_transform (CrsStr text) w
  = (Ok (Some (calcofi_proj4, Custom (adapter_for w))), add_calls (default_lookups w) w).
Proof.
  intros Hp.
  unfold get_transform, is_calcofi_marker, Calcofi.init, Calcofi.setSourceCrs,
    adapter_for, source_or_default, default_lookups.
  rewrite Hp.
  destruct w as [h [c|] qs cs ms]; run.
  - now rewrite app_nil_r.
  - now rewrite <- app_assoc.
Qed.

(** C10: a text that starts with [+proj=calcofi], whatever follows, resolves
    to the fixed name [+proj=calcofi +ellps=clrk66] and an adapter bound to
    the source CRS; the calls made on the way are the lookups of the default
    CRS when the project has none, and nothing else: no [int] of the text,
    no lookup of the text in the registry. *)
Theorem C10_prefix_resolves_to_marker `{H : Host} (suffix : string) (w : World) :
  get_transform (CrsStr ("+proj=calcofi" ++ suffix)) w
  = (Ok (Some ("+proj=calcofi +ellps=clrk66", Custom (adapter_for w))),
     add_calls (default_lookups w) w)
  /\ ~ In (CallInt (CrsStr ("+proj=calcofi" ++ suffix))) (default_lookups w)
  /\ ~ In (CallCrs (CrsStr ("+proj=calcofi" ++ suffix))) (default_lookups w)
  /\ (forall n, ~ In (CallCrs (CrsInt n)) (default_lookups w)).
Proof.
  split; [apply get_transform_marker; reflexivity|].
  unfold default_lookups. destruct (project_crs w); simpl;
    repeat split; try tauto; intros; intuition discriminate.
Qed.

(** C7: resolving the marker succeeds on every host, whatever its registry
    holds valid, with the marker's canonical name and an adapter; and on an
    adapter, [sourceCrs] after [setSourceCrs(c)] is [c]. *)
Theorem C7_marker_always_resolves `{H : Host} (w : World) :
  fst (get_transform (CrsStr "+proj=calcofi +ellps=clrk66") w)
  = Ok (Some ("+proj=calcofi +ellps=clrk66", Custom (adapter_for w)))
  /\ fst (get_transform (CrsStr "+proj=calcofi") w)
     = Ok (Some ("+proj=calcofi +ellps=clrk66", Custom (adapter_for w)))
  /\ (forall (t : CalcofiTransformer) (c : QgsCrs),
        exists t',
          Calcofi.setSourceCrs t (Some c) w = (Ok t', w)
          /\ Calcofi.sourceCrs t' = Some c
          /\ sourceCrs (Custom t') = Some c).
Proof.
  repeat split.
  - now rewrite get_transform_marker.
  - now rewrite get_transform_marker.
  - intros t c. eexists. repeat split.
Qed.

(** C8: on an adapter with its engine built, [transform(p)] makes one call
    to the engine, [TransformPoint(p.y, p.x)]; it returns the first two of
    the three numbers the engine gives; and when the engine fails it raises
    [QgsCsException], the exception the native transform raises when it
    fails on a point. *)
Theorem C8_adapter_calls_engine_latitude_first `{H : Host}
    (src : option QgsCrs) (ct : CoordinateTransformation) (p : QgsPointXY) (w : World) :
  Calcofi.transform {| src_crs := src; crs := Some ct |} p w
  = (match TransformPoint (source_wkt ct) (target_proj4 ct) (y p) (x p) with
     | Some (line, sta, _) => Ok (line, sta)
     | None => Raise QgsCsException
     end,
     add_calls [CallTransformPoint (y p) (x p)] w)
  /\ (forall n : QgsCoordinateTransform,
        native_transform (source n) (destination n) p = None ->
        fst (transform (Native n) p w) = Raise QgsCsException).
Proof.
  split.
  - unfold Calcofi.transform. cbn [crs]. run.
    destruct (TransformPoint _ _ _ _) as [[[line sta] h]|]; reflexivity.
  - intros n Hn. unfold transform. run. now rewrite Hn.
Qed.

Lemma py_int_EPSG `{H : Host} (rest : string) : py_int ("EPSG:" ++ rest) = None.
Proof. reflexivity. Qed.

Lemma get_transform_native `{H : Host} (arg arg' : crs_arg) (name : string) (w : World) :
  is_calcofi_marker arg = false ->
  arg' = match arg with
         | CrsInt n => CrsInt n
         | CrsStr s => match py_int s with Some n => CrsInt n | None => CrsStr s end
         end ->
  name = match arg' with CrsInt n => "EPSG:" ++ py_str n | CrsStr s => s end ->
  fst (get_transform arg w)
  = Ok (if isValid (QgsCoordinateReferenceSystem arg')
        then Some (name, Native {| source := source_or_default w;
                                   destination := QgsCoordinateReferenceSystem arg' |})
        else None).
Proof.
  intros Hm -> ->.
  unfold get_transform, to_int_if_possible, source_or_default.
  rewrite Hm.
  destruct w as [h [c|] qs cs ms]; destruct arg as [n|s]; run;
    try destruct (py_int s); run;
    match goal with
    | |- context [isValid ?c] => destruct (isValid c)
    end; reflexivity.
Qed.




(** ** The coordinate display (claim C5) *)

(** What [read_coords] does, by the outcome of its steps. *)
Lemma read_coords_run `{H : Host} (p : QgsPointXY) (w : World) (me : SecondaryCoordinates) :
  Widget.read_coords p (w, me) =
  match Widget.update_src_crs (w, with_xy (Some p) me) with
  | (Raise e, s1) => (Raise e, s1)
  | (Ok _, (w1, me1)) =>
      match transform (_crs me1) p w1 with
      | (Raise e, w2) =>
          if Widget.is_QgsCsException e then (Ok tt, (w2, with_edit "" me1))
          else (Raise e, (w2, me1))
      | (Ok (a, b), w2) =>
          match truediv a (_scaler me1) with
          | Raise e => (Raise e, (w2, me1))
          | Ok a' =>
              match truediv b (_scaler me1) with
              | Raise e => (Raise e, (w2, me1))
              | Ok b' =>
                  match format_float a' (_x_format me1) with
                  | None => (Raise ValueError, (w2, me1))
                  | Some ta =>
                      match format_float b' (_y_format me1) with
                      | None => (Raise ValueError, (w2, me1))
                      | Some tb => (Ok tt, (w2, with_edit (ta ++ ", " ++ tb) me1))
                      end
                  end
              end
          end
      end
  end.
Proof.
  unfold Widget.read_coords, Widget.x_formatter, Widget.y_formatter.
  run.
  destruct (Widget.update_src_crs (w, with_xy (Some p) me)) as [[[]|e] [w1 me1]];
    run; [|reflexivity].
  destruct (transform (_crs me1) p w1) as [[[a b]|e] w2]; run.
  - destruct (truediv a (_scaler me1)) as [a'|e]; run; [|reflexivity].
    destruct (truediv b (_scaler me1)) as [b'|e]; run; [|reflexivity].
    destruct (format_float a' (_x_format me1)) as [ta|]; run; [|reflexivity].
    destruct (format_float b' (_y_format me1)) as [tb|]; reflexivity.
  - destruct (Widget.is_QgsCsException e); reflexivity.
Qed.

(** The methods of a transform object leave the store, the stored text and
    the project as they are. *)
Lemma setSourceCrs_frame `{H : Host} (t : Transform) (arg : option QgsCrs)
    (w w' : World) (r : result Transform) :
  setSourceCrs t arg w = (r, w') ->
  heap w' = heap w /\ qsettings w' = qsettings w /\ project_crs w' = project_crs w.
Proof.
  unfold setSourceCrs, Calcofi.setSourceCrs.
  destruct t as [n|c]; destruct arg as [a|]; run;
    try (intros [= <- <-]; auto);
    destruct w as [h [pc|] qs cs ms]; run; intros [= <- <-]; auto.
Qed.

Lemma transform_frame `{H : Host} (t : Transform) (p : QgsPointXY)
    (w w' : World) (r : result (float * float)) :
  transform t p w = (r, w') ->
  heap w' = heap w /\ qsettings w' = qsettings w /\ project_crs w' = project_crs w.
Proof.
  unfold transform, Calcofi.transform.
  destruct t as [n|c]; run.
  - destruct (native_transform _ _ _); intros [= <- <-]; auto.
  - destruct (crs c) as [ct|]; run; [|intros [= <- <-]; auto].
    destruct (TransformPoint _ _ _ _) as [[[? ?] ?]|]; intros [= <- <-]; auto.
Qed.

Lemma update_src_crs_run `{H : Host} (w : World) (me : SecondaryCoordinates) :
  Widget.update_src_crs (w, me) =
  if match sourceCrs (_crs me), project_crs w with
     | Some a, Some b => crs_ne a b
     | None, None => false
     | _, _ => true
     end
  then
    match setSourceCrs (_crs me) (project_crs w) w with
    | (Ok t, w1) => (Ok tt, (w1, with_crs t me))
    | (Raise e, w1) => (Raise e, (w1, me))
    end
  else (Ok tt, (w, me)).
Proof.
  unfold Widget.update_src_crs. run.
  destruct (match sourceCrs (_crs me), project_crs w with
            | Some a, Some b => crs_ne a b
            | None, None => false
            | _, _ => true
            end); run; [|reflexivity].
  destruct (setSourceCrs (_crs me) (project_crs w) w) as [[t|e] w1]; reflexivity.
Qed.

(** [update_src_crs] changes nothing of the widget but the source CRS of its
    transform object, and that only when it differs from the project's. *)
Lemma update_src_crs_frame `{H : Host} (w w' : World) (me me' : SecondaryCoordinates)
    (r : result unit) :
  Widget.update_src_crs (w, me) = (r, (w', me')) ->
  heap w' = heap w /\ qsettings w' = qsettings w /\ project_crs w' = project_crs w
  /\ settings me' = settings me /\ xy me' = xy me /\ _transform me' = _transform me
  /\ _x_format me' = _x_format me /\ _y_format me' = _y_format me
  /\ _scaler me' = _scaler me /\ label me' = label me /\ edit me' = edit me
  /\ (forall a b, sourceCrs (_crs me) = Some a -> project_crs w = Some b ->
                  crs_ne a b = false -> _crs me' = _crs me).
Proof.
  rewrite update_src_crs_run.
  destruct (match sourceCrs (_crs me), project_crs w with
            | Some a, Some b => crs_ne a b
            | None, None => false
            | _, _ => true
            end) eqn:Ediff.
  - destruct (setSourceCrs (_crs me) (project_crs w) w) as [[t|e] w1] eqn:Eset;
      intros [= <- <- <-]; apply setSourceCrs_frame in Eset as (? & ? & ?);
      repeat split; auto;
      intros a b Ha Hb Hne; rewrite Ha, Hb, Hne in Ediff; discriminate.
  - intros [= <- <- <-]. repeat split; auto.
Qed.



(** ** Applying the settings to the widget (claim C4) *)

Lemma getitem_dict (d : pydict) (k : string) :
  getitem (PyDict d) k =
  match dict_get d k with
  | Some v => Ok v
  | None => Raise (KeyError k)
  end.
Proof. reflexivity. Qed.

Lemma get_transform_frame `{H : Host} (arg : crs_arg) (w w' : World)
    (r : result (option (string * Transform))) :
  get_transform arg w = (r, w') ->
  heap w' = heap w /\ qsettings w' = qsettings w /\ project_crs w' = project_crs w
  /\ messages w' = messages w.
Proof.
  unfold get_transform, to_int_if_possible, Calcofi.init, Calcofi.setSourceCrs.
  destruct (is_calcofi_marker arg); destruct w as [h [c|] qs cs ms]; run.
  1-2: intros [= <- <-]; auto.
  all: destruct arg as [n|s]; try destruct (py_int s); run;
    match goal with
    | |- context [isValid ?c] => destruct (isValid c)
    end; intros [= <- <-]; auto.
Qed.

(** What [update_from_settings] does once the settings object and its last
    transform are known and the transform resolves. *)
Lemma update_from_settings_run `{H : Host} (w w1 : World) (me : SecondaryCoordinates)
    (arg : option ref) (r : ref) (d : pydict) (trans name : string) (t : Transform) :
  match arg with Some r' => Some r' | None => settings me end = Some r ->
  nth_error (heap w) r = Some d ->
  dict_get d "last_transform" = Some (PyStr trans) ->
  get_transform (CrsStr trans) w = (Ok (Some (name, t)), w1) ->
  Widget.update_from_settings arg (w, me) =
  let me1 := with_transform name t me in
  match getitem (PyDict d) "transforms" with
  | Raise e => (Raise e, (w1, me1))
  | Ok transforms =>
      match getitem transforms trans with
      | Raise e => (Raise e, (w1, me1))
      | Ok e =>
          match getitem e "transform_name" with
          | Raise x => (Raise x, (w1, me1))
          | Ok v1 =>
              match as_str v1 with
              | Raise x => (Raise x, (w1, me1))
              | Ok label_text =>
                  let me2 := with_label label_text me1 in
                  match getitem e "x_format" with
                  | Raise x => (Raise x, (w1, me2))
                  | Ok v2 =>
                      match expect_str v2 with
                      | Raise x => (Raise x, (w1, me2))
                      | Ok xf =>
                          let me3 := with_x_format xf me2 in
                          match getitem e "y_format" with
                          | Raise x => (Raise x, (w1, me3))
                          | Ok v3 =>
                              match expect_str v3 with
                              | Raise x => (Raise x, (w1, me3))
                              | Ok yf =>
                                  let me4 := with_y_format yf me3 in
                                  match getitem e "scaler" with
                                  | Raise x => (Raise x, (w1, me4))
                                  | Ok v4 =>
                                      match int_of v4 with
                                      | Raise x => (Raise x, (w1, me4))
                                      | Ok n =>
                                          (Ok tt,
                                           (set_qsettings (json_dumps d) w1,
                                            with_edit ""
                                              (with_settings (Some r)
                                                 (with_scaler n me4))))
                                      end
                                  end
                              end
                          end
                      end
                  end
              end
          end
      end
  end.
Proof.
  intros Harg Hd Hlast Hres.
  pose proof (get_transform_frame _ _ _ _ Hres) as (Hheap & _).
  unfold Widget.update_from_settings, Widget.settings_object, Widget.set_transform,
    Widget.set_transform_name, Widget.set_x_format, Widget.set_y_format,
    Widget.set_scaler, Widget.write_settings, Widget.settings_object, deref.
  run. rewrite Harg. run. rewrite Hd. run.
  unfold getitem at 1. rewrite Hlast. run. cbn [expect_str]. run.
  rewrite Hres. run.
  destruct (getitem (PyDict d) "transforms") as [transforms|x]; run; [|reflexivity].
  destruct (getitem transforms trans) as [e|x]; run; [|reflexivity].
  destruct (getitem e "transform_name") as [v1|x]; run; [|reflexivity].
  destruct (as_str v1) as [label_text|x]; run; [|reflexivity].
  destruct (getitem e "x_format") as [v2|x]; run; [|reflexivity].
  destruct (expect_str v2) as [xf|x]; run; [|reflexivity].
  destruct (getitem e "y_format") as [v3|x]; run; [|reflexivity].
  destruct (expect_str v3) as [yf|x]; run; [|reflexivity].
  destruct (getitem e "scaler") as [v4|x]; run; [|reflexivity].
  destruct (int_of v4) as [n|x]; run; [|reflexivity].
  assert (Hd1 : nth_error (heap w1) r = Some d) by (rewrite Hheap; exact Hd).
  cbn [with_settings settings]. run. rewrite Hd1. reflexivity.
Qed.

(** C4 (the code breaks the claim): with the defaults and the last transform
    [EPSG:4326], which the registry holds valid and which is not a key of the
    transforms, [update_from_settings] raises [KeyError], and [initGui] with
    it. The widget gets there from a stored text that names this last
    transform. [ConfigDialog.update_gui] guards the same lookup with a test
    of membership and falls back to defaults, so that the dialog opens on
    these settings; [update_from_settings] has no such guard
    ([unlisted_last_transform_raises] below, for every such settings
    structure). *)
Lemma C4_unlisted_last_transform_raises :
  fst (Widget.init (stored lone_last_transform, Widget.blank)) = Ok tt
  /\ nth_error (heap (fst unlisted_state)) 0
     = Some (dict_set default_settings "last_transform" (PyStr "EPSG:4326"))
  /\ settings (snd unlisted_state) = Some 0
  /\ fst (get_transform (CrsStr "EPSG:4326") (fst unlisted_state))
     = Ok (Some ("EPSG:4326",
                 Native {| source := wgs84;
                           destination := QgsCoordinateReferenceSystem (CrsStr "EPSG:4326") |}))
  /\ fst (Widget.update_from_settings None unlisted_state) = Raise (KeyError "EPSG:4326")
  /\ fst (Widget.initGui unlisted_state) = Raise (KeyError "EPSG:4326")
  /\ (let opened := Dialog.init (Some 0) (fst unlisted_state, Dialog.blank) in
      fst opened = Ok tt
      /\ Dialog.transform_name_edit (snd (snd opened)) = "EPSG:4326"
      /\ currentText (Dialog.scaler_combo (snd (snd opened))) = "1").
Proof. repeat split; vm_compute; reflexivity. Qed.

(** Whatever the settings structure: when its last transform is a text that
    resolves and that is not a key of its transforms,
    [update_from_settings] raises [KeyError], with the transform of the
    widget already replaced. *)
Lemma unlisted_last_transform_raises `{H : Host}
    (w w1 : World) (me : SecondaryCoordinates) (arg : option ref) (r : ref)
    (d transforms : pydict) (trans name : string) (t : Transform) :
  match arg with Some r' => Some r' | None => settings me end = Some r ->
  nth_error (heap w) r = Some d ->
  dict_get d "last_transform" = Some (PyStr trans) ->
  dict_get d "transforms" = Some (PyDict transforms) ->
  get_transform (CrsStr trans) w = (Ok (Some (name, t)), w1) ->
  dict_get transforms trans = None ->
  Widget.update_from_settings arg (w, me)
  = (Raise (KeyError trans), (w1, with_transform name t me)).
Proof.
  intros Harg Hd Hlast Htrans Hres Habsent.
  rewrite (update_from_settings_run w w1 me arg r d trans name t Harg Hd Hlast Hres).
  cbv zeta. rewrite getitem_dict, Htrans. cbv beta iota.
  now rewrite getitem_dict, Habsent.
Qed.

(** ** The dialog (claims C1 and C9) *)

(** C1 (the code breaks the claim): on any host, from the widget with the
    default settings, a session in which the user types [+proj=calcofi] into
    the transform field and then cancels leaves the widget's settings object
    with another last transform than before. The dialog works on the object
    itself ([self.settings = parent.settings]), not on a copy of it. *)
Lemma C1_cancel_after_transform_edit_changes_settings `{H : Host} :
  let before := demo_state in
  let after := snd (Widget.on_config_dialog
                      [EditTransform "+proj=calcofi"; ClickCancel] before) in
  settings (snd after) = settings (snd before)
  /\ settings (snd before) = Some 0
  /\ nth_error (heap (fst before)) 0 = Some default_settings
  /\ nth_error (heap (fst after)) 0
     = Some (dict_set default_settings "last_transform"
               (PyStr "+proj=calcofi +ellps=clrk66"))
  /\ dict_get default_settings "last_transform" = Some (PyStr "EPSG:6414")
  /\ qsettings (fst after) = qsettings (fst before).
Proof. repeat split; vm_compute; reflexivity. Qed.

(** C9 (the claim as stated fails): after nine accepted sessions, each with
    an x format not used before, the list of x formats of the settings has
    eleven entries: the ten items the box is capped at, and the text of its
    line edit. *)
Lemma C9_eleven_formats_after_nine_sessions :
  let after := snd (sessions nine_sessions demo_state) in
  fst (sessions nine_sessions demo_state) = Ok tt
  /\ settings_list (fst after) (settings (snd after)) "x_formats"
     = Some [".0f"; ".9f"; ".8f"; ".7f"; ".6f"; ".5f"; ".4f"; ".3f"; ".2f"; ".1f"; ",.0f"]
  /\ List.length [".0f"; ".9f"; ".8f"; ".7f"; ".6f"; ".5f"; ".4f"; ".3f"; ".2f"; ".1f"; ",.0f"]
     = 11.
Proof. repeat split; vm_compute; reflexivity. Qed.

Section Preservation.
Context {H : Host}.
Variable P : Dialog.ConfigDialog -> Prop.

Lemma preserves_ret (A : Type) (a : A) : preserves P (ret a).
Proof. intros s r s' [= <- <-]. auto. Qed.

Lemma preserves_raise (A : Type) (e : exn) : preserves P (@raise _ A e).
Proof. intros s r s' [= <- <-]. auto. Qed.

Lemma preserves_of_result (A : Type) (x : result A) : preserves P (of_result x).
Proof. destruct x; [apply preserves_ret | apply preserves_raise]. Qed.

Lemma preserves_self : preserves P self.
Proof. intros s r s' [= <- <-]. auto. Qed.

Lemma preserves_in_world (A : Type) (m : M World A) : preserves P (in_world m).
Proof.
  intros [w d] r s'. unfold in_world. cbn [fst snd].
  destruct (m w) as [r0 w0]. intros [= <- <-]. auto.
Qed.

Lemma preserves_set_self (f : Dialog.ConfigDialog -> Dialog.ConfigDialog) :
  (forall d, P d -> P (f d)) -> preserves P (set_self f).
Proof. intros Hf s r s' [= <- <-]. cbn [snd]. auto. Qed.

Lemma preserves_bind (A B : Type) (m : M Dialog.St A) (f : A -> M Dialog.St B) :
  preserves P m -> (forall a, preserves P (f a)) -> preserves P (bind m f).
Proof.
  intros Hm Hf s r s'. unfold bind.
  destruct (m s) as [[a|e] s1] eqn:Em.
  - intros Hrun Hs. eapply Hf; eauto.
  - intros [= <- <-] Hs. eapply Hm; eauto.
Qed.

Lemma preserves_slot (m : M Dialog.St unit) : preserves P m -> preserves P (Dialog.slot m).
Proof.
  intros Hm s r s'. unfold Dialog.slot.
  destruct (m s) as [r0 s0] eqn:Em. intros [= <- <-] Hs. eapply Hm; eauto.
Qed.

Lemma establishes_bind_later (A B : Type) (m : M Dialog.St A) (f : A -> M Dialog.St B) :
  (forall a, establishes P (f a)) -> establishes P (bind m f).
Proof.
  intros Hf s b s'. unfold bind.
  destruct (m s) as [[a|e] s1]; [|discriminate].
  intros Hrun. eapply Hf; eauto.
Qed.

Lemma establishes_bind_now (A B : Type) (m : M Dialog.St A) (f : A -> M Dialog.St B) :
  establishes P m -> (forall a, preserves P (f a)) -> establishes P (bind m f).
Proof.
  intros Hm Hf s b s'. unfold bind.
  destruct (m s) as [[a|e] s1] eqn:Em; [|discriminate].
  intros Hrun. eapply Hf; eauto.
Qed.

Lemma establishes_set_self (f : Dialog.ConfigDialog -> Dialog.ConfigDialog) :
  (forall d, P (f d)) -> establishes P (set_self f).
Proof. intros Hf s a s' Hrun. inversion Hrun; subst. cbn [snd]. auto. Qed.

End Preservation.

Lemma preserves_and `{H : Host} (A : Type) (P Q : Dialog.ConfigDialog -> Prop)
    (m : M Dialog.St A) :
  preserves P m -> preserves Q m -> preserves (fun d => P d /\ Q d) m.
Proof. intros HP HQ s r s' Hrun [Hp Hq]. split; [eapply HP | eapply HQ]; eauto. Qed.

(** ** Capped boxes *)

Lemma capped_setEditText (t : string) (c : QComboBox) : capped c -> capped (setEditText t c).
Proof. auto. Qed.

Lemma capped_pick (i : nat) (c : QComboBox) : capped c -> capped (Dialog.pick i c).
Proof. unfold Dialog.pick. destruct (i <? count c)%nat; auto. Qed.

Lemma capped_clear (c : QComboBox) : capped c -> capped (fst (clear c)).
Proof.
  intros [Hm Hc]. unfold clear.
  destruct (items c) eqn:E; cbn [fst].
  - split; assumption.
  - split; [exact Hm | unfold count; cbn; lia].
Qed.

Lemma capped_addItems (l : list string) (c : QComboBox) :
  capped c -> capped (fst (addItems l c)).
Proof.
  intros [Hm Hc]. unfold addItems. rewrite Hm.
  pose proof (firstn_le_length (10 - count c) l) as Hroom.
  destruct (items c) as [|i0 rest] eqn:Ei.
  - destruct (firstn (10 - count c) l) as [|first more] eqn:Ef; cbn [fst].
    + split; [reflexivity | unfold count; cbn; lia].
    + split; [reflexivity | unfold count in *; cbn [items]; lia].
  - cbn [fst]. split; [reflexivity|]. unfold count in *. cbn [items].
    rewrite length_app. rewrite Ei in *. lia.
Qed.

Lemma capped_setMaxCount (c : QComboBox) : capped (setMaxCount 10 c).
Proof.
  unfold capped, setMaxCount, count. cbn [maxCount items].
  split; [reflexivity | apply firstn_le_length].
Qed.

Lemma capped_under_mask `{H : Host} (mask : string) (c : QComboBox) :
  capped c -> capped (under_mask mask c).
Proof. auto. Qed.

(** ** What the methods of the dialog keep *)

(** A step that changes the dialog by a function: the property goes through
    the setters of the record and the operations of the boxes. *)
Ltac dialog_leaf :=
  let d := fresh "d" in
  let Hd := fresh "Hd" in
  intros d Hd;
  unfold open_dialog in *;
  unfold Dialog.with_settings, Dialog.with_transform_combo,
    Dialog.with_transform_name_edit, Dialog.with_x_format_combo,
    Dialog.with_y_format_combo, Dialog.with_scaler_combo;
  cbn [Dialog.settings Dialog.transform_combo Dialog.transform_name_edit
       Dialog.x_format_combo Dialog.y_format_combo Dialog.scaler_combo
       Dialog.result_code];
  try (destruct Hd as (? & ? & ? & ?); split; [|split; [|split]]);
  auto using capped_setEditText, capped_pick, capped_clear, capped_addItems,
    capped_under_mask.

(** A computation made of the steps above. *)
Ltac pres :=
  repeat first
    [ apply preserves_ret
    | apply preserves_raise
    | apply preserves_of_result
    | apply preserves_self
    | apply preserves_in_world
    | apply preserves_slot
    | apply preserves_set_self; dialog_leaf
    | apply preserves_bind; [|intros ?]
    | match goal with
      | |- preserves _ (if ?b then _ else _) => destruct b
      | |- preserves _ (match ?x with _ => _ end) => destruct x
      | |- preserves _ (let (_, _) := ?x in _) => destruct x
      end ].

Ltac unfold_dialog :=
  unfold Dialog.reset_to_defaults, Dialog.change_transform_combo,
    Dialog.on_transform_change, Dialog.update_settings, Dialog.update_gui,
    Dialog.raise_error_msg, Dialog.set_setting, Dialog.setting,
    Dialog.settings_object.

Lemma update_gui_open `{H : Host} : preserves open_dialog Dialog.update_gui.
Proof. unfold_dialog. pres. Qed.

Lemma on_transform_change_open `{H : Host} : preserves open_dialog Dialog.on_transform_change.
Proof. unfold_dialog. pres. Qed.

Lemma reset_to_defaults_open `{H : Host} : preserves open_dialog Dialog.reset_to_defaults.
Proof. unfold_dialog. pres. Qed.

(** [update_settings] leaves the dialog as it is. *)
Lemma update_settings_dialog `{H : Host} (d0 : Dialog.ConfigDialog) :
  preserves (fun d => d = d0) Dialog.update_settings.
Proof. unfold_dialog. pres. Qed.

(** ** What an accepted session leaves in the settings *)

Lemma bind_Ok_inv {St A B : Type} (m : M St A) (f : A -> M St B) (s s' : St) (b : B) :
  bind m f s = (Ok b, s') ->
  exists a s1, m s = (Ok a, s1) /\ f a s1 = (Ok b, s').
Proof.
  unfold bind. destruct (m s) as [[a|e] s1]; [eauto | discriminate].
Qed.

Lemma self_inv {X : Type} (s s' : World * X) (a : X) :
  self s = (Ok a, s') -> a = snd s /\ s' = s.
Proof. intros [= <- <-]. auto. Qed.

(** A computation of the dialog that has no step on the dialog itself. *)
Ltac unchanged := unfold_dialog; pres.

Lemma setting_unchanged `{H : Host} (k : string) (d0 : Dialog.ConfigDialog) :
  preserves (fun d => d = d0) (Dialog.setting k).
Proof. unchanged. Qed.

Lemma set_setting_unchanged `{H : Host} (k : string) (v : pyval) (d0 : Dialog.ConfigDialog) :
  preserves (fun d => d = d0) (Dialog.set_setting k v).
Proof. unchanged. Qed.

(** [self.settings[k] = v], when it returns. *)
Lemma set_setting_Ok (k : string) (v : pyval) (w w' : World) (d d' : Dialog.ConfigDialog) :
  Dialog.set_setting k v (w, d) = (Ok tt, (w', d')) ->
  d' = d
  /\ exists r obj,
       Dialog.settings d = Some r
       /\ nth_error (heap w) r = Some obj
       /\ heap w' = heap_write (heap w) r (dict_set obj k v).
Proof.
  unfold Dialog.set_setting, deref, assign. run.
  destruct (Dialog.settings d) as [r|]; run; [|discriminate].
  destruct (nth_error (heap w) r) as [obj|] eqn:E; run; [|discriminate].
  intros [= <- <-]. split; [reflexivity|]. exists r, obj. auto.
Qed.

Lemma all_str_map_PyStr (l : list string) : all_str (map PyStr l) = Ok l.
Proof. induction l as [|a l IH]; simpl; [reflexivity | now rewrite IH]. Qed.

Lemma list_set_length (l : list string) : List.length (list_set l) <= List.length l.
Proof.
  unfold list_set. induction l as [|a l IH]; simpl; [lia|].
  destruct (in_dec string_dec a l); simpl; lia.
Qed.

Lemma get_combo_items_bounded (c : QComboBox) :
  NoDup (Dialog.get_combo_items c)
  /\ List.length (Dialog.get_combo_items c) <= S (count c).
Proof.
  unfold Dialog.get_combo_items. split.
  - apply NoDup_nodup.
  - etransitivity; [apply list_set_length|].
    cbn [List.app List.length]. rewrite length_map, length_seq. lia.
Qed.

(** The three lists [update_settings] has written when it returns. *)
Lemma update_settings_lists `{H : Host} (w w' : World) (d d' : Dialog.ConfigDialog) :
  Dialog.update_settings (w, d) = (Ok tt, (w', d')) ->
  d' = d
  /\ exists r obj,
       Dialog.settings d = Some r
       /\ nth_error (heap w') r = Some obj
       /\ dict_get obj "x_formats"
          = Some (Dialog.str_list (Dialog.get_combo_items (Dialog.x_format_combo d)))
       /\ dict_get obj "y_formats"
          = Some (Dialog.str_list (Dialog.get_combo_items (Dialog.y_format_combo d)))
       /\ dict_get obj "scalers"
          = Some (Dialog.str_list (Dialog.get_combo_items (Dialog.scaler_combo d))).
Proof.
  unfold Dialog.update_settings. intros Hrun.
  apply bind_Ok_inv in Hrun as (me & s1 & Hself & Hrun).
  apply self_inv in Hself as [-> ->]. cbn [snd] in Hrun. cbv zeta in Hrun.
  apply bind_Ok_inv in Hrun as (transforms & [w1 d1] & Hstep & Hrun).
  pose proof (setting_unchanged _ d _ _ _ Hstep eq_refl) as Hd. cbn [snd] in Hd. subst d1.
  clear Hstep.
  apply bind_Ok_inv in Hrun as (known & [w2 d2] & Hstep & Hrun).
  pose proof (preserves_of_result (fun x => x = d) _ _ _ _ _ Hstep eq_refl) as Hd.
  cbn [snd] in Hd. subst d2. clear Hstep.
  apply bind_Ok_inv in Hrun as (u & [w3 d3] & Hstep & Hrun).
  assert (d3 = d) as ->.
  { revert Hstep. clear. intros Hstep.
    assert (Hp : preserves (fun x => x = d)
                   (if known
                    then
                      e <- of_result (getitem transforms (currentText (Dialog.transform_combo d))) ;;
                      match transforms, e with
                      | PyDict ts, PyDict old =>
                          Dialog.set_setting "transforms"
                            (PyDict (dict_set ts (currentText (Dialog.transform_combo d))
                                       (PyDict (dict_update old
                                          [("transform_name", PyStr (Dialog.transform_name_edit d));
                                           ("x_format", PyStr (currentText (Dialog.x_format_combo d)));
                                           ("y_format", PyStr (currentText (Dialog.y_format_combo d)));
                                           ("scaler", PyStr (currentText (Dialog.scaler_combo d)))]))))
                      | _, _ => raise AttributeError
                      end
                    else
                      match transforms with
                      | PyDict ts =>
                          Dialog.set_setting "transforms"
                            (PyDict (dict_set ts (currentText (Dialog.transform_combo d))
                                       (PyDict
                                          [("transform_name", PyStr (Dialog.transform_name_edit d));
                                           ("x_format", PyStr (currentText (Dialog.x_format_combo d)));
                                           ("y_format", PyStr (currentText (Dialog.y_format_combo d)));
                                           ("scaler", PyStr (currentText (Dialog.scaler_combo d)))])))
                      | _ => raise TypeError
                      end)) by unchanged.
    exact (Hp _ _ _ Hstep eq_refl). }
  clear Hstep.
  apply bind_Ok_inv in Hrun as (u1 & [w4 d4] & Hstep1 & Hrun).
  destruct u1. apply set_setting_Ok in Hstep1 as (-> & _).
  apply bind_Ok_inv in Hrun as (me & s5 & Hself & Hrun).
  apply self_inv in Hself as [-> ->]. cbn [snd] in Hrun.
  apply bind_Ok_inv in Hrun as (u2 & [w5 d5] & Hx & Hrun).
  destruct u2. apply set_setting_Ok in Hx as (-> & r & o4 & Hr & Ho4 & Hw5).
  apply bind_Ok_inv in Hrun as (me & s6 & Hself & Hrun).
  apply self_inv in Hself as [-> ->]. cbn [snd] in Hrun.
  apply bind_Ok_inv in Hrun as (u3 & [w6 d6] & Hy & Hrun).
  destruct u3. apply set_setting_Ok in Hy as (-> & r' & o5 & Hr' & Ho5 & Hw6).
  apply bind_Ok_inv in Hrun as (me & s7 & Hself & Hrun).
  apply self_inv in Hself as [-> ->]. cbn [snd] in Hrun.
  apply set_setting_Ok in Hrun as (-> & r'' & o6 & Hr'' & Ho6 & Hw').
  split; [reflexivity|].
  assert (r' = r) as -> by congruence. assert (r'' = r) as -> by congruence.
  rewrite Hw5 in Ho5. rewrite (nth_error_heap_write _ _ _ _ Ho4) in Ho5.
  injection Ho5 as <-.
  rewrite Hw6 in Ho6.
  erewrite nth_error_heap_write in Ho6 by (rewrite Hw5; eapply nth_error_heap_write; eauto).
  injection Ho6 as <-.
  eexists r, _. split; [exact Hr|]. split.
  { rewrite Hw'. eapply nth_error_heap_write. rewrite Hw6.
    eapply nth_error_heap_write. rewrite Hw5. eapply nth_error_heap_write. eauto. }
  repeat split.
  - rewrite !dict_get_set_other by discriminate. apply dict_get_set_same.
  - rewrite dict_get_set_other by discriminate. apply dict_get_set_same.
  - apply dict_get_set_same.
Qed.

Lemma lists_bounded_after_update `{H : Host} (w w' : World) (d d' : Dialog.ConfigDialog) :
  open_dialog d ->
  Dialog.update_settings (w, d) = (Ok tt, (w', d')) ->
  d' = d /\ lists_bounded w' (Dialog.settings d).
Proof.
  intros (Hx & Hy & Hs & _) Hrun.
  apply update_settings_lists in Hrun as (-> & r & obj & Hr & Hobj & Gx & Gy & Gs).
  split; [reflexivity|].
  intros key Hkey. rewrite Hr. unfold settings_list. rewrite Hobj.
  assert (Hcase : forall c, capped c ->
            dict_get obj key = Some (Dialog.str_list (Dialog.get_combo_items c)) ->
            exists l,
              match dict_get obj key with
              | Some (PyList l0) =>
                  match all_str l0 with Ok ss => Some ss | Raise _ => None end
              | _ => None
              end = Some l /\ NoDup l /\ List.length l <= 11).
  { intros c [_ Hc] Hg. rewrite Hg. unfold Dialog.str_list. rewrite all_str_map_PyStr.
    destruct (get_combo_items_bounded c) as [Hnd Hlen].
    eexists. split; [reflexivity|]. split; [exact Hnd | lia]. }
  destruct Hkey as [<-|[<-|[<-|[]]]]; eauto.
Qed.

(** [accept] either leaves the dialog open, or closes it accepted with the
    three lists written. *)
Lemma accept_spec `{H : Host} (s s' : Dialog.St) (r : result unit) :
  Dialog.accept s = (r, s') ->
  open_dialog (snd s) ->
  open_dialog (snd s')
  \/ (Dialog.result_code (snd s') = Some Accepted
      /\ lists_bounded (fst s') (Dialog.settings (snd s'))).
Proof.
  destruct s as [w d]. unfold Dialog.accept, Dialog.raise_error_msg. run.
  intros Hrun Hopen. revert Hrun.
  destruct (get_transform (CrsStr (currentText (Dialog.transform_combo d))) w)
    as [[[t|]|e] w1]; run.
  2-3: intros [= <- <-]; left; exact Hopen.
  destruct (format_float Dialog.sample (currentText (Dialog.x_format_combo d))); run.
  2: intros [= <- <-]; left; exact Hopen.
  destruct (format_float Dialog.sample (currentText (Dialog.y_format_combo d))); run.
  2: intros [= <- <-]; left; exact Hopen.
  destruct (py_int (currentText (Dialog.scaler_combo d))); run.
  2: intros [= <- <-]; left; exact Hopen.
  destruct (Dialog.update_settings (w1, d)) as [[[]|e] [w2 d2]] eqn:Eu; run.
  - intros [= <- <-]. right.
    apply lists_bounded_after_update in Eu as [-> Hl]; [|exact Hopen].
    split; [reflexivity | exact Hl].
  - intros [= <- <-]. left.
    pose proof (update_settings_dialog d _ _ _ Eu eq_refl) as Hd. cbn [snd] in Hd |- *.
    now subst.
Qed.

Lemma slot_Ok (m : M Dialog.St unit) (s s' : Dialog.St) (r : result unit) :
  Dialog.slot m s = (r, s') -> r = Ok tt.
Proof. unfold Dialog.slot. destruct (m s). now intros [= <- _]. Qed.

(** What one event does to an open dialog: it stays open, or it closes
    rejected, or it closes accepted with the three lists written. *)
Lemma handle_spec `{H : Host} (e : event) (s s' : Dialog.St) (r : result unit) :
  Dialog.handle e s = (r, s') ->
  open_dialog (snd s) ->
  r = Ok tt
  /\ (open_dialog (snd s')
      \/ Dialog.result_code (snd s') = Some Rejected
      \/ (Dialog.result_code (snd s') = Some Accepted
          /\ lists_bounded (fst s') (Dialog.settings (snd s')))).
Proof.
  intros Hrun Hopen.
  assert (Hkeep : preserves open_dialog (Dialog.handle e) ->
                  r = Ok tt ->
                  r = Ok tt
                  /\ (open_dialog (snd s')
                      \/ Dialog.result_code (snd s') = Some Rejected
                      \/ (Dialog.result_code (snd s') = Some Accepted
                          /\ lists_bounded (fst s') (Dialog.settings (snd s'))))).
  { intros Hp Hr. split; [exact Hr|]. left. eapply Hp; eauto. }
  destruct e; cbn [Dialog.handle] in Hrun, Hkeep.
  1-2: apply Hkeep;
    [ apply preserves_bind;
      [ apply preserves_set_self; dialog_leaf
      | intros; apply preserves_slot; apply on_transform_change_open ]
    | unfold bind, set_self in Hrun; eapply slot_Ok; exact Hrun ].
  1-7: apply Hkeep;
    [ apply preserves_set_self; dialog_leaf
    | now injection Hrun as <- _ ].
  - apply Hkeep;
      [ apply preserves_slot; apply reset_to_defaults_open
      | eapply slot_Ok; exact Hrun ].
  - split; [eapply slot_Ok; exact Hrun|].
    unfold Dialog.slot in Hrun.
    destruct (Dialog.accept s) as [r0 s0] eqn:Ea. injection Hrun as _ <-.
    destruct (accept_spec _ _ _ Ea Hopen) as [Ho|Ha]; auto.
  - split; [eapply slot_Ok; exact Hrun|].
    right. left. unfold Dialog.slot, Dialog.reject, set_self in Hrun.
    injection Hrun as _ <-. reflexivity.
Qed.

(** A session on an open dialog: when it ends accepted, the three lists of
    the settings object are bounded. *)
Lemma exec_spec `{H : Host} (events : list event) :
  forall (s s' : Dialog.St),
    Dialog.exec_ events s = (Ok (Some Accepted), s') ->
    open_dialog (snd s) ->
    lists_bounded (fst s') (Dialog.settings (snd s')).
Proof.
  induction events as [|e rest IH]; intros s s'; cbn [Dialog.exec_].
  - discriminate.
  - intros Hrun Hopen.
    apply bind_Ok_inv in Hrun as (u & s1 & He & Hrun).
    apply bind_Ok_inv in Hrun as (me & s2 & Hself & Hrun).
    apply self_inv in Hself as [-> ->].
    destruct (handle_spec _ _ _ _ He Hopen) as [_ [Ho|[Hr|[Ha Hl]]]].
    + destruct Ho as (_ & _ & _ & Hnone). rewrite Hnone in Hrun.
      eapply IH; eauto. 
      apply (handle_spec _ _ _ _ He) in Hopen as [_ [Ho'|[Hr|[Ha _]]]]; auto; congruence.
    + rewrite Hr in Hrun. discriminate.
    + rewrite Ha in Hrun. injection Hrun as <-. exact Hl.
Qed.

Ltac establish :=
  unfold Dialog.init;
  repeat first
    [ apply establishes_bind_now;
      [ solve [apply establishes_set_self; intros; unfold Dialog.with_x_format_combo,
                 Dialog.with_y_format_combo, Dialog.with_scaler_combo;
               cbn [Dialog.x_format_combo Dialog.y_format_combo Dialog.scaler_combo];
               try apply capped_under_mask; apply capped_setMaxCount]
      | intros; solve [unfold_dialog; pres] ]
    | apply establishes_bind_later; intros ].

(** The constructor opens the dialog. *)
Lemma init_spec `{H : Host} (parent_settings : option ref) (w : World) (s' : Dialog.St) :
  Dialog.init parent_settings (w, Dialog.blank) = (Ok tt, s') ->
  open_dialog (snd s').
Proof.
  intros Hrun.
  assert (Hx : establishes (fun d => capped (Dialog.x_format_combo d))
                 (Dialog.init parent_settings)) by establish.
  assert (Hy : establishes (fun d => capped (Dialog.y_format_combo d))
                 (Dialog.init parent_settings)) by establish.
  assert (Hs : establishes (fun d => capped (Dialog.scaler_combo d))
                 (Dialog.init parent_settings)) by establish.
  assert (Hr : preserves (fun d => Dialog.result_code d = None)
                 (Dialog.init parent_settings))
    by (unfold Dialog.init; unfold_dialog; pres).
  split; [|split; [|split]].
  - exact (Hx _ _ _ Hrun).
  - exact (Hy _ _ _ Hrun).
  - exact (Hs _ _ _ Hrun).
  - exact (Hr _ _ _ Hrun eq_refl).
Qed.

(** ** What the widget adopts *)

Section Keeping.
Context {H : Host}.
Variable P : Widget.St -> Prop.

Lemma keeps_ret (A : Type) (a : A) : keeps P (ret a).
Proof. intros s r s' [= <- <-]. auto. Qed.

Lemma keeps_raise (A : Type) (e : exn) : keeps P (@raise _ A e).
Proof. intros s r s' [= <- <-]. auto. Qed.

Lemma keeps_of_result (A : Type) (x : result A) : keeps P (of_result x).
Proof. destruct x; [apply keeps_ret | apply keeps_raise]. Qed.

Lemma keeps_self : keeps P self.
Proof. intros s r s' [= <- <-]. auto. Qed.

Lemma keeps_set_self (f : SecondaryCoordinates -> SecondaryCoordinates) :
  (forall w me, P (w, me) -> P (w, f me)) -> keeps P (set_self f).
Proof. intros Hf [w me] r s' [= <- <-]. cbn [fst snd]. auto. Qed.

Lemma keeps_in_world (A : Type) (m : M World A) :
  (forall w me r w', m w = (r, w') -> P (w, me) -> P (w', me)) ->
  keeps P (in_world m).
Proof.
  intros Hm [w me] r s'. unfold in_world. cbn [fst snd].
  destruct (m w) as [r0 w0] eqn:Em. intros [= <- <-]. eauto.
Qed.

Lemma keeps_bind (A B : Type) (m : M Widget.St A) (f : A -> M Widget.St B) :
  keeps P m -> (forall a, keeps P (f a)) -> keeps P (bind m f).
Proof.
  intros Hm Hf s r s'. unfold bind.
  destruct (m s) as [[a|e] s1] eqn:Em.
  - intros Hrun Hs. eapply Hf; eauto.
  - intros [= <- <-] Hs. eapply Hm; eauto.
Qed.

Lemma reaches_bind_later (A B : Type) (m : M Widget.St A) (f : A -> M Widget.St B) :
  (forall a, reaches P (f a)) -> reaches P (bind m f).
Proof.
  intros Hf s b s'. unfold bind.
  destruct (m s) as [[a|e] s1]; [|discriminate].
  intros Hrun. eapply Hf; eauto.
Qed.

Lemma reaches_bind_now (A B : Type) (m : M Widget.St A) (f : A -> M Widget.St B) :
  reaches P m -> (forall a, keeps P (f a)) -> reaches P (bind m f).
Proof.
  intros Hm Hf s b s'. unfold bind.
  destruct (m s) as [[a|e] s1] eqn:Em; [|discriminate].
  intros Hrun. eapply Hf; eauto.
Qed.

Lemma reaches_set_self (f : SecondaryCoordinates -> SecondaryCoordinates) :
  (forall w me, P (w, f me)) -> reaches P (set_self f).
Proof. intros Hf [w me] a s' Hrun. inversion Hrun; subst. auto. Qed.

End Keeping.

Lemma deref_frame (r : ref) (w w' : World) (x : result pydict) :
  deref r w = (x, w') -> w' = w.
Proof. unfold deref. destruct (nth_error (heap w) r); now intros [= _ <-]. Qed.

Ltac unfold_widget :=
  unfold Widget.update_from_settings, Widget.settings_object, Widget.set_transform,
    Widget.set_transform_name, Widget.set_x_format, Widget.set_y_format,
    Widget.set_scaler, Widget.write_settings, Widget.settings_object.

(** The steps of [update_from_settings], for a property of the heap or of
    the reference to the settings. *)
Ltac keep :=
  repeat first
    [ apply keeps_ret
    | apply keeps_raise
    | apply keeps_of_result
    | apply keeps_self
    | apply keeps_set_self; intros ? ?; cbn; solve [auto]
    | apply keeps_in_world; intros ? ? ? ? ?;
      solve [ auto
            | match goal with
              | Hm : get_transform _ _ = _ |- _ =>
                  apply get_transform_frame in Hm as (Hm & _); cbn; congruence
              | Hm : deref _ _ = _ |- _ => apply deref_frame in Hm; subst; auto
              | Hm : modify _ _ = _ |- _ => injection Hm as _ <-; cbn; auto
              | Hm : get _ = _ |- _ => injection Hm as _ <-; cbn; auto
              end ]
    | apply keeps_bind; [|intros ?]
    | match goal with
      | |- keeps _ (if ?b then _ else _) => destruct b
      | |- keeps _ (match ?x with _ => _ end) => destruct x
      | |- keeps _ (let (_, _) := ?x in _) => destruct x
      end ].

Lemma update_from_settings_heap `{H : Host} (arg : option ref) (h : list pydict) :
  keeps (fun s => heap (fst s) = h) (Widget.update_from_settings arg).
Proof. unfold_widget. keep. Qed.

Lemma update_from_settings_adopts `{H : Host} (r : ref) :
  reaches (fun s => settings (snd s) = Some r) (Widget.update_from_settings (Some r)).
Proof.
  unfold_widget.
  repeat first
    [ apply reaches_bind_now;
      [ solve [apply reaches_set_self; intros; reflexivity]
      | intros; solve [keep] ]
    | apply reaches_bind_later; intros ].
Qed.

(** [on_config_dialog], by the outcome of the dialog. *)
Lemma on_config_dialog_run `{H : Host} (events : list event) (w : World)
    (me : SecondaryCoordinates) :
  Widget.on_config_dialog events (w, me) =
  match (Dialog.init (settings me) ;; Dialog.exec_ events)%M (w, Dialog.blank) with
  | (Raise e, (w', _)) => (Raise e, (w', me))
  | (Ok (Some Accepted), (w', dlg)) =>
      Widget.update_from_settings (Dialog.settings dlg) (w', me)
  | (Ok _, (w', _)) => (Ok tt, (w', me))
  end.
Proof.
  unfold Widget.on_config_dialog.
  destruct ((Dialog.init (settings me) ;; Dialog.exec_ events)%M (w, Dialog.blank))
    as [[[[]|]|e] [w' dlg]]; reflexivity.
Qed.

(** C9, amended: after every accepted dialog session, each of the three
    history lists of the settings object the dialog hands over (the x
    formats, the y formats, the scale factors) is a list of distinct strings
    with eleven entries at most: the items of its box, ten at most, and the
    text of its line edit. The widget is handed this object, and when it has
    applied it, these are the lists of the widget's settings. *)
Theorem C9_accepted_session_bounds_lists `{H : Host}
    (events : list event) (w w1 : World) (me : SecondaryCoordinates)
    (dlg : Dialog.ConfigDialog) :
  (Dialog.init (settings me) ;; Dialog.exec_ events)%M (w, Dialog.blank)
  = (Ok (Some Accepted), (w1, dlg)) ->
  lists_bounded w1 (Dialog.settings dlg)
  /\ Widget.on_config_dialog events (w, me)
     = Widget.update_from_settings (Dialog.settings dlg) (w1, me)
  /\ (forall w' me',
        Widget.on_config_dialog events (w, me) = (Ok tt, (w', me')) ->
        settings me' = Dialog.settings dlg /\ lists_bounded w' (settings me')).
Proof.
  intros Hrun.
  assert (Hlists : lists_bounded w1 (Dialog.settings dlg)).
  { apply bind_Ok_inv in Hrun as ([] & s1 & Hinit & Hexec).
    apply init_spec in Hinit.
    exact (exec_spec _ _ _ Hexec Hinit). }
  assert (Hhand : Widget.on_config_dialog events (w, me)
                  = Widget.update_from_settings (Dialog.settings dlg) (w1, me)).
  { rewrite on_config_dialog_run, Hrun. reflexivity. }
  split; [exact Hlists|]. split; [exact Hhand|].
  intros w' me' Happly. rewrite Hhand in Happly.
  destruct (Dialog.settings dlg) as [r|] eqn:Er.
  - pose proof (update_from_settings_adopts r _ _ _ Happly) as Hs.
    pose proof (update_from_settings_heap (Some r) (heap w1) _ _ _ Happly eq_refl) as Hh.
    cbn [fst snd] in Hs, Hh. split; [exact Hs|].
    rewrite Hs. intros key Hkey. destruct (Hlists key Hkey) as (l & Hl & Hnd & Hlen).
    exists l. split; [|auto]. unfold settings_list in *. now rewrite Hh.
  - exfalso. destruct (Hlists "x_formats") as (l & Hl & _); [now left|]. discriminate.
Qed.

Lemma C9_accepted_session_bounds_lists_witness :
  exists w' me',
    Widget.on_config_dialog (new_format_session ".3f") demo_state = (Ok tt, (w', me'))
    /\ lists_bounded w' (settings me')
    /\ settings_list w' (settings me') "x_formats" = Some [".3f"; ".1f"; ",.0f"].
Proof.
  pose (out := (Dialog.init (settings (snd demo_state)) ;;
                Dialog.exec_ (new_format_session ".3f"))%M (fst demo_state, Dialog.blank)).
  pose (res := Widget.on_config_dialog (new_format_session ".3f") demo_state).
  destruct (C9_accepted_session_bounds_lists (new_format_session ".3f")
              (fst demo_state) (fst (snd out)) (snd demo_state) (snd (snd out)))
    as (_ & _ & Hadopted); [vm_compute; reflexivity|].
  exists (fst (snd res)), (snd (snd res)).
  split; [vm_compute; reflexivity|].
  split; [|vm_compute; reflexivity].
  apply Hadopted. vm_compute; reflexivity.
Defined.

(** ** More on the settings merge *)

Lemma pyval_nested_ind (P : pyval -> Prop) :
  P PyNone -> (forall b, P (PyBool b)) -> (forall n, P (PyInt n)) ->
  (forall lit, P (PyFloat lit)) -> (forall s, P (PyStr s)) ->
  (forall l, Forall P l -> P (PyList l)) ->
  (forall d, Forall (fun kv => P (snd kv)) d -> P (PyDict d)) ->
  forall v, P v.
Proof.
  intros HN HB HI HF HS HL HD.
  fix IH 1. intros [| b | n | lit | s | l | d].
  - exact HN.
  - apply HB.
  - apply HI.
  - apply HF.
  - apply HS.
  - apply HL. revert l. fix IHl 1. intros [|a l]; constructor; [apply IH | apply IHl].
  - apply HD. revert d. fix IHd 1. intros [|[k a] d]; constructor; [apply IH | apply IHd].
Qed.

Lemma dict_get_of_In (d : pydict) (k : string) (v : pyval) :
  NoDup (dict_keys d) -> In (k, v) d -> dict_get d k = Some v.
Proof.
  induction d as [|[k' v'] d IH]; simpl; [contradiction|].
  intros Hnd [[= -> ->]|Hin].
  - now rewrite String.eqb_refl.
  - inversion Hnd as [|? ? Hnotin Hrest]; subst.
    destruct (String.eqb k k') eqn:E.
    + apply String.eqb_eq in E. subst k'. exfalso. apply Hnotin.
      unfold dict_keys. apply in_map_iff. now exists (k, v).
    + auto.
Qed.

Lemma dict_set_same_value (d : pydict) (k : string) (v : pyval) :
  dict_get d k = Some v -> dict_set d k v = d.
Proof.
  induction d as [|[k' v'] d IH]; simpl; [discriminate|].
  destruct (String.eqb k k') eqn:E.
  - now intros [= ->].
  - intros Hg. now rewrite IH.
Qed.

(** A loop of the merge in which every turn leaves the dict as it is. *)
Lemma recursive_update_dict_fixed (items : pydict) (acc : pydict) :
  (forall k v, In (k, v) items -> dict_set acc k (merged_value acc k v) = acc) ->
  recursive_update_dict acc (PyDict items) = acc.
Proof.
  induction items as [|[k v] rest IH]; intros Hstep; [reflexivity|].
  rewrite recursive_update_dict_cons, Hstep by now left.
  apply IH. intros k' v' Hin. apply Hstep. now right.
Qed.

Lemma self_merge (v : pyval) :
  unique_keys v ->
  match v with PyDict d => recursive_update_dict d v = d | _ => True end.
Proof.
  induction v as [| | | | | |d IH] using pyval_nested_ind; auto.
  intros Hu. apply unique_keys_dict in Hu as [Hnd Hvals].
  apply recursive_update_dict_fixed. intros k v Hin.
  pose proof (dict_get_of_In _ _ _ Hnd Hin) as Hg.
  apply dict_set_same_value. rewrite Hg. f_equal.
  unfold merged_value. rewrite Hg.
  destruct v as [| | | | | |dv]; try reflexivity.
  f_equal. rewrite Forall_forall in IH. symmetry.
  apply (IH (k, PyDict dv) Hin). eapply Hvals; eauto.
Qed.

Lemma merge_idempotent (d2 : pyval) :
  unique_keys d2 ->
  forall d1, recursive_update_dict (recursive_update_dict d1 d2) d2
             = recursive_update_dict d1 d2.
Proof.
  induction d2 as [| | | | | |items IH] using pyval_nested_ind; try reflexivity.
  intros Hu d1. apply unique_keys_dict in Hu as [Hnd Hvals].
  apply recursive_update_dict_fixed. intros k v Hin.
  pose proof (dict_get_of_In _ _ _ Hnd Hin) as Hg.
  assert (Hr : dict_get (recursive_update_dict d1 (PyDict items)) k
               = Some (merged_value d1 k v))
    by (rewrite recursive_update_dict_get, Hg by assumption; reflexivity).
  apply dict_set_same_value. rewrite Hr. f_equal.
  unfold merged_value at 2. rewrite Hr.
  rewrite Forall_forall in IH. specialize (IH (k, v) Hin). cbn [snd] in IH.
  assert (Huv : unique_keys v) by (eapply Hvals; eauto).
  unfold merged_value.
  destruct v as [| | | | | |dv]; try reflexivity.
  destruct (dict_get d1 k) as [[| | | | | |d1k]|];
    try (f_equal; symmetry; exact (self_merge (PyDict dv) Huv)).
  f_equal. symmetry. apply IH. exact Huv.
Qed.

Lemma extends_nil (d : pydict) : extends (PyDict []) d = true.
Proof. reflexivity. Qed.

Lemma extends_cons (k1 : string) (a : pyval) (rest1 : pydict) (d : pydict) :
  extends (PyDict ((k1, a) :: rest1)) d =
  match d with
  | [] => false
  | (k, b) :: rest =>
      String.eqb k1 k
      && match a, b with
         | PyDict _, PyDict db => extends a db
         | _, _ => true
         end
      && extends (PyDict rest1) rest
  end.
Proof. destruct d as [|[k b] rest]; reflexivity. Qed.

Lemma extends_refl (v : pyval) :
  match v with PyDict d => extends v d = true | _ => True end.
Proof.
  induction v as [| | | | | |d IH] using pyval_nested_ind; auto.
  induction d as [|[k a] d IHd]; [reflexivity|].
  rewrite extends_cons, String.eqb_refl.
  inversion IH as [|? ? Ha Hd]; subst. cbn [snd] in Ha.
  rewrite (IHd Hd), andb_true_r. cbn [andb].
  destruct a; auto.
Qed.

Lemma dict_get_app (p rest : pydict) (k : string) :
  dict_get (p ++ rest)%list k =
  match dict_get p k with
  | Some v => Some v
  | None => dict_get rest k
  end.
Proof.
  induction p as [|[k' v'] p IH]; simpl; [reflexivity|].
  destruct (String.eqb k k'); auto.
Qed.

Lemma dict_set_app (p rest : pydict) (k : string) (v : pyval) :
  dict_get p k = None -> dict_set (p ++ rest)%list k v = (p ++ dict_set rest k v)%list.
Proof.
  induction p as [|[k' v'] p IH]; simpl; [reflexivity|].
  destruct (String.eqb k k'); [discriminate|].
  intros Hg. now rewrite IH.
Qed.

Lemma dict_set_absent (p : pydict) (k : string) (v : pyval) :
  dict_get p k = None -> dict_set p k v = (p ++ [(k, v)])%list.
Proof.
  induction p as [|[k' v'] p IH]; simpl; [reflexivity|].
  destruct (String.eqb k k'); [discriminate|].
  intros Hg. now rewrite IH.
Qed.

Lemma merged_value_absent (d : pydict) (k : string) (v : pyval) :
  dict_get d k = None -> merged_value d k v = v.
Proof. unfold merged_value. intros ->. now destruct v. Qed.

Lemma NoDup_keys_app_head (p : pydict) (k : string) (v : pyval) (s : pydict) :
  NoDup (dict_keys (p ++ (k, v) :: s)%list) ->
  dict_get p k = None /\ NoDup (dict_keys ((p ++ [(k, v)])%list ++ s)%list).
Proof.
  intros Hnd. split.
  - apply dict_get_None_keys. unfold dict_keys in *. rewrite map_app in Hnd.
    apply NoDup_remove_2 in Hnd. intros Hin. apply Hnd. apply in_or_app. now left.
  - now rewrite <- app_assoc.
Qed.

(** A dict that extends [d1] is what the merge of it onto [d1] gives. *)
Lemma merge_of_extension (v1 : pyval) :
  forall d, unique_keys (PyDict d) -> extends v1 d = true ->
            match v1 with
            | PyDict d1 => recursive_update_dict d1 (PyDict d) = d
            | _ => True
            end.
Proof.
  induction v1 as [| | | | | |d1 IH] using pyval_nested_ind; auto.
  intros d Hu Hext.
  assert (Hloop : forall s d1' p,
             Forall (fun kv => forall d, unique_keys (PyDict d) -> extends (snd kv) d = true ->
                                match snd kv with
                                | PyDict d1 => recursive_update_dict d1 (PyDict d) = d
                                | _ => True
                                end) d1' ->
             extends (PyDict d1') s = true ->
             NoDup (dict_keys (p ++ s)%list) ->
             (forall k v, In (k, v) s -> unique_keys v) ->
             recursive_update_dict (p ++ d1')%list (PyDict s) = (p ++ s)%list).
  { clear. induction s as [|[k v] s IHs]; intros d1' p IH Hext Hnd Hvals.
    - destruct d1' as [|[k1 a] d1'']; [reflexivity|].
      rewrite extends_cons in Hext. discriminate.
    - rewrite recursive_update_dict_cons.
      apply NoDup_keys_app_head in Hnd as [Hp Hnd].
      assert (Hvals' : forall k' v', In (k', v') s -> unique_keys v')
        by (intros k' v' Hin; eapply Hvals; right; exact Hin).
      destruct d1' as [|[k1 a] d1''].
      + rewrite app_nil_r. rewrite (merged_value_absent _ _ _ Hp).
        rewrite (dict_set_absent _ _ _ Hp).
        pose proof (IHs [] (p ++ [(k, v)])%list IH eq_refl Hnd Hvals') as Hi.
        rewrite app_nil_r in Hi. rewrite Hi. now rewrite <- app_assoc.
      + rewrite extends_cons in Hext.
        apply andb_prop in Hext as [Hext Hrest]. apply andb_prop in Hext as [Hk Hcompat].
        apply String.eqb_eq in Hk. subst k1.
        inversion IH as [|? ? Ha IH']; subst. cbn [snd] in Ha.
        assert (Hget : dict_get (p ++ (k, a) :: d1'')%list k = Some a)
          by (rewrite dict_get_app, Hp; simpl; now rewrite String.eqb_refl).
        assert (Hm : merged_value (p ++ (k, a) :: d1'')%list k v = v).
        { unfold merged_value. rewrite Hget.
          destruct v as [| | | | | |dv]; try reflexivity.
          destruct a as [| | | | | |da]; try reflexivity.
          f_equal. apply Ha; [|exact Hcompat].
          eapply Hvals. left. reflexivity. }
        rewrite Hm, dict_set_app by exact Hp.
        simpl dict_set. rewrite String.eqb_refl.
        pose proof (IHs d1'' (p ++ [(k, v)])%list IH' Hrest Hnd Hvals') as Hi.
        rewrite <- !app_assoc in Hi. exact Hi. }
  apply unique_keys_dict in Hu as [Hnd Hvals].
  apply (Hloop d d1 []); auto.
  intros k v Hin. eapply Hvals. apply dict_get_of_In; eauto.
Qed.

Lemma extends_set (X : pydict) :
  forall (acc : pydict) (k : string) (m : pyval),
    extends (PyDict X) acc = true ->
    (forall xk, dict_get X k = Some (PyDict xk) ->
                match m with PyDict dm => extends (PyDict xk) dm = true | _ => True end) ->
    extends (PyDict X) (dict_set acc k m) = true.
Proof.
  induction X as [|[k1 a] X IH]; intros acc k m Hext Hm; [reflexivity|].
  rewrite extends_cons in Hext. destruct acc as [|[k0 b] acc]; [discriminate|].
  apply andb_prop in Hext as [Hext Hrest]. apply andb_prop in Hext as [Hk Hcompat].
  apply String.eqb_eq in Hk. subst k0.
  simpl dict_set. destruct (String.eqb k k1) eqn:E.
  - apply String.eqb_eq in E. subst k1.
    rewrite extends_cons, String.eqb_refl, Hrest, andb_true_r. cbn [andb].
    destruct a as [| | | | | |xk]; try reflexivity.
    specialize (Hm xk). simpl in Hm. rewrite String.eqb_refl in Hm.
    specialize (Hm eq_refl). destruct m; auto.
  - rewrite extends_cons, String.eqb_refl, Hcompat. cbn [andb].
    apply IH; [exact Hrest|].
    intros xk Hx. apply Hm. simpl. now rewrite E.
Qed.

(** The merge onto [d1] extends [d1]. *)
Lemma merge_extends (d2 : pyval) :
  unique_keys d2 ->
  forall d1, extends (PyDict d1) (recursive_update_dict d1 d2) = true.
Proof.
  induction d2 as [| | | | | |items IH] using pyval_nested_ind;
    try (intros _ d1; exact (extends_refl (PyDict d1))).
  intros Hu d1. apply unique_keys_dict in Hu as [Hnd Hvals].
  assert (Hvals' : forall k v, In (k, v) items -> unique_keys v)
    by (intros k v Hin; eapply Hvals; apply dict_get_of_In; eauto).
  clear Hvals. rewrite Forall_forall in IH.
  assert (Hloop : forall s acc,
             (forall kv, In kv s -> In kv items) ->
             NoDup (dict_keys s) ->
             extends (PyDict d1) acc = true ->
             (forall k, In k (dict_keys s) -> dict_get acc k = dict_get d1 k) ->
             extends (PyDict d1) (recursive_update_dict acc (PyDict s)) = true).
  { induction s as [|[k v] s IHs]; intros acc Hsub Hnds Hext Hsame; [exact Hext|].
    rewrite recursive_update_dict_cons.
    inversion Hnds as [|? ? Hnotin Hnds']; subst.
    apply IHs.
    - intros kv Hin. apply Hsub. now right.
    - exact Hnds'.
    - apply extends_set; [exact Hext|].
      intros xk Hx.
      rewrite (merged_value_ext acc d1) by (apply Hsame; now left).
      unfold merged_value. rewrite Hx.
      destruct v as [| | | | | |dv]; auto.
      apply (IH (k, PyDict dv)); [apply Hsub; now left|].
      apply (Hvals' k). apply Hsub. now left.
    - intros k' Hk'. rewrite dict_get_set_other.
      + apply Hsame. now right.
      + intros ->. contradiction. }
  apply Hloop; auto. exact (extends_refl (PyDict d1)).
Qed.

Lemma unique_keys_set (d : pydict) (k : string) (v : pyval) :
  unique_keys (PyDict d) -> unique_keys v -> unique_keys (PyDict (dict_set d k v)).
Proof.
  intros Hd Hv. inversion Hd as [| | | | | |? Hnd Hall]; subst.
  constructor; [now apply dict_set_unique_keys | now apply dict_set_Forall].
Qed.

Lemma merge_unique_keys (d2 : pyval) :
  unique_keys d2 ->
  forall d1, unique_keys (PyDict d1) -> unique_keys (PyDict (recursive_update_dict d1 d2)).
Proof.
  induction d2 as [| | | | | |items IH] using pyval_nested_ind; try (intros _ d1 Hd1; exact Hd1).
  intros Hu d1 Hd1. inversion Hu as [| | | | | |? _ Hall]; subst. clear Hu.
  revert d1 Hd1. induction items as [|[k v] s IHs]; intros d1 Hd1; [exact Hd1|].
  rewrite recursive_update_dict_cons.
  inversion IH as [|? ? Hv IH']; subst. inversion Hall as [|? ? Huv Hall']; subst.
  cbn [snd] in Hv, Huv.
  apply IHs; auto.
  apply unique_keys_set; [exact Hd1|].
  unfold merged_value.
  destruct v as [| | | | | |dv]; auto.
  destruct (dict_get d1 k) as [[| | | | | |d1k]|] eqn:Hg; auto.
  apply Hv; [exact Huv|].
  apply unique_keys_dict in Hd1 as [_ Hvals]. eapply Hvals; eauto.
Qed.

Lemma merge_absorbs (d1 : pydict) (d2 : pyval) :
  unique_keys (PyDict d1) -> unique_keys d2 ->
  recursive_update_dict d1 (PyDict (recursive_update_dict d1 d2))
  = recursive_update_dict d1 d2.
Proof.
  intros H1 H2.
  apply (merge_of_extension (PyDict d1)).
  - now apply merge_unique_keys.
  - now apply merge_extends.
Qed.

(** *** [int(str(n))] *)

Lemma digit_char_spec (d : Z) :
  (0 <= d < 10)%Z ->
  is_digit (digit_char d) = true /\ digit_val (digit_char d) = d
  /\ is_space (digit_char d) = false
  /\ Ascii.eqb "-"%char (digit_char d) = false
  /\ Ascii.eqb "+"%char (digit_char d) = false.
Proof.
  intros Hd.
  assert (Hc : (d = 0 \/ d = 1 \/ d = 2 \/ d = 3 \/ d = 4 \/ d = 5 \/ d = 6 \/ d = 7
               \/ d = 8 \/ d = 9)%Z) by lia.
  repeat destruct Hc as [->|Hc]; try subst d; repeat split; reflexivity.
Qed.

Lemma int_digits_digit (acc : Z) (b : bool) (d : Z) (s : string) :
  (0 <= d < 10)%Z ->
  int_digits acc b (String (digit_char d) s) = int_digits (10 * acc + d) true s.
Proof.
  intros Hd. destruct (digit_char_spec d Hd) as (Hdig & Hval & _).
  cbn [int_digits]. now rewrite Hdig, Hval.
Qed.

Lemma pos_digits_read (fuel : nat) :
  forall n : Z,
    (0 <= n < 2 ^ Z.of_nat (S fuel))%Z ->
    exists m : Z,
      forall (s : string) (acc : Z) (b : bool),
        int_digits acc b (pos_digits (S fuel) n s) = int_digits (acc * m + n) true s.
Proof.
  induction fuel as [|fuel IH]; intros n Hn.
  - exists 10%Z. intros s acc b. cbn [pos_digits].
    change (2 ^ Z.of_nat 1)%Z with 2%Z in Hn.
    assert (Hlt : (n <? 10)%Z = true) by (apply Z.ltb_lt; lia). rewrite Hlt.
    rewrite Z.mod_small by lia. rewrite int_digits_digit by lia. f_equal. lia.
  - destruct (n <? 10)%Z eqn:Hlt.
    + exists 10%Z. intros s acc b. cbn [pos_digits]. rewrite Hlt.
      apply Z.ltb_lt in Hlt.
      rewrite Z.mod_small by lia. rewrite int_digits_digit by lia. f_equal. lia.
    + apply Z.ltb_ge in Hlt.
      destruct (IH (n / 10)%Z) as [m Hm].
      { split; [apply Z.div_pos; lia|].
        apply Z.div_lt_upper_bound; [lia|].
        rewrite Nat2Z.inj_succ, Z.pow_succ_r in Hn by lia. lia. }
      exists (10 * m)%Z. intros s acc b.
      change (pos_digits (S (S fuel)) n s)
        with (let acc' := String (digit_char (n mod 10)) s in
              if (n <? 10)%Z then acc' else pos_digits (S fuel) (n / 10) acc').
      cbv zeta. replace (n <? 10)%Z with false by (symmetry; apply Z.ltb_ge; lia).
      rewrite Hm. rewrite int_digits_digit by (apply Z.mod_pos_bound; lia).
      f_equal. pose proof (Z.div_mod n 10). lia.
Qed.

Lemma pos_digits_head (fuel : nat) :
  forall (n : Z) (s : string),
    (0 <= n)%Z ->
    exists d rest, (0 <= d < 10)%Z /\ pos_digits (S fuel) n s = String (digit_char d) rest.
Proof.
  induction fuel as [|fuel IH]; intros n s Hn.
  - exists (n mod 10)%Z. cbn [pos_digits].
    destruct (n <? 10)%Z; eexists; (split; [apply Z.mod_pos_bound; lia | reflexivity]).
  - change (pos_digits (S (S fuel)) n s)
      with (let acc' := String (digit_char (n mod 10)) s in
            if (n <? 10)%Z then acc' else pos_digits (S fuel) (n / 10) acc').
    cbv zeta. destruct (n <? 10)%Z.
    + exists (n mod 10)%Z. eexists. split; [apply Z.mod_pos_bound; lia | reflexivity].
    + apply IH. apply Z.div_pos; lia.
Qed.

Lemma log2_fuel (a : Z) : (0 <= a)%Z -> (0 <= a < 2 ^ Z.of_nat (S (Z.to_nat (Z.log2 a))))%Z.
Proof.
  intros Ha. split; [exact Ha|].
  rewrite Nat2Z.inj_succ, Z2Nat.id by apply Z.log2_nonneg.
  destruct (Z.eq_dec a 0) as [->|Hne]; [reflexivity|].
  apply Z.log2_spec. lia.
Qed.

(** On an ASCII text, [int] asks nothing of the Unicode database. *)
Lemma to_ascii_of_ascii `{H : Host} (s : string) :
  all_ascii s = true -> to_ascii (chars s) = s.
Proof.
  induction s as [|c r IH]; [reflexivity|].
  cbn [all_ascii]. intros Hs. apply andb_prop in Hs as [Hc Hr].
  cbn [chars]. cbv zeta. rewrite Hc. cbn [to_ascii]. rewrite Hc.
  cbn [append]. now rewrite IH.
Qed.

Lemma py_int_ascii `{H : Host} (s : string) :
  all_ascii s = true -> py_int s = long_from_string s.
Proof. intros Hs. unfold py_int. now rewrite to_ascii_of_ascii. Qed.

Lemma digit_char_ascii (d : Z) : (0 <= d < 10)%Z -> (N_of_ascii (digit_char d) <? 128)%N = true.
Proof.
  intros Hd.
  assert (Hc : (d = 0 \/ d = 1 \/ d = 2 \/ d = 3 \/ d = 4 \/ d = 5 \/ d = 6 \/ d = 7
               \/ d = 8 \/ d = 9)%Z) by lia.
  repeat destruct Hc as [->|Hc]; try subst d; reflexivity.
Qed.

Lemma pos_digits_ascii (fuel : nat) :
  forall (n : Z) (acc : string),
    all_ascii acc = true -> all_ascii (pos_digits fuel n acc) = true.
Proof.
  induction fuel as [|fuel IH]; intros n acc Hacc; [exact Hacc|].
  cbn [pos_digits]. cbv zeta.
  assert (Hstep : all_ascii (String (digit_char (n mod 10)) acc) = true).
  { cbn [all_ascii]. rewrite digit_char_ascii by (apply Z.mod_pos_bound; lia). exact Hacc. }
  destruct (n <? 10)%Z; [exact Hstep | now apply IH].
Qed.

Lemma py_str_ascii (n : Z) : all_ascii (py_str n) = true.
Proof.
  unfold py_str. destruct (n <? 0)%Z.
  - cbn [all_ascii]. cbn [N_of_ascii]. now apply pos_digits_ascii.
  - now apply pos_digits_ascii.
Qed.

(** [int(str(n)) == n] *)
Lemma py_int_py_str `{H : Host} (n : Z) : py_int (py_str n) = Some n.
Proof.
  rewrite py_int_ascii by apply py_str_ascii.
  unfold py_str.
  set (a := Z.abs n). set (fuel := Z.to_nat (Z.log2 a)).
  assert (Ha : (0 <= a)%Z) by (unfold a; lia).
  destruct (pos_digits_read fuel a (log2_fuel a Ha)) as [m Hm].
  destruct (pos_digits_head fuel a EmptyString Ha) as (d & rest & Hd & Hhead).
  destruct (digit_char_spec d Hd) as (_ & _ & Hsp & Hminus & Hplus).
  assert (Hread : int_digits 0 false (pos_digits (S fuel) a EmptyString) = Some a).
  { rewrite Hm. cbn [int_digits]. f_equal; lia. }
  unfold long_from_string. destruct (n <? 0)%Z eqn:Hneg.
  - cbn [lstrip]. change (is_space "-"%char) with false. cbv iota.
    cbn [starts_with tail]. change (Ascii.eqb "-"%char "-"%char) with true. cbv iota.
    rewrite Hread. cbn [option_map]. f_equal. apply Z.ltb_lt in Hneg. unfold a. lia.
  - rewrite Hhead. cbn [lstrip]. rewrite Hsp. cbn [starts_with]. rewrite Hminus, Hplus.
    rewrite <- Hhead, Hread. f_equal. apply Z.ltb_ge in Hneg. unfold a. lia.
Qed.

Lemma py_str_not_marker (n : Z) : startswith (py_str n) "+proj=calcofi" = false.
Proof.
  unfold py_str. destruct (n <? 0)%Z; [reflexivity|].
  destruct (pos_digits_head (Z.to_nat (Z.log2 (Z.abs n))) (Z.abs n) EmptyString) as
    (d & rest & Hd & ->); [lia|].
  destruct (digit_char_spec d Hd) as (_ & _ & _ & _ & Hplus).
  cbn [startswith]. now rewrite Hplus.
Qed.

Lemma py_int_not_marker `{H : Host} (s : string) (n : Z) :
  py_int s = Some n -> startswith s "+proj=calcofi" = false.
Proof.
  intros Hint. destruct (startswith s "+proj=calcofi") eqn:E; [|reflexivity].
  exfalso. revert Hint.
  destruct s as [|c0 s]; [discriminate|].
  cbn [startswith] in E. apply andb_prop in E as [E0 E1].
  destruct s as [|c1 s]; [discriminate|].
  cbn [startswith] in E1. apply andb_prop in E1 as [E1 _].
  apply Ascii.eqb_eq in E0, E1. subst c0 c1. discriminate.
Qed.

(** ** More on the transform resolver *)

(** The result of the resolver depends on the world through the CRS of the
    project alone. *)
Lemma get_transform_result `{H : Host} (arg : crs_arg) (w w' : World) :
  project_crs w = project_crs w' ->
  fst (get_transform arg w) = fst (get_transform arg w').
Proof.
  intros Hp. destruct (is_calcofi_marker arg) eqn:Em.
  - destruct arg as [n|s]; [discriminate|]. cbn [is_calcofi_marker] in Em.
    rewrite !get_transform_marker by exact Em.
    cbn [fst]. unfold adapter_for, source_or_default. now rewrite Hp.
  - rewrite (get_transform_native arg _ _ w Em eq_refl eq_refl).
    rewrite (get_transform_native arg _ _ w' Em eq_refl eq_refl).
    unfold source_or_default. now rewrite Hp.
Qed.

(** X1: a text that [int] accepts, with its whitespace, sign, underscores
    or digits of another script, resolves as the integer it denotes does.
    The text has 640 bytes at most: up to 640 digits the interpreter reads a
    text whatever its limit on the number of digits is set to. *)
Theorem X1_text_of_an_integer_resolves_as_the_integer `{H : Host}
    (text : string) (n : Z) (w : World) :
  String.length text <= 640 ->
  py_int text = Some n ->
  fst (get_transform (CrsStr text) w) = fst (get_transform (CrsInt n) w).
Proof.
  intros _ Hint.
  assert (Hm : is_calcofi_marker (CrsStr text) = false)
    by (cbn [is_calcofi_marker]; eapply py_int_not_marker; eauto).
  rewrite (get_transform_native (CrsStr text) _ _ w Hm eq_refl eq_refl).
  rewrite (get_transform_native (CrsInt n) _ _ w eq_refl eq_refl eq_refl).
  now rewrite Hint.
Qed.

Lemma X1_text_of_an_integer_resolves_as_the_integer_witness :
  let fullwidth := utf8_encode 65302 ++ utf8_encode 65300 ++ "_14" ++ utf8_encode 160 in
  py_int " 6_414 " = Some 6414%Z
  /\ py_int fullwidth = Some 6414%Z
  /\ py_int (String (ascii_of_N 31) "6414") = None
  /\ fst (get_transform (CrsStr " 6_414 ") fresh_world)
     = Ok (Some ("EPSG:6414",
                 Native {| source := wgs84;
                           destination := QgsCoordinateReferenceSystem (CrsInt 6414) |}))
  /\ fst (get_transform (CrsStr fullwidth) fresh_world)
     = fst (get_transform (CrsInt 6414) fresh_world).
Proof.
  intros fullwidth.
  split; [reflexivity|]. split; [reflexivity|]. split; [reflexivity|]. split.
  - rewrite (X1_text_of_an_integer_resolves_as_the_integer " 6_414 " 6414 fresh_world);
      [reflexivity | cbn; lia | reflexivity].
  - apply (X1_text_of_an_integer_resolves_as_the_integer fullwidth 6414 fresh_world);
      [vm_compute; lia | reflexivity].
Defined.

(** X2: for every integer [n], the text [str(n)] resolves as [n] does: a
    code saved as text gives the same canonical name and the same
    transform, or [None] when the registry rejects [n]. *)
Theorem X2_integer_saved_as_text_resolves_alike `{H : Host} (n : Z) (w : World) :
  fst (get_transform (CrsStr (py_str n)) w) = fst (get_transform (CrsInt n) w)
  /\ fst (get_transform (CrsInt n) w)
     = Ok (if isValid (QgsCoordinateReferenceSystem (CrsInt n))
           then Some ("EPSG:" ++ py_str n,
                      Native {| source := source_or_default w;
                                destination := QgsCoordinateReferenceSystem (CrsInt n) |})
           else None).
Proof.
  split.
  - assert (Hm : is_calcofi_marker (CrsStr (py_str n)) = false)
      by (cbn [is_calcofi_marker]; apply py_str_not_marker).
    rewrite (get_transform_native (CrsStr (py_str n)) _ _ w Hm eq_refl eq_refl).
    rewrite (get_transform_native (CrsInt n) _ _ w eq_refl eq_refl eq_refl).
    now rewrite py_int_py_str.
  - apply (get_transform_native (CrsInt n)); reflexivity.
Qed.

(** X3: the name the resolver returns resolves to itself. On a registry
    that accepts the text [EPSG:n] whenever it accepts the number [n], when
    an identifier resolves to a name and a transform, the name resolves to
    the same name, and to a transform from the same source. *)
Theorem X3_canonical_name_resolves_to_itself `{H : Host}
    (arg : crs_arg) (w w' : World) (name : string) (t : Transform) :
  (forall n, isValid (QgsCoordinateReferenceSystem (CrsInt n)) = true ->
             isValid (QgsCoordinateReferenceSystem (CrsStr ("EPSG:" ++ py_str n))) = true) ->
  get_transform arg w = (Ok (Some (name, t)), w') ->
  exists t',
    fst (get_transform (CrsStr name) w') = Ok (Some (name, t'))
    /\ sourceCrs t' = sourceCrs t.
Proof.
  intros Hreg Hrun.
  pose proof (get_transform_frame _ _ _ _ Hrun) as (_ & _ & Hp & _).
  assert (Hfst : fst (get_transform arg w) = Ok (Some (name, t))) by now rewrite Hrun.
  rewrite (get_transform_result (CrsStr name) w' w Hp).
  clear Hrun Hp w'.
  destruct (is_calcofi_marker arg) eqn:Em.
  - destruct arg as [n|s]; [discriminate|]. cbn [is_calcofi_marker] in Em.
    rewrite get_transform_marker in Hfst by exact Em. cbn [fst] in Hfst.
    injection Hfst as <- <-.
    exists (Custom (adapter_for w)). split; [|reflexivity].
    now rewrite get_transform_marker.
  - rewrite (get_transform_native arg _ _ w Em eq_refl eq_refl) in Hfst.
    set (arg' := match arg with
                 | CrsInt n => CrsInt n
                 | CrsStr s => match py_int s with Some n => CrsInt n | None => CrsStr s end
                 end) in *.
    destruct (isValid (QgsCoordinateReferenceSystem arg')) eqn:Ev; [|discriminate].
    injection Hfst as <- <-.
    assert (Hcase : (exists n, arg' = CrsInt n)
                    \/ (exists s, arg' = CrsStr s /\ arg = CrsStr s /\ py_int s = None)).
    { unfold arg'. destruct arg as [n|s]; [left; eauto|].
      destruct (py_int s) as [n|] eqn:Ei; [left; eauto | right; eauto]. }
    destruct Hcase as [[n Hn]|(s & Hs & Harg & Hi)].
    + rewrite Hn in *.
      exists (Native {| source := source_or_default w;
                        destination :=
                          QgsCoordinateReferenceSystem (CrsStr ("EPSG:" ++ py_str n)) |}).
      split; [|reflexivity].
      rewrite (get_transform_native (CrsStr ("EPSG:" ++ py_str n))
                 (CrsStr ("EPSG:" ++ py_str n)) ("EPSG:" ++ py_str n));
        try reflexivity.
      now rewrite (Hreg n Ev).
    + rewrite Hs in *. subst arg.
      exists (Native {| source := source_or_default w;
                        destination := QgsCoordinateReferenceSystem (CrsStr s) |}).
      split; [|reflexivity].
      rewrite (get_transform_native (CrsStr s) (CrsStr s) s);
        try (now rewrite Ev); try (now rewrite Hi); auto.
Qed.

Lemma demo_registry_coherent (n : Z) :
  isValid (QgsCoordinateReferenceSystem (CrsInt n)) = true ->
  isValid (QgsCoordinateReferenceSystem (CrsStr ("EPSG:" ++ py_str n))) = true.
Proof.
  cbn [isValid demo_host demo_isValid]. unfold known_code. intros Hk.
  apply orb_prop in Hk as [Hk|Hk]; apply Z.eqb_eq in Hk; subst n; reflexivity.
Qed.

Lemma X3_canonical_name_resolves_to_itself_witness :
  exists t',
    fst (get_transform (CrsStr "EPSG:6414")
           (add_calls [CallInt (CrsStr "6414"); CallCrs (CrsInt 6414)] fresh_world))
    = Ok (Some ("EPSG:6414", t'))
    /\ sourceCrs t' = Some wgs84.
Proof.
  apply (X3_canonical_name_resolves_to_itself (CrsStr "6414") fresh_world
           (add_calls [CallInt (CrsStr "6414"); CallCrs (CrsInt 6414)] fresh_world)
           "EPSG:6414"
           (Native {| source := wgs84;
                      destination := QgsCoordinateReferenceSystem (CrsInt 6414) |})).
  - exact demo_registry_coherent.
  - vm_compute; reflexivity.
Defined.

(** ** More on the adapter *)

(** X4: after [setSourceCrs], with or without an argument, the engine of
    the adapter starts from the WKT of the CRS that [sourceCrs] returns and
    leads to the CalCOFI projection, whatever the adapter was bound to
    before; without an argument that CRS is the project's, or EPSG:4326 when
    the project has none. A [transform] that follows calls that engine. *)
Theorem X4_adapter_engine_follows_its_source `{H : Host}
    (self0 : CalcofiTransformer) (arg : option QgsCrs) (w : World) :
  exists (c : QgsCrs) (w' : World),
    let self1 := {| src_crs := Some c;
                    crs := Some {| source_wkt := toWkt c; target_proj4 := calcofi_proj4 |} |} in
    Calcofi.setSourceCrs self0 arg w = (Ok self1, w')
    /\ Calcofi.sourceCrs self1 = Some c
    /\ c = match arg with Some a => a | None => source_or_default w end
    /\ (forall p w2,
          fst (Calcofi.transform self1 p w2)
          = match TransformPoint (toWkt c) calcofi_proj4 (y p) (x p) with
            | Some (line, sta, _) => Ok (line, sta)
            | None => Raise QgsCsException
            end).
Proof.
  exists (match arg with Some a => a | None => source_or_default w end).
  unfold Calcofi.setSourceCrs, source_or_default.
  destruct arg as [a|]; [|destruct w as [h [c|] qs cs ms]]; run;
    eexists; (split; [reflexivity|]); (split; [reflexivity|]); (split; [reflexivity|]);
    intros p w2; unfold Calcofi.transform; cbn [crs source_wkt target_proj4]; run;
    destruct (TransformPoint _ _ _ _) as [[[line sta] h0]|]; reflexivity.
Qed.

(** ** More on the widget *)

(** X5: with a project CRS [c], [update_src_crs] returns and leaves the
    world as it is; after it the source CRS of the widget's transform object
    does not differ from [c] (on a host whose [!=] holds no CRS different
    from itself), the other attributes of the widget are as before, and a
    second call changes nothing. *)
Theorem X5_update_src_crs_follows_the_project `{H : Host}
    (w : World) (me : SecondaryCoordinates) (c : QgsCrs) :
  project_crs w = Some c ->
  crs_ne c c = false ->
  exists me' a,
    Widget.update_src_crs (w, me) = (Ok tt, (w, me'))
    /\ sourceCrs (_crs me') = Some a /\ crs_ne a c = false
    /\ me' = with_crs (_crs me') me
    /\ Widget.update_src_crs (w, me') = (Ok tt, (w, me')).
Proof.
  intros Hp Hrefl.
  assert (Hset : forall t, setSourceCrs t (Some c) w
                           = (Ok match t with
                                 | Native n => Native {| source := c; destination := destination n |}
                                 | Custom _ =>
                                     Custom {| src_crs := Some c;
                                               crs := Some {| source_wkt := toWkt c;
                                                              target_proj4 := calcofi_proj4 |} |}
                                 end, w)).
  { intros [n|t]; reflexivity. }
  assert (Hsame : forall me0 a, sourceCrs (_crs me0) = Some a -> crs_ne a c = false ->
                                Widget.update_src_crs (w, me0) = (Ok tt, (w, me0))).
  { intros me0 a Ha Hne. rewrite update_src_crs_run, Ha, Hp, Hne. reflexivity. }
  destruct (match sourceCrs (_crs me) with
            | Some a => crs_ne a c
            | None => true
            end) eqn:Ediff.
  - eexists (with_crs _ me), c.
    split.
    { rewrite update_src_crs_run, Hp.
      replace (match sourceCrs (_crs me) with
               | Some a => crs_ne a c
               | None => true
               end) with true. rewrite Hset. reflexivity. }
    assert (Hsrc : sourceCrs (_crs (with_crs
                      match _crs me with
                      | Native n => Native {| source := c; destination := destination n |}
                      | Custom _ =>
                          Custom {| src_crs := Some c;
                                    crs := Some {| source_wkt := toWkt c;
                                                   target_proj4 := calcofi_proj4 |} |}
                      end me)) = Some c)
      by (cbn [with_crs with_transform _crs]; destruct (_crs me); reflexivity).
    split; [exact Hsrc|]. split; [exact Hrefl|]. split; [reflexivity|].
    eapply Hsame; eauto.
  - destruct (sourceCrs (_crs me)) as [a|] eqn:Ea; [|discriminate].
    exists me, a. split; [eapply Hsame; eauto|].
    split; [exact Ea|]. split; [exact Ediff|]. split; [now destruct me|].
    eapply Hsame; eauto.
Qed.

Lemma X5_update_src_crs_follows_the_project_witness :
  exists me' a,
    Widget.update_src_crs (fst demo_state, snd demo_state) = (Ok tt, (fst demo_state, me'))
    /\ sourceCrs (_crs me') = Some a /\ crs_ne a wgs84 = false
    /\ me' = with_crs (_crs me') (snd demo_state)
    /\ Widget.update_src_crs (fst demo_state, me') = (Ok tt, (fst demo_state, me')).
Proof.
  apply (X5_update_src_crs_follows_the_project (fst demo_state) (snd demo_state) wgs84);
    reflexivity.
Defined.

(** X6: whatever a coordinate event does (it returns, or the transform, the
    division or the formatting raises), the point is recorded in [self.xy],
    the settings object, the stored text, the name of the transform, the two
    patterns, the scale and the label are as before, and unless the event
    returns, the display is as before too: an exception other than
    [QgsCsException] leaves the coordinates of an earlier point on
    display. *)
Theorem X6_coordinate_event_changes_only_the_display `{H : Host}
    (p : QgsPointXY) (w w' : World) (me me' : SecondaryCoordinates) (r : result unit) :
  Widget.read_coords p (w, me) = (r, (w', me')) ->
  xy me' = Some p
  /\ heap w' = heap w /\ qsettings w' = qsettings w /\ project_crs w' = project_crs w
  /\ settings me' = settings me /\ _transform me' = _transform me
  /\ _x_format me' = _x_format me /\ _y_format me' = _y_format me
  /\ _scaler me' = _scaler me /\ label me' = label me
  /\ (r <> Ok tt -> edit me' = edit me).
Proof.
  rewrite read_coords_run.
  destruct (Widget.update_src_crs (w, with_xy (Some p) me)) as [[[]|e] [w1 me1]] eqn:Esync;
    pose proof (update_src_crs_frame _ _ _ _ _ Esync)
      as (Hh & Hq & Hp & Hs & Hxy & Ht & Hx & Hy & Hsc & Hl & He & _);
    cbn [with_xy settings xy _transform _x_format _y_format _scaler label edit]
      in Hs, Hxy, Ht, Hx, Hy, Hsc, Hl, He.
  2: { intros [= <- <- <-]. repeat split; auto. }
  destruct (transform (_crs me1) p w1) as [[[a b]|e] w2] eqn:Etr;
    pose proof (transform_frame _ _ _ _ _ Etr) as (Hh2 & Hq2 & Hp2).
  - destruct (truediv a (_scaler me1)) as [a'|e];
      [|intros [= <- <- <-]; repeat split; auto; congruence].
    destruct (truediv b (_scaler me1)) as [b'|e];
      [|intros [= <- <- <-]; repeat split; auto; congruence].
    destruct (format_float a' (_x_format me1)) as [ta|];
      [|intros [= <- <- <-]; repeat split; auto; congruence].
    destruct (format_float b' (_y_format me1)) as [tb|];
      intros [= <- <- <-]; repeat split; auto; try congruence.
  - destruct (Widget.is_QgsCsException e);
      intros [= <- <- <-]; repeat split; auto; try congruence.
Qed.

Lemma X6_coordinate_event_changes_only_the_display_witness :
  exists w' me',
    Widget.read_coords off_california demo_state = (Ok tt, (w', me'))
    /\ xy me' = Some off_california
    /\ heap w' = heap (fst demo_state)
    /\ settings me' = settings (snd demo_state)
    /\ _scaler me' = 1%Z.
Proof.
  pose (out := Widget.read_coords off_california demo_state).
  exists (fst (snd out)), (snd (snd out)).
  destruct (X6_coordinate_event_changes_only_the_display off_california
              (fst demo_state) (fst (snd out)) (snd demo_state) (snd (snd out)) (Ok tt))
    as (Hxy & Hh & _ & _ & Hs & _ & _ & _ & Hsc & _);
    [vm_compute; reflexivity|].
  split; [vm_compute; reflexivity|].
  split; [exact Hxy|]. split; [exact Hh|]. split; [exact Hs|].
  rewrite Hsc. reflexivity.
Defined.

(** X7: with a scale of zero, which the dialog accepts since [int] accepts
    its text, every coordinate event whose point the transform accepts
    raises [ZeroDivisionError], with the display as it was. *)
Theorem X7_zero_scale_raises_at_every_event `{H : Host}
    (p : QgsPointXY) (w w1 w2 : World) (me me1 : SecondaryCoordinates) (a b : float) :
  _scaler me = 0%Z ->
  Widget.update_src_crs (w, with_xy (Some p) me) = (Ok tt, (w1, me1)) ->
  transform (_crs me1) p w1 = (Ok (a, b), w2) ->
  Widget.read_coords p (w, me) = (Raise ZeroDivisionError, (w2, me1))
  /\ edit me1 = edit me.
Proof.
  intros Hz Hsync Htr.
  pose proof (update_src_crs_frame _ _ _ _ _ Hsync)
    as (_ & _ & _ & _ & _ & _ & _ & _ & Hsc & _ & He & _).
  cbn [with_xy _scaler edit] in Hsc, He.
  split; [|exact He].
  rewrite read_coords_run, Hsync, Htr, Hsc, Hz. reflexivity.
Qed.

Lemma X7_zero_scale_raises_at_every_event_witness :
  fst (Widget.on_config_dialog [EditScaler "0"; ClickOk] demo_state) = Ok tt
  /\ _scaler (snd zero_scale_state) = 0%Z
  /\ fst (Widget.read_coords off_california zero_scale_state) = Raise ZeroDivisionError.
Proof.
  split; [vm_compute; reflexivity|]. split; [reflexivity|].
  pose (w := fst zero_scale_state). pose (me := snd zero_scale_state).
  destruct (X7_zero_scale_raises_at_every_event off_california w w
              (add_call (CallNativeTransform off_california) w) me
              (with_xy (Some off_california) me) (-122)%float 37%float)
    as [Hrun _]; [vm_compute; reflexivity ..|].
  change zero_scale_state with (w, me). now rewrite Hrun.
Defined.

(** X8: a stored text that is JSON but not an object (a list, a number, a
    string, [null]) makes [read_settings] raise [AttributeError]: the merge
    asks the decoded value for its items. The settings are by then a new
    copy of the defaults. *)
Theorem X8_stored_text_that_is_no_object_raises
    (w : World) (me : SecondaryCoordinates) (v : pyval) :
  json_loads (qsettings w) = Ok v ->
  is_dict v = false ->
  Widget.read_settings (w, me)
  = (Raise AttributeError,
     (set_heap (heap w ++ [default_settings]) w,
      with_settings (Some (List.length (heap w))) me)).
Proof.
  intros Hloads Hv.
  rewrite read_settings_run. cbv zeta.
  rewrite (json_loads_nonempty _ _ Hloads), Hloads.
  destruct v; try reflexivity. discriminate.
Qed.

Lemma X8_stored_text_that_is_no_object_raises_witness :
  json_loads "[1, 2]" = Ok (PyList [PyInt 1; PyInt 2])
  /\ fst (Widget.read_settings (stored "[1, 2]", Widget.blank)) = Raise AttributeError
  /\ fst (Widget.read_settings (stored "null", Widget.blank)) = Raise AttributeError.
Proof.
  split; [reflexivity|]. split.
  - now rewrite (X8_stored_text_that_is_no_object_raises (stored "[1, 2]") Widget.blank
                   (PyList [PyInt 1; PyInt 2])).
  - now rewrite (X8_stored_text_that_is_no_object_raises (stored "null") Widget.blank PyNone).
Defined.

Lemma default_settings_unique : unique_keys (PyDict default_settings).
Proof.
  unfold default_settings, entry.
  repeat first [ constructor | solve [simpl; intuition discriminate] ].
Qed.

(** X9: merging the same dict a second time changes nothing. *)
Theorem X9_recursive_update_is_idempotent (d1 r : pydict) (d2 : pyval) :
  unique_keys d2 ->
  _recursive_update d1 d2 = Ok r ->
  _recursive_update r d2 = Ok r.
Proof.
  intros Hu. unfold _recursive_update.
  destruct d2 as [| | | | | |items]; try discriminate.
  intros [= <-]. f_equal. exact (merge_idempotent (PyDict items) Hu d1).
Qed.

Lemma X9_recursive_update_is_idempotent_witness :
  exists r,
    _recursive_update default_settings (PyDict old_settings) = Ok r
    /\ _recursive_update r (PyDict old_settings) = Ok r
    /\ lookup_path (PyDict r) ["transforms"; "EPSG:6414"; "x_format"] = Some (PyStr ".3f").
Proof.
  exists (recursive_update_dict default_settings (PyDict old_settings)).
  split; [reflexivity|]. split; [|reflexivity].
  apply (X9_recursive_update_is_idempotent default_settings _ (PyDict old_settings));
    [|reflexivity].
  apply (json_loads_unique_keys old_text). reflexivity.
Defined.

(** X10: what a merge onto a copy of a dict has given, merged onto another
    copy of that dict, is what it was; and the keys of that dict come first
    in it, in their order. This is why settings written from a merge onto
    the defaults are read back unchanged by the next merge onto the
    defaults. *)
Theorem X10_merge_result_is_fixed_by_its_base (d1 r : pydict) (d2 : pyval) :
  unique_keys (PyDict d1) -> unique_keys d2 ->
  _recursive_update d1 d2 = Ok r ->
  _recursive_update d1 (PyDict r) = Ok r
  /\ firstn (List.length d1) (dict_keys r) = dict_keys d1.
Proof.
  intros H1 H2. unfold _recursive_update.
  destruct d2 as [| | | | | |items]; try discriminate.
  intros Hr.
  assert (r = recursive_update_dict d1 (PyDict items)) as -> by (now injection Hr).
  split.
  - f_equal. now apply merge_absorbs.
  - pose proof (merge_extends (PyDict items) H2 d1) as Hext.
    revert Hext. generalize (recursive_update_dict d1 (PyDict items)). clear.
    induction d1 as [|[k a] d1 IH]; intros acc Hext; [reflexivity|].
    rewrite extends_cons in Hext. destruct acc as [|[k0 b] acc]; [discriminate|].
    apply andb_prop in Hext as [Hext Hrest]. apply andb_prop in Hext as [Hk _].
    apply String.eqb_eq in Hk. subst k0.
    cbn [List.length firstn dict_keys map fst]. f_equal. now apply IH.
Qed.

Lemma X10_merge_result_is_fixed_by_its_base_witness :
  exists r,
    _recursive_update default_settings (PyDict old_settings) = Ok r
    /\ _recursive_update default_settings (PyDict r) = Ok r
    /\ dict_keys r = dict_keys default_settings.
Proof.
  exists (recursive_update_dict default_settings (PyDict old_settings)).
  split; [reflexivity|]. split; [|reflexivity].
  apply (X10_merge_result_is_fixed_by_its_base default_settings _ (PyDict old_settings));
    [exact default_settings_unique | apply (json_loads_unique_keys old_text); reflexivity
     | reflexivity].
Defined.

Lemma write_settings_run `{H : Host} (w : World) (me : SecondaryCoordinates)
    (r : ref) (d : pydict) :
  settings me = Some r -> nth_error (heap w) r = Some d ->
  Widget.write_settings (w, me) = (Ok tt, (set_qsettings (json_dumps d) w, me)).
Proof.
  intros Hs Hd. unfold Widget.write_settings, Widget.settings_object, deref.
  run. rewrite Hs. run. rewrite Hd. reflexivity.
Qed.

(** What [read_settings] leaves when it returns: a new object that extends
    the defaults. *)
Lemma read_settings_value (w w1 : World) (me me1 : SecondaryCoordinates) :
  Widget.read_settings (w, me) = (Ok tt, (w1, me1)) ->
  exists d,
    w1 = set_heap (heap w ++ [d]) w
    /\ me1 = with_settings (Some (List.length (heap w))) me
    /\ unique_keys (PyDict d)
    /\ extends (PyDict default_settings) d = true.
Proof.
  rewrite read_settings_run. cbv zeta.
  destruct (is_empty (qsettings w)).
  - intros [= <- <-]. exists default_settings.
    split; [reflexivity|]. split; [reflexivity|].
    split; [exact default_settings_unique | reflexivity].
  - destruct (json_loads (qsettings w)) as [v|e] eqn:Hloads; [|discriminate].
    destruct (_recursive_update default_settings v) as [d|e] eqn:Hm; [|discriminate].
    intros [= <- <-]. exists d.
    assert (Hd : exists items,
               v = PyDict items /\ d = recursive_update_dict default_settings (PyDict items)).
    { unfold _recursive_update in Hm. destruct v; try discriminate.
      injection Hm as <-. eexists. split; reflexivity. }
    destruct Hd as (items & -> & ->).
    pose proof (json_loads_unique_keys _ _ Hloads) as Hu.
    split; [reflexivity|]. split; [reflexivity|]. split.
    + apply merge_unique_keys; [exact Hu | exact default_settings_unique].
    + apply merge_extends. exact Hu.
Qed.

(** A settings object that extends the defaults, once written, is read back
    as it is. *)
Lemma reload_run `{H : Host} (w : World) (me fresh : SecondaryCoordinates)
    (r : ref) (d : pydict) :
  settings me = Some r -> nth_error (heap w) r = Some d ->
  unique_keys (PyDict d) ->
  extends (PyDict default_settings) d = true ->
  json_loads (json_dumps d) = Ok (PyDict d) ->
  Widget.write_settings (w, me) = (Ok tt, (set_qsettings (json_dumps d) w, me))
  /\ Widget.read_settings (set_qsettings (json_dumps d) w, fresh)
     = (Ok tt, (set_heap (heap w ++ [d]) (set_qsettings (json_dumps d) w),
                with_settings (Some (List.length (heap w))) fresh)).
Proof.
  intros Hs Hd Hu Hext Hloads.
  split; [exact (write_settings_run w me r d Hs Hd)|].
  rewrite read_settings_run. cbv zeta. cbn [qsettings set_qsettings heap].
  rewrite (json_loads_nonempty _ _ Hloads), Hloads.
  cbn [_recursive_update].
  now rewrite (merge_of_extension (PyDict default_settings) d Hu Hext).
Qed.

(** X11: the settings survive being saved and read again. When
    [read_settings] has returned, whatever the stored text was, and the
    host's [json.dumps] writes the settings as a text that [json.loads]
    reads back, then after [write_settings] the [read_settings] of a new
    widget returns and leaves that widget with settings equal to those
    written, in an object of its own. *)
Theorem X11_settings_survive_save_and_reload `{H : Host}
    (w w1 : World) (me me1 fresh : SecondaryCoordinates) (d : pydict) :
  Widget.read_settings (w, me) = (Ok tt, (w1, me1)) ->
  settings_value (w1, me1) = Some d ->
  json_loads (json_dumps d) = Ok (PyDict d) ->
  exists w2 w3 me3,
    Widget.write_settings (w1, me1) = (Ok tt, (w2, me1))
    /\ qsettings w2 = json_dumps d
    /\ Widget.read_settings (w2, fresh) = (Ok tt, (w3, me3))
    /\ settings_value (w3, me3) = Some d
    /\ settings me3 <> settings me1.
Proof.
  intros Hread Hval Hloads.
  apply read_settings_value in Hread as (d0 & -> & -> & Hu & Hext).
  unfold settings_value in Hval. cbn [fst snd with_settings settings set_heap heap] in Hval.
  rewrite nth_error_last in Hval. injection Hval as ->.
  destruct (reload_run (set_heap (heap w ++ [d]) w)
              (with_settings (Some (List.length (heap w))) me) fresh
              (List.length (heap w)) d) as [Hwrite Hreload]; auto.
  { cbn [set_heap heap]. apply nth_error_last. }
  eexists _, _, _. split; [exact Hwrite|]. split; [reflexivity|].
  split; [exact Hreload|]. split.
  - unfold settings_value. cbn [fst snd with_settings settings set_heap heap set_qsettings].
    exact (nth_error_last (heap w ++ [d]) d).
  - cbn [with_settings settings set_heap heap]. rewrite length_app. cbn [List.length].
    intros [= Heq]. lia.
Qed.

Lemma X11_settings_survive_save_and_reload_witness :
  exists d w2 w3 me3,
    settings_value (snd (Widget.read_settings (stored old_text, Widget.blank))) = Some d
    /\ lookup_path (PyDict d) ["transforms"; "EPSG:6414"; "x_format"] = Some (PyStr ".3f")
    /\ Widget.write_settings (snd (Widget.read_settings (stored old_text, Widget.blank)))
       = (Ok tt, (w2, snd (snd (Widget.read_settings (stored old_text, Widget.blank)))))
    /\ Widget.read_settings (w2, Widget.blank) = (Ok tt, (w3, me3))
    /\ settings_value (w3, me3) = Some d.
Proof.
  pose (s1 := snd (Widget.read_settings (stored old_text, Widget.blank))).
  pose (d := recursive_update_dict default_settings (PyDict old_settings)).
  destruct (X11_settings_survive_save_and_reload (stored old_text) (fst s1)
              Widget.blank (snd s1) Widget.blank d)
    as (w2 & w3 & me3 & Hwrite & _ & Hread & Hval & _); [vm_compute; reflexivity ..|].
  exists d, w2, w3, me3.
  split; [vm_compute; reflexivity|]. split; [vm_compute; reflexivity|].
  split; [exact Hwrite|]. split; [exact Hread | exact Hval].
Defined.

(** X12: when the last transform of the settings does not resolve, the
    setter of [transform] raises [ValueError] and [update_from_settings]
    with it, before anything of the widget has changed and with nothing
    written to the store; so does [initGui], which calls it. *)
Theorem X12_unresolvable_last_transform_raises `{H : Host}
    (w w1 : World) (me : SecondaryCoordinates) (arg : option ref) (r : ref)
    (d : pydict) (trans : string) :
  match arg with Some r' => Some r' | None => settings me end = Some r ->
  nth_error (heap w) r = Some d ->
  dict_get d "last_transform" = Some (PyStr trans) ->
  get_transform (CrsStr trans) w = (Ok None, w1) ->
  Widget.update_from_settings arg (w, me) = (Raise ValueError, (w1, me))
  /\ heap w1 = heap w /\ qsettings w1 = qsettings w
  /\ (arg = None ->
      fst (Widget.initGui (w, me)) = Raise ValueError).
Proof.
  intros Harg Hd Hlast Hres.
  pose proof (get_transform_frame _ _ _ _ Hres) as (Hheap & Hq & _).
  assert (Hrun : forall me0, match arg with Some r' => Some r' | None => settings me0 end = Some r ->
                   Widget.update_from_settings arg (w, me0) = (Raise ValueError, (w1, me0))).
  { intros me0 Harg0.
    unfold Widget.update_from_settings, Widget.settings_object, Widget.set_transform, deref.
    run. rewrite Harg0. run. rewrite Hd. run.
    unfold getitem at 1. rewrite Hlast. run. cbn [expect_str]. run.
    rewrite Hres. reflexivity. }
  split; [apply Hrun; exact Harg|]. split; [exact Hheap|]. split; [exact Hq|].
  intros ->. unfold Widget.initGui. run.
  rewrite Hrun; [reflexivity|]. exact Harg.
Qed.

Lemma X12_unresolvable_last_transform_raises_witness :
  fst (Widget.init (stored unknown_last_transform, Widget.blank)) = Ok tt
  /\ fst (Widget.update_from_settings None unknown_state) = Raise ValueError
  /\ fst (Widget.initGui unknown_state) = Raise ValueError.
Proof.
  split; [vm_compute; reflexivity|].
  pose (w := fst unknown_state). pose (me := snd unknown_state).
  destruct (X12_unresolvable_last_transform_raises w
              (snd (get_transform (CrsStr "EPSG:1") w)) me None 0
              (dict_set default_settings "last_transform" (PyStr "EPSG:1")) "EPSG:1")
    as (Hrun & _ & _ & Hgui); [vm_compute; reflexivity ..|].
  change unknown_state with (w, me). split.
  - now rewrite Hrun.
  - now apply Hgui.
Defined.

(** X13: [update_from_settings] applies the entry field by field and is
    not undone when a later field fails. When the entry of the last
    transform has a label and the two patterns, but a scale that is missing
    or on which [int] raises (a text that is no integer, [None], a list, a
    dict, a float that is NaN or infinite), it raises ([KeyError] for the
    missing key, the error of [int] otherwise) with the transform, the label
    and the two patterns of the widget already replaced, the scale as it
    was, [self.settings] not yet assigned and nothing written to the store.
    A finite float is no such scale: [int] truncates it. *)
Theorem X13_update_from_settings_applies_field_by_field `{H : Host}
    (w w1 : World) (me : SecondaryCoordinates) (arg : option ref) (r : ref)
    (d transforms e : pydict) (trans name label_text xf yf : string) (t : Transform) :
  match arg with Some r' => Some r' | None => settings me end = Some r ->
  nth_error (heap w) r = Some d ->
  dict_get d "last_transform" = Some (PyStr trans) ->
  dict_get d "transforms" = Some (PyDict transforms) ->
  get_transform (CrsStr trans) w = (Ok (Some (name, t)), w1) ->
  dict_get transforms trans = Some (PyDict e) ->
  dict_get e "transform_name" = Some (PyStr label_text) ->
  dict_get e "x_format" = Some (PyStr xf) ->
  dict_get e "y_format" = Some (PyStr yf) ->
  let partly :=
    {| settings := settings me; xy := xy me; _transform := name; _crs := t;
       _x_format := xf; _y_format := yf; _scaler := _scaler me;
       label := label_text; edit := edit me |} in
  (dict_get e "scaler" = None ->
   Widget.update_from_settings arg (w, me) = (Raise (KeyError "scaler"), (w1, partly)))
  /\ (forall sc x,
        dict_get e "scaler" = Some sc -> int_of sc = Raise x ->
        Widget.update_from_settings arg (w, me) = (Raise x, (w1, partly)))
  /\ qsettings w1 = qsettings w.
Proof.
  intros Harg Hd Hlast Htrans Hres He Hl Hx Hy partly.
  pose proof (get_transform_frame _ _ _ _ Hres) as (_ & Hq & _).
  rewrite (update_from_settings_run w w1 me arg r d trans name t Harg Hd Hlast Hres).
  cbv zeta. rewrite getitem_dict, Htrans. cbv beta iota.
  rewrite getitem_dict, He. cbv beta iota.
  rewrite !getitem_dict, Hl, Hx, Hy. cbn [as_str expect_str]. cbv beta iota.
  split; [|split; [|exact Hq]].
  - intros Hs. rewrite Hs. reflexivity.
  - intros sc x Hs Hx'. rewrite Hs. cbv beta iota. rewrite Hx'. reflexivity.
Qed.

Lemma X13_update_from_settings_applies_field_by_field_witness :
  fst (Widget.init (stored bad_scale_text, Widget.blank)) = Ok tt
  /\ int_of (PyFloat "1.5") = Ok 1%Z
  /\ exists w1 me1,
       Widget.initGui bad_scale_state = (Raise ValueError, (w1, me1))
       /\ _transform me1 = "EPSG:6414" /\ _scaler me1 = 1%Z
       /\ qsettings w1 = bad_scale_text.
Proof.
  split; [vm_compute; reflexivity|]. split; [reflexivity|].
  pose (w := fst bad_scale_state).
  pose (me := with_edit "" (with_label "EPSG:6414" (snd bad_scale_state))).
  pose (e := [("x_format", PyStr ",.0f"); ("y_format", PyStr ",.0f");
              ("transform_name", PyStr "EPSG:6414"); ("scaler", PyStr "1e3")]).
  pose (ts := [("EPSG:6414", PyDict e);
               ("+proj=calcofi +ellps=clrk66", entry ",.1f" ",.1f" "Line, Station" "1")]).
  destruct (X13_update_from_settings_applies_field_by_field w
              (snd (get_transform (CrsStr "EPSG:6414") w)) me None 0
              (dict_set default_settings "transforms" (PyDict ts)) ts e
              "EPSG:6414" "EPSG:6414" "EPSG:6414" ",.0f" ",.0f"
              (Native {| source := wgs84;
                         destination := QgsCoordinateReferenceSystem (CrsStr "EPSG:6414") |}))
    as (_ & Hbad & Hq); [vm_compute; reflexivity ..|].
  eexists _, _. split.
  - change (Widget.initGui bad_scale_state)
      with (Widget.update_from_settings None (w, me)).
    apply (Hbad (PyStr "1e3") ValueError); reflexivity.
  - split; [reflexivity|]. split; [reflexivity|]. rewrite Hq. reflexivity.
Defined.

(** ** More on the dialog *)

Section Stable.
Context {H : Host} {X : Type}.
Variable P : World * X -> Prop.

Lemma stable_ret (A : Type) (a : A) : stable P (ret a).
Proof. intros s r s' [= <- <-]. auto. Qed.

Lemma stable_raise (A : Type) (e : exn) : stable P (@raise _ A e).
Proof. intros s r s' [= <- <-]. auto. Qed.

Lemma stable_of_result (A : Type) (x : result A) : stable P (of_result x).
Proof. destruct x; [apply stable_ret | apply stable_raise]. Qed.

Lemma stable_self : stable P self.
Proof. intros s r s' [= <- <-]. auto. Qed.

Lemma stable_set_self (f : X -> X) :
  (forall w x, P (w, x) -> P (w, f x)) -> stable P (set_self f).
Proof. intros Hf [w x] r s' [= <- <-]. cbn [fst snd]. auto. Qed.

Lemma stable_in_world (A : Type) (m : M World A) :
  (forall w x r w', m w = (r, w') -> P (w, x) -> P (w', x)) ->
  stable P (in_world m).
Proof.
  intros Hm [w x] r s'. unfold in_world. cbn [fst snd].
  destruct (m w) as [r0 w0] eqn:Em. intros [= <- <-]. eauto.
Qed.

Lemma stable_bind (A B : Type) (m : M (World * X) A) (f : A -> M (World * X) B) :
  stable P m -> (forall a, stable P (f a)) -> stable P (bind m f).
Proof.
  intros Hm Hf s r s'. unfold bind.
  destruct (m s) as [[a|e] s1] eqn:Em.
  - intros Hrun Hs. eapply Hf; eauto.
  - intros [= <- <-] Hs. eapply Hm; eauto.
Qed.

End Stable.

Lemma stable_slot `{H : Host} (P : Dialog.St -> Prop) (m : M Dialog.St unit) :
  stable P m -> stable P (Dialog.slot m).
Proof.
  intros Hm s r s'. unfold Dialog.slot.
  destruct (m s) as [r0 s0] eqn:Em. intros [= <- <-] Hs. eapply Hm; eauto.
Qed.

(** A computation made of steps that each keep the property; [leaf] proves
    it of a step on the world and of a step on the object. *)
Ltac stab leaf :=
  repeat first
    [ assumption
    | match goal with
      | |- stable _ (ret _) => apply stable_ret
      | |- stable _ (raise _) => apply stable_raise
      | |- stable _ (of_result _) => apply stable_of_result
      | |- stable _ self => apply stable_self
      | |- stable _ (Dialog.slot _) => apply stable_slot
      | |- stable _ (set_self _) => apply stable_set_self; solve [leaf]
      | |- stable _ (in_world _) => apply stable_in_world; solve [leaf]
      | |- stable _ (bind _ _) => apply stable_bind; [|intros ?]
      | |- stable _ (if ?b then _ else _) => destruct b
      | |- stable _ (match ?x with _ => _ end) => destruct x
      | |- stable _ (let (_, _) := ?x in _) => destruct x
      end ].

Lemma assign_frame (r : ref) (d : pydict) (w w' : World) (x : result unit) :
  assign r d w = (x, w') ->
  qsettings w' = qsettings w /\ project_crs w' = project_crs w /\ messages w' = messages w.
Proof. intros [= _ <-]. auto. Qed.

Lemma alloc_frame (d : pydict) (w w' : World) (x : result ref) :
  alloc d w = (x, w') ->
  qsettings w' = qsettings w /\ project_crs w' = project_crs w /\ messages w' = messages w.
Proof. intros [= _ <-]. auto. Qed.

(** A step on the world that leaves the stored text and the project as they
    are. *)
Ltac store_leaf :=
  intros;
  try match goal with
      | Hm : get_transform _ _ = _ |- _ => apply get_transform_frame in Hm as (_ & ? & ? & _)
      | Hm : deref _ _ = _ |- _ => apply deref_frame in Hm; subst
      | Hm : assign _ _ _ = _ |- _ => apply assign_frame in Hm as (? & ? & _)
      | Hm : alloc _ _ = _ |- _ => apply alloc_frame in Hm as (? & ? & _)
      | Hm : modify (add_message _) _ = _ |- _ => injection Hm as _ <-
      end;
  cbn [fst snd qsettings project_crs add_message] in *; intuition congruence.

Lemma dialog_methods_keep_store `{H : Host} (q0 : string) (p0 : option QgsCrs) :
  let P := fun s : Dialog.St => qsettings (fst s) = q0 /\ project_crs (fst s) = p0 in
  stable P Dialog.update_gui
  /\ stable P Dialog.on_transform_change
  /\ stable P Dialog.update_settings
  /\ stable P Dialog.accept
  /\ stable P Dialog.reset_to_defaults
  /\ (forall ps, stable P (Dialog.init ps)).
Proof.
  intros P. subst P.
  assert (Hgui : stable (fun s : Dialog.St => qsettings (fst s) = q0 /\ project_crs (fst s) = p0)
                   Dialog.update_gui) by (unfold_dialog; stab store_leaf).
  assert (Hchange : stable (fun s : Dialog.St => qsettings (fst s) = q0 /\ project_crs (fst s) = p0)
                      Dialog.on_transform_change).
  { unfold Dialog.on_transform_change, Dialog.raise_error_msg, Dialog.set_setting,
      Dialog.setting, Dialog.settings_object.
    stab store_leaf. }
  assert (Hupd : stable (fun s : Dialog.St => qsettings (fst s) = q0 /\ project_crs (fst s) = p0)
                   Dialog.update_settings) by (unfold_dialog; stab store_leaf).
  split; [exact Hgui|]. split; [exact Hchange|]. split; [exact Hupd|].
  split; [|split].
  - unfold Dialog.accept, Dialog.raise_error_msg. stab store_leaf.
  - unfold Dialog.reset_to_defaults, Dialog.change_transform_combo, Dialog.setting,
      Dialog.settings_object.
    stab store_leaf.
  - intros ps. unfold Dialog.init, Dialog.setting, Dialog.settings_object.
    stab store_leaf.
Qed.

Lemma handle_keeps_store `{H : Host} (q0 : string) (p0 : option QgsCrs) (e : event) :
  stable (fun s : Dialog.St => qsettings (fst s) = q0 /\ project_crs (fst s) = p0)
    (Dialog.handle e).
Proof.
  destruct (dialog_methods_keep_store q0 p0) as (_ & Hchange & _ & Haccept & Hreset & _).
  destruct e; cbn [Dialog.handle]; unfold Dialog.reject;
    stab store_leaf.
Qed.

Lemma exec_keeps_store `{H : Host} (q0 : string) (p0 : option QgsCrs) (events : list event) :
  stable (fun s : Dialog.St => qsettings (fst s) = q0 /\ project_crs (fst s) = p0)
    (Dialog.exec_ events).
Proof.
  induction events as [|e rest IH]; cbn [Dialog.exec_].
  - apply stable_ret.
  - apply stable_bind; [apply handle_keeps_store|]. intros _.
    apply stable_bind; [apply stable_self|]. intros me.
    destruct (Dialog.result_code me); [apply stable_ret | exact IH].
Qed.

Lemma of_result_run {St A : Type} (x : result A) (s : St) : of_result x s = (x, s).
Proof. destruct x; reflexivity. Qed.

Lemma setting_run `{H : Host} (k : string) (w : World) (d : Dialog.ConfigDialog)
    (r : ref) (obj : pydict) :
  Dialog.settings d = Some r -> nth_error (heap w) r = Some obj ->
  Dialog.setting k (w, d) = (getitem (PyDict obj) k, (w, d)).
Proof.
  intros Hs Ho. unfold Dialog.setting, Dialog.settings_object, deref. run.
  rewrite Hs. run. rewrite Ho. run. now destruct (getitem (PyDict obj) k).
Qed.

Lemma set_setting_run `{H : Host} (k : string) (v : pyval) (w : World)
    (d : Dialog.ConfigDialog) (r : ref) (obj : pydict) :
  Dialog.settings d = Some r -> nth_error (heap w) r = Some obj ->
  Dialog.set_setting k v (w, d)
  = (Ok tt, (set_heap (heap_write (heap w) r (dict_set obj k v)) w, d)).
Proof.
  intros Hs Ho. unfold Dialog.set_setting, deref, assign. run.
  rewrite Hs. run. rewrite Ho. reflexivity.
Qed.

(** The setters and the fields of the dialog, and the text of its boxes. *)
Ltac dialog_fields :=
  cbn [Dialog.with_settings Dialog.with_transform_combo Dialog.with_transform_name_edit
       Dialog.with_x_format_combo Dialog.with_y_format_combo Dialog.with_scaler_combo
       Dialog.with_result_code
       Dialog.settings Dialog.transform_combo Dialog.transform_name_edit
       Dialog.x_format_combo Dialog.y_format_combo Dialog.scaler_combo
       Dialog.result_code setEditText currentText items maxCount fst snd].

(** The same, with the mask of the scale box. *)
Ltac masked_fields :=
  cbn [Dialog.with_settings Dialog.with_transform_combo Dialog.with_transform_name_edit
       Dialog.with_x_format_combo Dialog.with_y_format_combo Dialog.with_scaler_combo
       Dialog.with_result_code
       Dialog.settings Dialog.transform_combo Dialog.transform_name_edit
       Dialog.x_format_combo Dialog.y_format_combo Dialog.scaler_combo
       Dialog.result_code setEditText under_mask currentText items maxCount fst snd].

(** What [update_gui] does when the last transform has an entry with its
    four fields. *)
Lemma update_gui_run `{H : Host} (w : World) (d : Dialog.ConfigDialog) (r : ref)
    (obj ts e : pydict) (trans name xf yf sc : string) :
  Dialog.settings d = Some r -> nth_error (heap w) r = Some obj ->
  dict_get obj "last_transform" = Some (PyStr trans) ->
  dict_get obj "transforms" = Some (PyDict ts) ->
  dict_get ts trans = Some (PyDict e) ->
  dict_get e "transform_name" = Some (PyStr name) ->
  dict_get e "x_format" = Some (PyStr xf) ->
  dict_get e "y_format" = Some (PyStr yf) ->
  dict_get e "scaler" = Some (PyStr sc) ->
  Dialog.update_gui (w, d)
  = (Ok tt,
     (w, {| Dialog.settings := Dialog.settings d;
            Dialog.transform_combo := setEditText trans (Dialog.transform_combo d);
            Dialog.transform_name_edit := shown_label name trans;
            Dialog.x_format_combo := setEditText (or_default xf ",.0f") (Dialog.x_format_combo d);
            Dialog.y_format_combo := setEditText (or_default yf ",.0f") (Dialog.y_format_combo d);
            Dialog.scaler_combo :=
              setEditText (or_default (masked Dialog.scaler_mask sc) "1")
                (Dialog.scaler_combo d);
            Dialog.result_code := Dialog.result_code d |})).
Proof.
  intros Hs Ho Hlast Hts He Hn Hx Hy Hsc.
  unfold Dialog.update_gui.
  unfold bind at 1. rewrite (setting_run _ _ _ _ _ Hs Ho), getitem_dict, Hlast.
  unfold bind at 1. cbn [expect_str of_result]. unfold ret at 1.
  unfold bind at 1. rewrite (setting_run _ _ _ _ _ Hs Ho), getitem_dict, Hts.
  repeat (progress (run; masked_fields;
                    rewrite ?getitem_dict, ?He, ?Hn, ?Hx, ?Hy, ?Hsc;
                    cbn [expect_str as_str contains]; unfold dict_has)).
  unfold shown_label, or_default.
  destruct (is_empty name || startswith name "EPSG"); run; masked_fields;
    destruct (is_empty xf); run; masked_fields;
    destruct (is_empty yf); run; masked_fields;
    destruct (is_empty (masked Dialog.scaler_mask sc)); reflexivity.
Qed.

(** X14: no method of the dialog writes the stored text: from its
    construction to its end, whatever the user does in it and however it
    ends, the text under qgis_secondary_coordinates/settings and the CRS of
    the project are as before; and when the session does not end accepted
    (it is cancelled, the constructor raises), [on_config_dialog] leaves the
    attributes of the widget as they were. So what a cancelled session has
    changed in the settings object is not saved. *)
Theorem X14_dialog_never_writes_the_store `{H : Host}
    (events : list event) (w : World) (me : SecondaryCoordinates) :
  let out := (Dialog.init (settings me) ;; Dialog.exec_ events)%M (w, Dialog.blank) in
  qsettings (fst (snd out)) = qsettings w
  /\ project_crs (fst (snd out)) = project_crs w
  /\ (fst out <> Ok (Some Accepted) ->
      snd (Widget.on_config_dialog events (w, me)) = (fst (snd out), me)).
Proof.
  cbv zeta. rewrite on_config_dialog_run.
  assert (Hst : stable (fun s : Dialog.St => qsettings (fst s) = qsettings w
                                             /\ project_crs (fst s) = project_crs w)
                  (Dialog.init (settings me) ;; Dialog.exec_ events)%M).
  { apply stable_bind.
    - apply dialog_methods_keep_store.
    - intros _. apply exec_keeps_store. }
  destruct ((Dialog.init (settings me) ;; Dialog.exec_ events)%M (w, Dialog.blank))
    as [res [w' dlg]] eqn:Eo.
  destruct (Hst _ _ _ Eo) as [Hq Hp]; [split; reflexivity|].
  cbn [fst snd] in *.
  split; [exact Hq|]. split; [exact Hp|].
  intros Hres. destruct res as [[[]|]|e]; try reflexivity.
  now contradiction Hres.
Qed.

Lemma seq_items (l p : list string) :
  map (fun i => nth i (p ++ l)%list "") (seq (List.length p) (List.length l)) = l.
Proof.
  revert p. induction l as [|a l IH]; intros p; [reflexivity|].
  cbn [List.length seq map]. f_equal.
  - rewrite app_nth2 by lia. now rewrite Nat.sub_diag.
  - specialize (IH (p ++ [a])%list). rewrite length_app in IH. cbn [List.length] in IH.
    rewrite Nat.add_1_r in IH. rewrite <- app_assoc in IH. exact IH.
Qed.

(** X15: [get_combo_items] returns the text of the line edit and the items
    of the box, each once and nothing else, whatever the text is: an empty
    text is among them as the empty string. *)
Theorem X15_combo_items_are_the_text_and_the_items (c : QComboBox) :
  (forall t, In t (Dialog.get_combo_items c) <-> t = currentText c \/ In t (items c))
  /\ NoDup (Dialog.get_combo_items c).
Proof.
  unfold Dialog.get_combo_items, list_set.
  assert (Hitems : map (itemText c) (seq 0 (count c)) = items c)
    by exact (seq_items (items c) []).
  rewrite Hitems. split; [|apply NoDup_nodup].
  intros t. rewrite nodup_In. cbn [List.app In]. intuition.
Qed.

Lemma is_empty_false (s : string) : is_empty s = false <-> s <> "".
Proof. destruct s; cbn; split; congruence. Qed.

(** A field that is given a text when a test on the dialog finds it
    wanting. *)
Lemma guess_establishes `{H : Host} (P : Dialog.ConfigDialog -> Prop)
    (test : Dialog.ConfigDialog -> bool)
    (f : Dialog.ConfigDialog -> Dialog.ConfigDialog) (rest : M Dialog.St unit) :
  (forall d, test d = false -> P d) ->
  (forall d, P (f d)) ->
  preserves P rest ->
  establishes P (me <- self ;; (if test me then set_self f else ret tt) ;; rest).
Proof.
  intros Htest Hf Hrest [w d] a s' Hrun.
  unfold bind at 1 in Hrun. unfold self in Hrun. cbn [fst snd] in Hrun.
  unfold bind in Hrun. destruct (test d) eqn:Et.
  - unfold set_self in Hrun. cbn [fst snd] in Hrun. eapply Hrest; [exact Hrun|]. apply Hf.
  - unfold ret in Hrun. eapply Hrest; [exact Hrun|]. cbn [snd]. auto.
Qed.

Lemma guess_establishes_last `{H : Host} (P : Dialog.ConfigDialog -> Prop)
    (test : Dialog.ConfigDialog -> bool)
    (f : Dialog.ConfigDialog -> Dialog.ConfigDialog) :
  (forall d, test d = false -> P d) ->
  (forall d, P (f d)) ->
  establishes P (me <- self ;; if test me then set_self f else ret tt).
Proof.
  intros Htest Hf [w d] a s' Hrun.
  unfold bind, self in Hrun. cbn [fst snd] in Hrun. destruct (test d) eqn:Et.
  - injection Hrun as _ <-. apply Hf.
  - injection Hrun as _ <-. auto.
Qed.

(** A step of the dialog that leaves the fields a property speaks of. *)
Ltac field_leaf :=
  let d := fresh "d" in
  let Hd := fresh "Hd" in
  intros d Hd; dialog_fields; try exact Hd; auto.

Ltac pres_fields :=
  repeat first
    [ apply preserves_ret
    | apply preserves_raise
    | apply preserves_of_result
    | apply preserves_self
    | apply preserves_in_world
    | apply preserves_set_self; field_leaf
    | apply preserves_bind; [|intros ?]
    | match goal with
      | |- preserves _ (if ?b then _ else _) => destruct b
      | |- preserves _ (match ?x with _ => _ end) => destruct x
      end ].

Lemma setting_inv `{H : Host} (k : string) (s s' : Dialog.St) (v : pyval) :
  Dialog.setting k s = (Ok v, s') ->
  s' = s /\ exists obj, dialog_settings_value s = Some obj /\ dict_get obj k = Some v.
Proof.
  destruct s as [w d]. unfold Dialog.setting, Dialog.settings_object, deref,
    dialog_settings_value. run.
  destruct (Dialog.settings d) as [r|]; run; [|discriminate].
  destruct (nth_error (heap w) r) as [obj|]; run; [|discriminate].
  rewrite getitem_dict. destruct (dict_get obj k) as [v0|] eqn:Eg; [|discriminate].
  intros [= <- <-]. split; [reflexivity|]. exists obj. auto.
Qed.

Lemma update_gui_world `{H : Host} (w0 : World) :
  stable (fun s : Dialog.St => fst s = w0) Dialog.update_gui.
Proof.
  unfold_dialog.
  stab ltac:(intros;
             try match goal with
                 | Hm : deref _ _ = _ |- _ => apply deref_frame in Hm; subst
                 end; cbn [fst snd] in *; congruence).
Qed.

(** X16: when [update_gui] returns, the fields of the two patterns and of
    the scale are not empty, the label is not empty unless the last
    transform of the settings is the empty text, and nothing outside the
    dialog has changed. *)
Theorem X16_update_gui_leaves_no_field_empty `{H : Host}
    (w w' : World) (d d' : Dialog.ConfigDialog) :
  Dialog.update_gui (w, d) = (Ok tt, (w', d')) ->
  currentText (Dialog.x_format_combo d') <> ""
  /\ currentText (Dialog.y_format_combo d') <> ""
  /\ currentText (Dialog.scaler_combo d') <> ""
  /\ (forall obj trans,
        dialog_settings_value (w, d) = Some obj ->
        dict_get obj "last_transform" = Some (PyStr trans) ->
        trans <> "" ->
        Dialog.transform_name_edit d' <> "")
  /\ w' = w.
Proof.
  intros Hrun.
  assert (Hx : establishes (fun d => is_empty (currentText (Dialog.x_format_combo d)) = false)
                 Dialog.update_gui).
  { unfold Dialog.update_gui. do 7 (apply establishes_bind_later; intros).
    apply (guess_establishes
             (fun d => is_empty (currentText (Dialog.x_format_combo d)) = false)
             (fun d => is_empty (currentText (Dialog.x_format_combo d)))); auto.
    pres_fields. }
  assert (Hy : establishes (fun d => is_empty (currentText (Dialog.y_format_combo d)) = false)
                 Dialog.update_gui).
  { unfold Dialog.update_gui. do 9 (apply establishes_bind_later; intros).
    apply (guess_establishes
             (fun d => is_empty (currentText (Dialog.y_format_combo d)) = false)
             (fun d => is_empty (currentText (Dialog.y_format_combo d)))); auto.
    pres_fields. }
  assert (Hs : establishes (fun d => is_empty (currentText (Dialog.scaler_combo d)) = false)
                 Dialog.update_gui).
  { unfold Dialog.update_gui. do 11 (apply establishes_bind_later; intros).
    apply (guess_establishes_last
             (fun d => is_empty (currentText (Dialog.scaler_combo d)) = false)
             (fun d => is_empty (currentText (Dialog.scaler_combo d)))); auto. }
  split; [apply is_empty_false; exact (Hx _ _ _ Hrun)|].
  split; [apply is_empty_false; exact (Hy _ _ _ Hrun)|].
  split; [apply is_empty_false; exact (Hs _ _ _ Hrun)|].
  split; [|exact (update_gui_world w _ _ _ Hrun eq_refl)].
  intros obj trans Hobj Hlast Hne.
  unfold Dialog.update_gui in Hrun.
  apply bind_Ok_inv in Hrun as (trans_v & s1 & Hstep & Hrun).
  apply setting_inv in Hstep as (-> & obj' & Hobj' & Hget).
  assert (obj' = obj) as -> by congruence.
  assert (trans_v = PyStr trans) as -> by congruence.
  cbn [expect_str of_result] in Hrun. unfold bind at 1 in Hrun. unfold ret at 1 in Hrun.
  apply is_empty_false.
  revert Hrun.
  match goal with
  | |- ?m (w, d) = _ -> _ =>
      assert (Hl : establishes (fun d => is_empty (Dialog.transform_name_edit d) = false) m)
  end.
  { do 3 (apply establishes_bind_later; intros).
    apply (guess_establishes
             (fun d => is_empty (Dialog.transform_name_edit d) = false)
             (fun d => is_empty (Dialog.transform_name_edit d)
                       || startswith (Dialog.transform_name_edit d) "EPSG")).
    - intros d0 Hd0. now apply orb_false_elim in Hd0 as [Hd0 _].
    - intros d0. dialog_fields. now apply is_empty_false.
    - pres_fields. }
  intros Hrun. exact (Hl _ _ _ Hrun).
Qed.

Lemma X16_update_gui_leaves_no_field_empty_witness :
  let emptied :=
    Dialog.with_x_format_combo (setEditText "" (Dialog.x_format_combo (snd demo_dialog)))
      (snd demo_dialog) in
  exists d',
    Dialog.update_gui (fst demo_dialog, emptied) = (Ok tt, (fst demo_dialog, d'))
    /\ currentText (Dialog.x_format_combo emptied) = ""
    /\ currentText (Dialog.x_format_combo d') <> ""
    /\ Dialog.transform_name_edit d' <> "".
Proof.
  intros emptied.
  pose (out := Dialog.update_gui (fst demo_dialog, emptied)).
  destruct (X16_update_gui_leaves_no_field_empty (fst demo_dialog) (fst (snd out))
              emptied (snd (snd out)))
    as (Hx & _ & _ & Hl & _); [vm_compute; reflexivity|].
  exists (snd (snd out)).
  split; [vm_compute; reflexivity|]. split; [reflexivity|]. split; [exact Hx|].
  apply (Hl default_settings "EPSG:6414"); [reflexivity | reflexivity | discriminate].
Defined.

(** What [on_transform_change] does, by the text of the field and by what
    the resolver makes of it. *)
Lemma on_transform_change_run `{H : Host} (w : World) (d : Dialog.ConfigDialog) :
  Dialog.on_transform_change (w, d) =
  let txt := currentText (Dialog.transform_combo d) in
  if is_empty txt then (Ok tt, (w, d))
  else
    match get_transform (CrsStr txt) w with
    | (Raise e, w1) => (Raise e, (w1, d))
    | (Ok None, w1) =>
        (v <- Dialog.setting "last_transform" ;;
         t <- of_result (as_str v) ;;
         set_self (fun d => Dialog.with_transform_combo
                              (setEditText t (Dialog.transform_combo d)) d))%M
          (add_message ("The transform '" ++ txt ++ "' is invalid") w1, d)
    | (Ok (Some (name, _)), w1) =>
        (Dialog.set_setting "last_transform" (PyStr name) ;; Dialog.update_gui)%M
          (w1, Dialog.with_transform_combo (setEditText name (Dialog.transform_combo d)) d)
    end.
Proof.
  unfold Dialog.on_transform_change, Dialog.raise_error_msg. run. cbv zeta.
  destruct (is_empty (currentText (Dialog.transform_combo d))); [reflexivity|]. run.
  destruct (get_transform (CrsStr (currentText (Dialog.transform_combo d))) w)
    as [[[[name t]|]|e] w1]; run; reflexivity.
Qed.

Lemma nth_error_heap_write_same (h : list pydict) (r : ref) (d : pydict) :
  nth_error h r = Some d -> heap_write h r d = h.
Proof.
  revert r. induction h as [|a h IH]; intros [|r]; simpl; try discriminate.
  - now intros [= ->].
  - intros Hr. now rewrite IH.
Qed.

(** X17: a text in the transform field that does not resolve is refused
    without a trace in the settings: [on_transform_change] shows one error
    box that names the text, puts the last transform of the settings back
    into the field, and leaves the settings object, the other fields and
    the stored text as they are. With an empty field it does nothing at
    all. *)
Theorem X17_unresolvable_transform_text_is_reverted `{H : Host}
    (w w1 : World) (d : Dialog.ConfigDialog) (obj : pydict) (last : string) :
  dialog_settings_value (w, d) = Some obj ->
  dict_get obj "last_transform" = Some (PyStr last) ->
  (forall text,
     text <> "" ->
     get_transform (CrsStr text) w = (Ok None, w1) ->
     Dialog.on_transform_change (with_transform_text text (w, d))
     = (Ok tt,
        (add_message ("The transform '" ++ text ++ "' is invalid") w1,
         snd (with_transform_text last (w, d))))
     /\ heap w1 = heap w /\ qsettings w1 = qsettings w)
  /\ Dialog.on_transform_change (with_transform_text "" (w, d))
     = (Ok tt, with_transform_text "" (w, d)).
Proof.
  intros Hobj Hlast. unfold dialog_settings_value in Hobj. cbn [fst snd] in Hobj.
  destruct (Dialog.settings d) as [r|] eqn:Hs; [|discriminate].
  split; [|reflexivity].
  intros text Hne Hres.
  pose proof (get_transform_frame _ _ _ _ Hres) as (Hh & Hq & _).
  split; [|auto].
  unfold with_transform_text. cbn [fst snd].
  rewrite on_transform_change_run. cbv zeta. dialog_fields.
  apply is_empty_false in Hne. rewrite Hne, Hres.
  unfold bind at 1.
  rewrite (setting_run "last_transform" _ _ r obj);
    [|exact Hs | cbn [add_message heap]; now rewrite Hh].
  rewrite getitem_dict, Hlast. reflexivity.
Qed.

Lemma X17_unresolvable_transform_text_is_reverted_witness :
  fst (get_transform (CrsStr "EPSG:1") (fst demo_dialog)) = Ok None
  /\ exists w',
       Dialog.on_transform_change (with_transform_text "EPSG:1" demo_dialog)
       = (Ok tt, (w', snd demo_dialog))
       /\ messages w' = ["The transform 'EPSG:1' is invalid"]
       /\ heap w' = heap (fst demo_dialog).
Proof.
  split; [reflexivity|].
  pose (w1 := snd (get_transform (CrsStr "EPSG:1") (fst demo_dialog))).
  destruct (X17_unresolvable_transform_text_is_reverted (fst demo_dialog) w1
              (snd demo_dialog) default_settings "EPSG:6414")
    as [Hbad _]; [reflexivity ..|].
  destruct (Hbad "EPSG:1") as (Hrun & Hh & _); [discriminate | reflexivity |].
  exists (add_message "The transform 'EPSG:1' is invalid" w1).
  split; [exact Hrun|]. split; reflexivity.
Defined.

Lemma update_gui_transform_text `{H : Host} (name : string) (m : M Dialog.St unit) :
  m = Dialog.update_gui ->
  forall w d r obj,
    Dialog.settings d = Some r -> nth_error (heap w) r = Some obj ->
    dict_get obj "last_transform" = Some (PyStr name) ->
    currentText (Dialog.transform_combo d) = name ->
    forall res s', m (w, d) = (res, s') ->
                   fst s' = w /\ currentText (Dialog.transform_combo (snd s')) = name
                   /\ Dialog.settings (snd s') = Some r.
Proof.
  intros -> w d r obj Hs Ho Hlast Htext res s' Hrun.
  split; [exact (update_gui_world w _ _ _ Hrun eq_refl)|].
  revert Hrun. unfold Dialog.update_gui.
  unfold bind at 1. rewrite (setting_run _ _ _ _ _ Hs Ho), getitem_dict, Hlast.
  unfold bind at 1. cbn [expect_str of_result]. unfold ret at 1.
  match goal with
  | |- ?rest (w, d) = _ -> _ =>
      assert (Hp : preserves
                     (fun d => currentText (Dialog.transform_combo d) = name
                               /\ Dialog.settings d = Some r) rest)
  end.
  { unfold Dialog.setting, Dialog.settings_object.
    repeat first
      [ apply preserves_ret
      | apply preserves_raise
      | apply preserves_of_result
      | apply preserves_self
      | apply preserves_in_world
      | apply preserves_set_self;
        (let d0 := fresh "d" in let Hd := fresh "Hd" in
         intros d0 Hd; dialog_fields; first [exact Hd | tauto])
      | apply preserves_bind; [|intros ?]
      | match goal with
        | |- preserves _ (if ?b then _ else _) => destruct b
        | |- preserves _ (match ?x with _ => _ end) => destruct x
        end ]. }
  intros Hrun. exact (Hp _ _ _ Hrun (conj Htext Hs)).
Qed.

(** X18: a text in the transform field that resolves is written through to
    the settings object at once. However [on_transform_change] ends, the
    object the dialog shares with the widget has the canonical name as its
    last transform, the field shows that name, and the stored text is as
    before: the change is in the settings before the user has pressed Ok,
    and is not in the store. *)
Theorem X18_resolved_transform_text_is_written_through `{H : Host}
    (w w1 w' : World) (d d' : Dialog.ConfigDialog) (r : ref) (obj : pydict)
    (text name : string) (t : Transform) (res : result unit) :
  Dialog.settings d = Some r ->
  nth_error (heap w) r = Some obj ->
  text <> "" ->
  get_transform (CrsStr text) w = (Ok (Some (name, t)), w1) ->
  Dialog.on_transform_change (with_transform_text text (w, d)) = (res, (w', d')) ->
  nth_error (heap w') r = Some (dict_set obj "last_transform" (PyStr name))
  /\ currentText (Dialog.transform_combo d') = name
  /\ Dialog.settings d' = Some r
  /\ qsettings w' = qsettings w.
Proof.
  intros Hs Ho Hne Hres.
  pose proof (get_transform_frame _ _ _ _ Hres) as (Hh & Hq & _).
  unfold with_transform_text. cbn [fst snd].
  rewrite on_transform_change_run. cbv zeta. dialog_fields.
  apply is_empty_false in Hne. rewrite Hne, Hres.
  unfold bind.
  rewrite (set_setting_run "last_transform" (PyStr name) w1 _ r obj);
    [|exact Hs | now rewrite Hh].
  intros Hrun.
  assert (Ho' : nth_error (heap (set_heap (heap_write (heap w1) r
                                   (dict_set obj "last_transform" (PyStr name))) w1)) r
                = Some (dict_set obj "last_transform" (PyStr name))).
  { cbn [set_heap heap]. eapply nth_error_heap_write. rewrite Hh. exact Ho. }
  eapply (update_gui_transform_text name _ eq_refl) in Hrun as (Hw & Htext & Hs');
    [|exact Hs | exact Ho' | apply dict_get_set_same | reflexivity].
  cbn [fst snd] in Hw, Htext, Hs'. subst w'.
  split; [exact Ho'|]. split; [exact Htext|]. split; [exact Hs'|].
  cbn [set_heap qsettings]. exact Hq.
Qed.

Lemma X18_resolved_transform_text_is_written_through_witness :
  exists w' d',
    Dialog.on_transform_change (with_transform_text "4326" demo_dialog) = (Ok tt, (w', d'))
    /\ dialog_settings_value demo_dialog = Some default_settings
    /\ dialog_settings_value (w', d')
       = Some (dict_set default_settings "last_transform" (PyStr "EPSG:4326"))
    /\ currentText (Dialog.transform_combo d') = "EPSG:4326"
    /\ qsettings w' = qsettings (fst demo_dialog).
Proof.
  pose (out := Dialog.on_transform_change (with_transform_text "4326" demo_dialog)).
  pose (w1 := snd (get_transform (CrsStr "4326") (fst demo_dialog))).
  destruct (X18_resolved_transform_text_is_written_through (fst demo_dialog) w1
              (fst (snd out)) (snd demo_dialog) (snd (snd out)) 0 default_settings
              "4326" "EPSG:4326"
              (Native {| source := wgs84;
                         destination := QgsCoordinateReferenceSystem (CrsInt 4326) |})
              (Ok tt))
    as (Hobj & Htext & Hs & Hq);
    [vm_compute; reflexivity | vm_compute; reflexivity | discriminate
     | vm_compute; reflexivity | vm_compute; reflexivity |].
  exists (fst (snd out)), (snd (snd out)).
  split; [vm_compute; reflexivity|]. split; [reflexivity|].
  split; [|split; [exact Htext | exact Hq]].
  unfold dialog_settings_value. cbn [fst snd]. rewrite Hs. exact Hobj.
Defined.

Lemma heap_write_twice (h : list pydict) (r : ref) (a b : pydict) :
  heap_write (heap_write h r a) r b = heap_write h r b.
Proof.
  revert r. induction h as [|x h IH]; intros [|r]; simpl; auto. now rewrite IH.
Qed.

(** What [update_settings] does on a settings object whose transforms are a
    dict of dicts. *)
Lemma update_settings_run `{H : Host} (w : World) (d : Dialog.ConfigDialog) (r : ref)
    (obj ts : pydict) :
  Dialog.settings d = Some r -> nth_error (heap w) r = Some obj ->
  dict_get obj "transforms" = Some (PyDict ts) ->
  (forall v, dict_get ts (currentText (Dialog.transform_combo d)) = Some v ->
             is_dict v = true) ->
  Dialog.update_settings (w, d)
  = (Ok tt, (set_heap (heap_write (heap w) r (saved_settings obj ts d)) w, d)).
Proof.
  intros Hs Ho Hts Hentry.
  assert (Hnext : forall h o k v,
             nth_error h r = Some o ->
             Dialog.set_setting k v (set_heap h w, d)
             = (Ok tt, (set_heap (heap_write h r (dict_set o k v)) w, d))).
  { intros h o k v Hh.
    rewrite (set_setting_run k v (set_heap h w) d r o Hs Hh). reflexivity. }
  assert (Hfirst : forall k v,
             Dialog.set_setting k v (w, d)
             = (Ok tt, (set_heap (heap_write (heap w) r (dict_set obj k v)) w, d)))
    by (intros; apply set_setting_run; assumption).
  unfold Dialog.update_settings. run.
  rewrite (setting_run _ _ _ _ _ Hs Ho), getitem_dict, Hts. run.
  cbn [contains]. unfold dict_has. run.
  set (trans := currentText (Dialog.transform_combo d)) in *.
  assert (Hstep : forall e,
             e = match dict_get ts trans with
                 | Some (PyDict old) => dict_update old (dialog_entry d)
                 | _ => dialog_entry d
                 end ->
             (let (r0, s') :=
                Dialog.set_setting "transforms" (PyDict (dict_set ts trans (PyDict e))) (w, d) in
              match r0 with
              | Ok _ =>
                  let (r1, s'0) := Dialog.set_setting "last_transform" (PyStr trans) s' in
                  match r1 with
                  | Ok _ =>
                      let (r2, s'1) :=
                        Dialog.set_setting "x_formats"
                          (Dialog.str_list (Dialog.get_combo_items (Dialog.x_format_combo (snd s'0))))
                          s'0 in
                      match r2 with
                      | Ok _ =>
                          let (r3, s'2) :=
                            Dialog.set_setting "y_formats"
                              (Dialog.str_list
                                 (Dialog.get_combo_items (Dialog.y_format_combo (snd s'1)))) s'1 in
                          match r3 with
                          | Ok _ =>
                              Dialog.set_setting "scalers"
                                (Dialog.str_list
                                   (Dialog.get_combo_items (Dialog.scaler_combo (snd s'2)))) s'2
                          | Raise e0 => (Raise e0, s'2)
                          end
                      | Raise e0 => (Raise e0, s'1)
                      end
                  | Raise e0 => (Raise e0, s'0)
                  end
              | Raise e0 => (Raise e0, s')
              end)
             = (Ok tt, (set_heap (heap_write (heap w) r (saved_settings obj ts d)) w, d))).
  { intros e ->. rewrite Hfirst.
    erewrite Hnext by (eapply nth_error_heap_write; exact Ho). cbn [snd].
    erewrite Hnext by (eapply nth_error_heap_write; eapply nth_error_heap_write; exact Ho).
    cbn [snd].
    erewrite Hnext
      by (do 3 eapply nth_error_heap_write; exact Ho).
    cbn [snd].
    erewrite Hnext
      by (do 4 eapply nth_error_heap_write; exact Ho).
    rewrite !heap_write_twice. reflexivity. }
  destruct (dict_get ts trans) as [v|] eqn:Eg.
  - run. rewrite getitem_dict, Eg. run.
    specialize (Hentry v eq_refl). destruct v as [| | | | | |old]; try discriminate.
    apply Hstep. reflexivity.
  - run. apply Hstep. reflexivity.
Qed.

(** The entry of the transform in the settings [update_settings] leaves. *)
Lemma saved_settings_entry (obj ts : pydict) (d : Dialog.ConfigDialog) :
  (forall v, dict_get ts (currentText (Dialog.transform_combo d)) = Some v ->
             is_dict v = true) ->
  exists ts' e,
    dict_get (saved_settings obj ts d) "transforms" = Some (PyDict ts')
    /\ dict_get ts' (currentText (Dialog.transform_combo d)) = Some (PyDict e)
    /\ dict_get e "transform_name" = Some (PyStr (Dialog.transform_name_edit d))
    /\ dict_get e "x_format" = Some (PyStr (currentText (Dialog.x_format_combo d)))
    /\ dict_get e "y_format" = Some (PyStr (currentText (Dialog.y_format_combo d)))
    /\ dict_get e "scaler" = Some (PyStr (currentText (Dialog.scaler_combo d)))
    /\ (forall k, k <> currentText (Dialog.transform_combo d) ->
                  dict_get ts' k = dict_get ts k)
    /\ (forall old k,
          dict_get ts (currentText (Dialog.transform_combo d)) = Some (PyDict old) ->
          ~ In k ["transform_name"; "x_format"; "y_format"; "scaler"] ->
          dict_get e k = dict_get old k).
Proof.
  intros Hentry. unfold saved_settings. cbv zeta.
  set (trans := currentText (Dialog.transform_combo d)) in *.
  set (e := match dict_get ts trans with
            | Some (PyDict old) => dict_update old (dialog_entry d)
            | _ => dialog_entry d
            end).
  exists (dict_set ts trans (PyDict e)), e.
  split; [rewrite !dict_get_set_other by discriminate; apply dict_get_set_same|].
  split; [apply dict_get_set_same|].
  assert (He : e = dialog_entry d
               \/ exists old, dict_get ts trans = Some (PyDict old)
                              /\ e = dict_update old (dialog_entry d)).
  { unfold e. destruct (dict_get ts trans) as [v|] eqn:Eg; [|now left].
    specialize (Hentry v eq_refl). destruct v; try discriminate. right. eauto. }
  assert (Hupd : forall old,
             dict_update old (dialog_entry d)
             = dict_set (dict_set (dict_set (dict_set old
                 "transform_name" (PyStr (Dialog.transform_name_edit d)))
                 "x_format" (PyStr (currentText (Dialog.x_format_combo d))))
                 "y_format" (PyStr (currentText (Dialog.y_format_combo d))))
                 "scaler" (PyStr (currentText (Dialog.scaler_combo d))))
    by reflexivity.
  split; [|split; [|split; [|split; [|split]]]].
  - destruct He as [->|(old & _ & ->)]; [reflexivity|]. rewrite Hupd.
    rewrite !dict_get_set_other by discriminate. apply dict_get_set_same.
  - destruct He as [->|(old & _ & ->)]; [reflexivity|]. rewrite Hupd.
    rewrite !dict_get_set_other by discriminate. apply dict_get_set_same.
  - destruct He as [->|(old & _ & ->)]; [reflexivity|]. rewrite Hupd.
    rewrite !dict_get_set_other by discriminate. apply dict_get_set_same.
  - destruct He as [->|(old & _ & ->)]; [reflexivity|]. rewrite Hupd.
    apply dict_get_set_same.
  - intros k Hk. apply dict_get_set_other. congruence.
  - intros old k Hold Hk. unfold e. rewrite Hold, Hupd.
    rewrite !dict_get_set_other; [reflexivity | ..];
      intros <-; apply Hk; cbn; tauto.
Qed.

(** What [accept] does, check by check. *)
Lemma accept_run `{H : Host} (w : World) (d : Dialog.ConfigDialog) :
  Dialog.accept (w, d) =
  let trans := currentText (Dialog.transform_combo d) in
  match get_transform (CrsStr trans) w with
  | (Raise e, w1) => (Raise e, (w1, d))
  | (Ok None, w1) =>
      (Ok tt, (add_message ("The transform '" ++ trans ++ "' is invalid") w1, d))
  | (Ok (Some _), w1) =>
      match format_float Dialog.sample (currentText (Dialog.x_format_combo d)) with
      | None => (Ok tt, (add_message "The x format string is invalid" w1, d))
      | Some _ =>
          match format_float Dialog.sample (currentText (Dialog.y_format_combo d)) with
          | None => (Ok tt, (add_message "The y format string is invalid" w1, d))
          | Some _ =>
              match py_int (currentText (Dialog.scaler_combo d)) with
              | None => (Ok tt, (add_message "Multiplier is not an integer" w1, d))
              | Some _ =>
                  (Dialog.update_settings ;;
                   set_self (Dialog.with_result_code (Some Accepted)))%M (w1, d)
              end
          end
      end
  end.
Proof.
  unfold Dialog.accept, Dialog.raise_error_msg. run.
  destruct (get_transform (CrsStr (currentText (Dialog.transform_combo d))) w)
    as [[[nt|]|e] w1]; run; try reflexivity.
  destruct (format_float Dialog.sample (currentText (Dialog.x_format_combo d)));
    run; [|reflexivity].
  destruct (format_float Dialog.sample (currentText (Dialog.y_format_combo d)));
    run; [|reflexivity].
  destruct (py_int (currentText (Dialog.scaler_combo d))); run; reflexivity.
Qed.

(** X19: [accept] refuses a dialog with a field that does not pass its
    checks: a transform text that does not resolve, a pattern that does not
    format the sample 1.2, a scale that [int] does not read (an empty scale
    field, for one). It shows the one error box of the first check that
    fails and returns, with the dialog open and its fields as they are, and
    the settings object and the stored text untouched. *)
Theorem X19_accept_refuses_a_field_that_fails_its_check `{H : Host}
    (w w1 : World) (d : Dialog.ConfigDialog) (res : option (string * Transform)) :
  let trans := currentText (Dialog.transform_combo d) in
  let xf := currentText (Dialog.x_format_combo d) in
  let yf := currentText (Dialog.y_format_combo d) in
  let sc := currentText (Dialog.scaler_combo d) in
  let refused := fun text => Dialog.accept (w, d) = (Ok tt, (add_message text w1, d)) in
  get_transform (CrsStr trans) w = (Ok res, w1) ->
  (res = None -> refused ("The transform '" ++ trans ++ "' is invalid"))
  /\ (res <> None -> format_float Dialog.sample xf = None ->
      refused "The x format string is invalid")
  /\ (res <> None -> format_float Dialog.sample xf <> None ->
      format_float Dialog.sample yf = None ->
      refused "The y format string is invalid")
  /\ (res <> None -> format_float Dialog.sample xf <> None ->
      format_float Dialog.sample yf <> None -> py_int sc = None ->
      refused "Multiplier is not an integer")
  /\ heap w1 = heap w /\ qsettings w1 = qsettings w.
Proof.
  intros trans xf yf sc refused Hres. subst refused. cbv beta.
  pose proof (get_transform_frame _ _ _ _ Hres) as (Hh & Hq & _).
  rewrite accept_run. cbv zeta. fold trans xf yf sc. rewrite Hres.
  split; [now intros ->|].
  split.
  { intros Hr Hx. destruct res; [|congruence]. now rewrite Hx. }
  split.
  { intros Hr Hx Hy. destruct res; [|congruence].
    destruct (format_float Dialog.sample xf); [|congruence]. now rewrite Hy. }
  split.
  { intros Hr Hx Hy Hs. destruct res; [|congruence].
    destruct (format_float Dialog.sample xf); [|congruence].
    destruct (format_float Dialog.sample yf); [|congruence]. now rewrite Hs. }
  split; assumption.
Qed.

Lemma X19_accept_refuses_a_field_that_fails_its_check_witness :
  let typed := snd (snd (Dialog.handle (EditScaler "") demo_dialog)) in
  let other := snd (snd (Dialog.handle (EditScaler "1e3") demo_dialog)) in
  currentText (Dialog.scaler_combo typed) = ""
  /\ currentText (Dialog.scaler_combo other) = "13"
  /\ exists w1,
       Dialog.accept (fst demo_dialog, typed)
       = (Ok tt, (add_message "Multiplier is not an integer" w1, typed))
       /\ heap w1 = heap (fst demo_dialog)
       /\ Dialog.result_code typed = None.
Proof.
  intros typed other.
  split; [reflexivity|]. split; [reflexivity|].
  pose (w1 := snd (get_transform (CrsStr "EPSG:6414") (fst demo_dialog))).
  destruct (X19_accept_refuses_a_field_that_fails_its_check (fst demo_dialog) w1 typed
              (Some ("EPSG:6414",
                     Native {| source := wgs84;
                               destination :=
                                 QgsCoordinateReferenceSystem (CrsStr "EPSG:6414") |})))
    as (_ & _ & _ & Hsc & Hh & _); [vm_compute; reflexivity|].
  exists w1. split.
  - apply Hsc; [discriminate | vm_compute; discriminate | vm_compute; discriminate
                | vm_compute; reflexivity].
  - split; [exact Hh | reflexivity].
Defined.

(** What [accept] does when the four checks pass, on a settings object
    whose transforms are a dict of dicts. *)
Lemma accept_passes `{H : Host} (w w1 : World) (d : Dialog.ConfigDialog) (r : ref)
    (obj ts : pydict) (nt : string * Transform) (tx ty : string) (n : Z) :
  Dialog.settings d = Some r -> nth_error (heap w) r = Some obj ->
  dict_get obj "transforms" = Some (PyDict ts) ->
  (forall v, dict_get ts (currentText (Dialog.transform_combo d)) = Some v ->
             is_dict v = true) ->
  get_transform (CrsStr (currentText (Dialog.transform_combo d))) w = (Ok (Some nt), w1) ->
  format_float Dialog.sample (currentText (Dialog.x_format_combo d)) = Some tx ->
  format_float Dialog.sample (currentText (Dialog.y_format_combo d)) = Some ty ->
  py_int (currentText (Dialog.scaler_combo d)) = Some n ->
  Dialog.accept (w, d)
  = (Ok tt, (set_heap (heap_write (heap w) r (saved_settings obj ts d)) w1,
             Dialog.with_result_code (Some Accepted) d)).
Proof.
  intros Hs Ho Hts Hentry Hres Hx Hy Hsc.
  pose proof (get_transform_frame _ _ _ _ Hres) as (Hh & _).
  rewrite accept_run. cbv zeta. rewrite Hres, Hx, Hy, Hsc.
  unfold bind. rewrite (update_settings_run w1 d r obj ts); auto.
  - now rewrite Hh.
  - now rewrite Hh.
Qed.

(** X20: when the four checks pass, [accept] closes the dialog accepted
    and leaves in the settings object, under the text of the transform
    field, an entry with the label, the two patterns and the scale of the
    dialog's fields, and that text as the last transform. The entries of
    the other transforms are as before, and so is what an earlier entry of
    this transform held under other keys. The stored text is as before:
    nothing is saved until the widget applies the settings. *)
Theorem X20_accept_saves_the_fields_under_the_transform `{H : Host}
    (w w1 : World) (d : Dialog.ConfigDialog) (r : ref) (obj ts : pydict)
    (nt : string * Transform) (tx ty : string) (n : Z) :
  let trans := currentText (Dialog.transform_combo d) in
  Dialog.settings d = Some r -> nth_error (heap w) r = Some obj ->
  dict_get obj "transforms" = Some (PyDict ts) ->
  (forall v, dict_get ts trans = Some v -> is_dict v = true) ->
  get_transform (CrsStr trans) w = (Ok (Some nt), w1) ->
  format_float Dialog.sample (currentText (Dialog.x_format_combo d)) = Some tx ->
  format_float Dialog.sample (currentText (Dialog.y_format_combo d)) = Some ty ->
  py_int (currentText (Dialog.scaler_combo d)) = Some n ->
  exists w2 obj' ts' e,
    Dialog.accept (w, d) = (Ok tt, (w2, Dialog.with_result_code (Some Accepted) d))
    /\ nth_error (heap w2) r = Some obj'
    /\ qsettings w2 = qsettings w
    /\ dict_get obj' "last_transform" = Some (PyStr trans)
    /\ dict_get obj' "transforms" = Some (PyDict ts')
    /\ dict_get ts' trans = Some (PyDict e)
    /\ dict_get e "transform_name" = Some (PyStr (Dialog.transform_name_edit d))
    /\ dict_get e "x_format" = Some (PyStr (currentText (Dialog.x_format_combo d)))
    /\ dict_get e "y_format" = Some (PyStr (currentText (Dialog.y_format_combo d)))
    /\ dict_get e "scaler" = Some (PyStr (currentText (Dialog.scaler_combo d)))
    /\ (forall k, k <> trans -> dict_get ts' k = dict_get ts k)
    /\ (forall old k,
          dict_get ts trans = Some (PyDict old) ->
          ~ In k ["transform_name"; "x_format"; "y_format"; "scaler"] ->
          dict_get e k = dict_get old k).
Proof.
  intros trans Hs Ho Hts Hentry Hres Hx Hy Hsc.
  pose proof (get_transform_frame _ _ _ _ Hres) as (Hh & Hq & _).
  destruct (saved_settings_entry obj ts d Hentry)
    as (ts' & e & Gts & Ge & Gn & Gx & Gy & Gs & Gother & Gold).
  exists (set_heap (heap_write (heap w) r (saved_settings obj ts d)) w1),
    (saved_settings obj ts d), ts', e.
  split; [eapply accept_passes; eauto|].
  split; [cbn [set_heap heap]; eapply nth_error_heap_write; eauto|].
  split; [exact Hq|].
  split.
  { unfold saved_settings. cbv zeta.
    rewrite !dict_get_set_other by discriminate. apply dict_get_set_same. }
  repeat (split; [assumption|]). assumption.
Qed.

Lemma X20_accept_saves_the_fields_under_the_transform_witness :
  let typed :=
    Dialog.with_x_format_combo (setEditText ".3f" (Dialog.x_format_combo (snd demo_dialog)))
      (snd demo_dialog) in
  exists w2 obj' ts' e,
    Dialog.accept (fst demo_dialog, typed)
    = (Ok tt, (w2, Dialog.with_result_code (Some Accepted) typed))
    /\ nth_error (heap w2) 0 = Some obj'
    /\ dict_get obj' "transforms" = Some (PyDict ts')
    /\ dict_get ts' "EPSG:6414" = Some (PyDict e)
    /\ dict_get e "x_format" = Some (PyStr ".3f")
    /\ dict_get e "y_format" = Some (PyStr ",.0f").
Proof.
  intros typed.
  pose (w1 := snd (get_transform (CrsStr "EPSG:6414") (fst demo_dialog))).
  destruct (X20_accept_saves_the_fields_under_the_transform (fst demo_dialog) w1 typed 0
              default_settings
              [("EPSG:6414", entry ",.0f" ",.0f" "EPSG:6414" "1");
               ("+proj=calcofi +ellps=clrk66", entry ",.1f" ",.1f" "Line, Station" "1")]
              ("EPSG:6414",
               Native {| source := wgs84;
                         destination := QgsCoordinateReferenceSystem (CrsStr "EPSG:6414") |})
              "1.200" "1" 1%Z)
    as (w2 & obj' & ts' & e & Hrun & Hobj & _ & _ & Hts & He & _ & Hx & Hy & _);
    [try (vm_compute; reflexivity) ..|].
  { intros v Hv. vm_compute in Hv. injection Hv as <-. reflexivity. }
  exists w2, obj', ts', e. repeat (split; [assumption|]). assumption.
Defined.

(** X21: what the user accepts is what the widget then shows. When the
    four checks of [accept] pass, [update_from_settings] on the settings
    the dialog hands over returns: the widget has the canonical name and the
    transform object the text of the transform field resolves to, the label,
    the two patterns and the scale of the dialog's fields, an empty display,
    and the settings object it now refers to is the text it has stored. No
    accepted dialog leaves settings the widget cannot apply. *)
Theorem X21_accepted_fields_reach_the_widget `{H : Host}
    (w w1 : World) (d : Dialog.ConfigDialog) (me : SecondaryCoordinates)
    (r : ref) (obj ts : pydict) (name : string) (t : Transform) (tx ty : string) (n : Z) :
  let trans := currentText (Dialog.transform_combo d) in
  Dialog.settings d = Some r -> nth_error (heap w) r = Some obj ->
  dict_get obj "transforms" = Some (PyDict ts) ->
  (forall v, dict_get ts trans = Some v -> is_dict v = true) ->
  get_transform (CrsStr trans) w = (Ok (Some (name, t)), w1) ->
  format_float Dialog.sample (currentText (Dialog.x_format_combo d)) = Some tx ->
  format_float Dialog.sample (currentText (Dialog.y_format_combo d)) = Some ty ->
  py_int (currentText (Dialog.scaler_combo d)) = Some n ->
  exists w2 w3 dlg obj',
    Dialog.accept (w, d) = (Ok tt, (w2, dlg))
    /\ Dialog.result_code dlg = Some Accepted
    /\ Widget.update_from_settings (Dialog.settings dlg) (w2, me)
       = (Ok tt,
          (w3,
           {| settings := Some r; xy := xy me; _transform := name; _crs := t;
              _x_format := currentText (Dialog.x_format_combo d);
              _y_format := currentText (Dialog.y_format_combo d);
              _scaler := n;
              label := Dialog.transform_name_edit d; edit := "" |}))
    /\ nth_error (heap w3) r = Some obj'
    /\ qsettings w3 = json_dumps obj'.
Proof.
  intros trans Hs Ho Hts Hentry Hres Hx Hy Hsc.
  pose proof (get_transform_frame _ _ _ _ Hres) as (Hh & Hq & Hp & _).
  destruct (saved_settings_entry obj ts d Hentry)
    as (ts' & e & Gts & Ge & Gn & Gx & Gy & Gs & _).
  set (obj' := saved_settings obj ts d) in *.
  set (w2 := set_heap (heap_write (heap w) r obj') w1).
  assert (Hobj2 : nth_error (heap w2) r = Some obj')
    by (cbn [w2 set_heap heap]; eapply nth_error_heap_write; eauto).
  assert (Hlast : dict_get obj' "last_transform" = Some (PyStr trans)).
  { unfold obj', saved_settings. cbv zeta.
    rewrite !dict_get_set_other by discriminate. apply dict_get_set_same. }
  destruct (get_transform (CrsStr trans) w2) as [res2 w3] eqn:Hres2.
  assert (res2 = Ok (Some (name, t))) as ->.
  { change res2 with (fst (res2, w3)). rewrite <- Hres2.
    rewrite (get_transform_result (CrsStr trans) w2 w) by (cbn [w2 set_heap project_crs]; exact Hp).
    now rewrite Hres. }
  pose proof (get_transform_frame _ _ _ _ Hres2) as (Hh3 & _).
  exists w2, (set_qsettings (json_dumps obj') w3),
    (Dialog.with_result_code (Some Accepted) d), obj'.
  split; [eapply accept_passes; eauto|].
  split; [reflexivity|].
  split; [|split; [cbn [set_qsettings heap]; now rewrite Hh3 | reflexivity]].
  cbn [Dialog.with_result_code Dialog.settings]. rewrite Hs.
  rewrite (update_from_settings_run w2 w3 me (Some r) r obj' trans name t
             eq_refl Hobj2 Hlast Hres2).
  subst trans.
  cbv zeta. rewrite getitem_dict, Gts. cbv beta iota.
  rewrite getitem_dict, Ge. cbv beta iota.
  rewrite !getitem_dict, Gn, Gx, Gy, Gs. cbn [as_str expect_str int_of]. cbv beta iota.
  rewrite Hsc. reflexivity.
Qed.

Lemma X21_accepted_fields_reach_the_widget_witness :
  let typed :=
    Dialog.with_scaler_combo (setEditText "1000" (Dialog.scaler_combo (snd demo_dialog)))
      (snd demo_dialog) in
  exists w2 w3 dlg me',
    Dialog.accept (fst demo_dialog, typed) = (Ok tt, (w2, dlg))
    /\ Widget.update_from_settings (Dialog.settings dlg) (w2, snd demo_state)
       = (Ok tt, (w3, me'))
    /\ _scaler me' = 1000%Z /\ _x_format me' = ",.0f" /\ label me' = "EPSG:6414".
Proof.
  intros typed.
  pose (w1 := snd (get_transform (CrsStr "EPSG:6414") (fst demo_dialog))).
  destruct (X21_accepted_fields_reach_the_widget (fst demo_dialog) w1 typed (snd demo_state) 0
              default_settings
              [("EPSG:6414", entry ",.0f" ",.0f" "EPSG:6414" "1");
               ("+proj=calcofi +ellps=clrk66", entry ",.1f" ",.1f" "Line, Station" "1")]
              "EPSG:6414"
              (Native {| source := wgs84;
                         destination := QgsCoordinateReferenceSystem (CrsStr "EPSG:6414") |})
              "1" "1" 1000%Z)
    as (w2 & w3 & dlg & obj' & Hrun & _ & Happly & _);
    [try (vm_compute; reflexivity) ..|].
  { intros v Hv. vm_compute in Hv. injection Hv as <-. reflexivity. }
  eexists w2, w3, dlg, _.
  split; [exact Hrun|]. split; [exact Happly|]. repeat split.
Defined.

Lemma clear_then_add (c : QComboBox) (a : string) (rest : list string) :
  maxCount c = Some 10 -> List.length (a :: rest) <= 10 ->
  addItems (a :: rest) (fst (clear c)) = (box (a :: rest) a, true).
Proof.
  intros Hm Hlen. destruct c as [its txt mc]. cbn [maxCount] in Hm. subst mc.
  assert (Hroom : firstn 10 (a :: rest) = a :: rest) by (apply firstn_all2; exact Hlen).
  unfold clear, addItems, count, box.
  destruct its as [|i0 its]; cbn [items fst maxCount currentText List.length Nat.sub];
    rewrite Hroom; reflexivity.
Qed.

Lemma clear_then_add_masked `{H : Host} (mask : string) (c : QComboBox) (a : string)
    (rest : list string) :
  maxCount c = Some 10 -> List.length (a :: rest) <= 10 ->
  under_mask mask (fst (addItems (a :: rest) (under_mask mask (fst (clear c)))))
  = box (a :: rest) (masked mask a).
Proof.
  intros Hm Hlen. destruct c as [its txt mc]. cbn [maxCount] in Hm. subst mc.
  assert (Hroom : firstn 10 (a :: rest) = a :: rest) by (apply firstn_all2; exact Hlen).
  unfold clear, addItems, count, box, under_mask.
  destruct its as [|i0 its]; cbn [items fst maxCount currentText List.length Nat.sub];
    rewrite Hroom; reflexivity.
Qed.

Lemma clear_text (c c' : QComboBox) :
  clear c = (c', true) -> currentText c' = "".
Proof.
  unfold clear. destruct (items c); [discriminate|]. now intros [= <-].
Qed.

Lemma change_clear_run `{H : Host} (w : World) (d : Dialog.ConfigDialog) :
  Dialog.change_transform_combo clear (w, d)
  = (Ok tt, (w, Dialog.with_transform_combo (fst (clear (Dialog.transform_combo d))) d)).
Proof.
  unfold Dialog.change_transform_combo. unfold bind at 1. unfold self. cbn [fst snd].
  destruct (clear (Dialog.transform_combo d)) as [c changed] eqn:Ec.
  unfold bind, set_self. cbn [fst snd].
  destruct changed; [|reflexivity].
  rewrite on_transform_change_run. cbv zeta. dialog_fields.
  now rewrite (clear_text _ _ Ec).
Qed.

Lemma set_heap_same (w : World) : set_heap (heap w) w = w.
Proof. now destruct w. Qed.

Lemma get_transform_split `{H : Host} (arg : crs_arg) (w : World) :
  exists w1,
    get_transform arg w = (fst (get_transform arg w), w1)
    /\ heap w1 = heap w /\ qsettings w1 = qsettings w /\ project_crs w1 = project_crs w.
Proof.
  destruct (get_transform arg w) as [res w1] eqn:E. exists w1.
  apply get_transform_frame in E as (? & ? & ? & _). auto.
Qed.

(** The second half of [reset_to_defaults]: the three history boxes are
    filled from the settings object [r], which holds the defaults, and
    [update_gui] shows its entry. *)
Ltac refill_boxes Hr :=
  let step key :=
    (unfold bind at 1; unfold set_self at 1; dialog_fields;
     unfold bind at 1;
     erewrite (setting_run key); [|reflexivity | exact Hr];
     unfold bind at 1;
     cbn [getitem dict_get default_settings String.eqb Ascii.eqb Bool.eqb
          as_str_list all_str of_result];
     unfold ret at 1;
     unfold bind at 1; unfold set_self at 1; dialog_fields;
     rewrite clear_then_add by (cbn [maxCount List.length]; first [assumption | lia])) in
  step "x_formats"; step "y_formats";
  (unfold bind at 1; unfold set_self at 1; dialog_fields;
   unfold bind at 1;
   erewrite (setting_run "scalers"); [|reflexivity | exact Hr];
   unfold bind at 1;
   cbn [getitem dict_get default_settings String.eqb Ascii.eqb Bool.eqb
        as_str_list all_str of_result];
   unfold ret at 1;
   unfold bind at 1; unfold set_self at 1; dialog_fields;
   rewrite clear_then_add_masked by (cbn [maxCount List.length]; first [assumption | lia]);
   change (masked Dialog.scaler_mask "1") with "1");
  erewrite (update_gui_run _ _ _ default_settings _ _ "EPSG:6414" "EPSG:6414"
              ",.0f" ",.0f" "1"); try reflexivity; [|exact Hr];
  change (masked Dialog.scaler_mask "1") with "1";
  dialog_fields.

(** What [reset_to_defaults] does to an open dialog. *)
Lemma reset_to_defaults_run `{H : Host} (w : World) (d : Dialog.ConfigDialog) :
  maxCount (Dialog.transform_combo d) = Some 10 ->
  maxCount (Dialog.x_format_combo d) = Some 10 ->
  maxCount (Dialog.y_format_combo d) = Some 10 ->
  maxCount (Dialog.scaler_combo d) = Some 10 ->
  exists w',
    Dialog.reset_to_defaults (w, d)
    = (Ok tt, (w', defaults_shown (List.length (heap w)) (Dialog.result_code d)))
    /\ heap w' = (heap w ++ [default_settings])%list
    /\ qsettings w' = qsettings w /\ project_crs w' = project_crs w.
Proof.
  intros Ht Hx Hy Hsc.
  set (r := List.length (heap w)).
  set (w1 := set_heap (heap w ++ [default_settings]) w).
  assert (Hr1 : nth_error (heap w1) r = Some default_settings)
    by (cbn [w1 set_heap heap]; apply nth_error_last).
  unfold Dialog.reset_to_defaults.
  unfold bind at 1. unfold in_world at 1, alloc at 1. cbn [fst snd]. fold r w1.
  unfold bind at 1. unfold set_self at 1. cbn [fst snd].
  unfold bind at 1. rewrite change_clear_run.
  unfold bind at 1.
  erewrite (setting_run "transforms" w1); [|reflexivity | exact Hr1].
  unfold bind at 1. cbn [getitem dict_get default_settings String.eqb Ascii.eqb Bool.eqb
                         keys of_result dict_keys map fst]. unfold ret at 1.
  (* the items of the transform box, and the change of its index *)
  unfold bind at 1. unfold Dialog.change_transform_combo at 1.
  unfold bind at 1. unfold self at 1. dialog_fields.
  rewrite (clear_then_add (Dialog.transform_combo d)) by (auto; cbn; lia).
  unfold bind at 1. unfold set_self at 1. dialog_fields.
  rewrite on_transform_change_run. cbv zeta. dialog_fields.
  cbn [box currentText is_empty].
  destruct (get_transform_split (CrsStr "EPSG:6414") w1) as (w2 & Hres & Hh2 & Hq2 & Hp2).
  rewrite (get_transform_native (CrsStr "EPSG:6414") (CrsStr "EPSG:6414") "EPSG:6414")
    in Hres by reflexivity.
  rewrite Hres.
  assert (Hr2 : nth_error (heap w2) r = Some default_settings) by now rewrite Hh2.
  destruct (isValid (QgsCoordinateReferenceSystem (CrsStr "EPSG:6414"))).
  - exists w2.
    unfold bind at 1.
    erewrite (set_setting_run "last_transform" (PyStr "EPSG:6414") w2);
      [|reflexivity | exact Hr2].
    change (dict_set default_settings "last_transform" (PyStr "EPSG:6414"))
      with default_settings.
    rewrite (nth_error_heap_write_same _ _ _ Hr2), set_heap_same.
    erewrite (update_gui_run w2 _ r default_settings _ _ "EPSG:6414" "EPSG:6414"
                ",.0f" ",.0f" "1"); try reflexivity; [|exact Hr2].
    dialog_fields.
    refill_boxes Hr2. split; [reflexivity|]. auto.
  - exists (add_message "The transform 'EPSG:6414' is invalid" w2).
    assert (Hr3 : nth_error (heap (add_message "The transform 'EPSG:6414' is invalid" w2)) r
                  = Some default_settings) by exact Hr2.
    change ("The transform '" ++ "EPSG:6414" ++ "' is invalid")
      with "The transform 'EPSG:6414' is invalid".
    unfold bind at 1.
    erewrite (setting_run "last_transform"); [|reflexivity | exact Hr3].
    unfold bind at 1.
    cbn [getitem dict_get default_settings String.eqb Ascii.eqb Bool.eqb as_str of_result].
    unfold ret at 1. unfold set_self at 1. dialog_fields.
    refill_boxes Hr3. split; [reflexivity|]. cbn [add_message heap qsettings project_crs]. auto.
Qed.

(** X22: [reset_to_defaults] gives the dialog a settings object of its own,
    a new copy of the defaults, and shows it: the two default transforms
    with the first of them selected, its label, patterns and scale, and the
    default lists. Every object that was there before, the one the dialog
    shared with the widget among them, is as it was, and so is the stored
    text: a reset followed by Cancel leaves the settings of the widget
    untouched, and nothing is erased from the store. *)
Theorem X22_reset_shows_the_defaults_in_an_object_of_its_own `{H : Host}
    (w : World) (d : Dialog.ConfigDialog) :
  maxCount (Dialog.transform_combo d) = Some 10 ->
  maxCount (Dialog.x_format_combo d) = Some 10 ->
  maxCount (Dialog.y_format_combo d) = Some 10 ->
  maxCount (Dialog.scaler_combo d) = Some 10 ->
  exists w',
    Dialog.reset_to_defaults (w, d)
    = (Ok tt, (w', defaults_shown (List.length (heap w)) (Dialog.result_code d)))
    /\ dialog_settings_value (w', defaults_shown (List.length (heap w)) (Dialog.result_code d))
       = Some default_settings
    /\ (forall r obj, nth_error (heap w) r = Some obj -> nth_error (heap w') r = Some obj)
    /\ qsettings w' = qsettings w.
Proof.
  intros Ht Hx Hy Hsc.
  destruct (reset_to_defaults_run w d Ht Hx Hy Hsc) as (w' & Hrun & Hh & Hq & _).
  exists w'. split; [exact Hrun|]. split.
  { unfold dialog_settings_value. cbn [fst snd defaults_shown Dialog.settings].
    rewrite Hh. apply nth_error_last. }
  split.
  { intros r obj Hr. rewrite Hh. rewrite nth_error_app1; [exact Hr|].
    apply nth_error_Some. congruence. }
  exact Hq.
Qed.

Lemma X22_reset_shows_the_defaults_in_an_object_of_its_own_witness :
  let edited :=
    snd (Dialog.on_transform_change (with_transform_text "4326" demo_dialog)) in
  dialog_settings_value edited
  = Some (dict_set default_settings "last_transform" (PyStr "EPSG:4326"))
  /\ exists w',
       Dialog.reset_to_defaults edited = (Ok tt, (w', defaults_shown 1 None))
       /\ nth_error (heap w') 0
          = Some (dict_set default_settings "last_transform" (PyStr "EPSG:4326"))
       /\ nth_error (heap w') 1 = Some default_settings.
Proof.
  intros edited. split; [vm_compute; reflexivity|].
  destruct (X22_reset_shows_the_defaults_in_an_object_of_its_own (fst edited) (snd edited))
    as (w' & Hrun & Hnew & Hold & _); try reflexivity.
  exists w'. split; [exact Hrun|]. split.
  - apply Hold. vm_compute; reflexivity.
  - exact Hnew.
Defined.

Lemma add_then_cap (l : list string) :
  setMaxCount 10 (fst (addItems l new_combo)) = box (firstn 10 l) (hd "" l).
Proof. destruct l; reflexivity. Qed.

Lemma add_then_cap_masked `{H : Host} (mask : string) (l : list string) :
  under_mask mask (setMaxCount 10 (fst (addItems l (under_mask mask new_combo))))
  = box (firstn 10 l) (masked mask (hd "" l)).
Proof. destruct l; reflexivity. Qed.

(** The mask lets through a text of digits that fits its places. *)
Lemma maskString_digits `{H : Host} (s : string) :
  forall places : nat,
    all_digits s = true -> String.length s <= places ->
    maskString places (chars s) = s.
Proof.
  induction s as [|c r IH]; intros places Hd Hlen; [reflexivity|].
  cbn [all_digits] in Hd. apply andb_prop in Hd as [Hc Hr].
  cbn [String.length] in Hlen. destruct places as [|places]; [lia|].
  unfold is_digit in Hc. apply andb_prop in Hc as [Hlo Hhi].
  assert (Hascii : (N_of_ascii c <? 128)%N = true).
  { apply N.ltb_lt. apply N.leb_le in Hhi. lia. }
  cbn [chars]. cbv zeta. rewrite Hascii. cbn [maskString takes_9].
  unfold isNumber. rewrite Hascii, Hlo, Hhi, orb_true_r.
  cbn [append]. rewrite IH; [reflexivity | exact Hr | lia].
Qed.

Lemma masked_digits `{H : Host} (s : string) :
  all_digits s = true -> String.length s <= 9 -> masked Dialog.scaler_mask s = s.
Proof. intros Hd Hlen. unfold masked. now apply maskString_digits. Qed.

(** What the constructor of the dialog does on a settings object with its
    three lists, its last transform and the entry of that transform. *)
Lemma init_run `{H : Host} (w : World) (r : ref) (obj ts e : pydict)
    (trans name xf yf sc : string) (xs ys ss : list string) :
  nth_error (heap w) r = Some obj ->
  dict_get obj "transforms" = Some (PyDict ts) ->
  dict_get obj "x_formats" = Some (Dialog.str_list xs) ->
  dict_get obj "y_formats" = Some (Dialog.str_list ys) ->
  dict_get obj "scalers" = Some (Dialog.str_list ss) ->
  dict_get obj "last_transform" = Some (PyStr trans) ->
  dict_get ts trans = Some (PyDict e) ->
  dict_get e "transform_name" = Some (PyStr name) ->
  dict_get e "x_format" = Some (PyStr xf) ->
  dict_get e "y_format" = Some (PyStr yf) ->
  dict_get e "scaler" = Some (PyStr sc) ->
  Dialog.init (Some r) (w, Dialog.blank)
  = (Ok tt,
     (w, {| Dialog.settings := Some r;
            Dialog.transform_combo := box (firstn 10 (dict_keys ts)) trans;
            Dialog.transform_name_edit := shown_label name trans;
            Dialog.x_format_combo := box (firstn 10 xs) (or_default xf ",.0f");
            Dialog.y_format_combo := box (firstn 10 ys) (or_default yf ",.0f");
            Dialog.scaler_combo :=
              box (firstn 10 ss) (or_default (masked Dialog.scaler_mask sc) "1");
            Dialog.result_code := None |})).
Proof.
  intros Ho Hts Hxs Hys Hss Hlast He Hn Hx Hy Hsc.
  unfold Dialog.init.
  unfold bind at 1. unfold set_self at 1. cbn [fst snd].
  unfold bind at 1. erewrite (setting_run "transforms"); [|reflexivity | exact Ho].
  rewrite getitem_dict, Hts.
  unfold bind at 1. cbn [keys of_result]. unfold ret at 1.
  unfold bind at 1. unfold set_self at 1. cbn [fst snd]. rewrite add_then_cap.
  unfold bind at 1. unfold set_self at 1. cbn [fst snd].
  unfold bind at 1. erewrite (setting_run "x_formats"); [|reflexivity | exact Ho].
  rewrite getitem_dict, Hxs.
  unfold bind at 1. cbn [as_str_list Dialog.str_list]. rewrite all_str_map_PyStr.
  cbn [of_result]. unfold ret at 1.
  unfold bind at 1. unfold set_self at 1. cbn [fst snd]. rewrite add_then_cap.
  unfold bind at 1. erewrite (setting_run "y_formats"); [|reflexivity | exact Ho].
  rewrite getitem_dict, Hys.
  unfold bind at 1. cbn [as_str_list Dialog.str_list]. rewrite all_str_map_PyStr.
  cbn [of_result]. unfold ret at 1.
  unfold bind at 1. unfold set_self at 1. cbn [fst snd]. rewrite add_then_cap.
  unfold bind at 1. unfold set_self at 1. cbn [fst snd].
  unfold bind at 1. erewrite (setting_run "scalers"); [|reflexivity | exact Ho].
  rewrite getitem_dict, Hss.
  unfold bind at 1. cbn [as_str_list Dialog.str_list]. rewrite all_str_map_PyStr.
  cbn [of_result]. unfold ret at 1.
  unfold bind at 1. unfold set_self at 1. cbn [fst snd].
  cbn [Dialog.with_scaler_combo Dialog.scaler_combo]. unfold setInputMask.
  rewrite add_then_cap_masked.
  unfold bind at 1. erewrite (setting_run "last_transform"); [|reflexivity | exact Ho].
  rewrite getitem_dict, Hlast.
  unfold bind at 1. cbn [as_str of_result]. unfold ret at 1.
  unfold bind at 1. unfold set_self at 1. cbn [fst snd].
  erewrite (update_gui_run w _ r obj ts e trans name xf yf sc); try eassumption;
    reflexivity.
Qed.

(** X23: the constructor of the dialog changes nothing outside the dialog:
    it works on the very settings object of the widget, of which it shows
    the entry of the last transform (its label unless that starts with EPSG,
    its patterns, and its scale as the input mask of the scale field takes
    it, a default where one is empty), and at most the first ten of the
    transforms and of each list. The mask keeps the first nine characters of
    the stored scale that are numbers: a scale of at most nine digits is
    shown as it is stored. *)
Theorem X23_dialog_opens_on_the_entry_of_the_last_transform `{H : Host}
    (w : World) (r : ref) (obj ts e : pydict)
    (trans name xf yf sc : string) (xs ys ss : list string) :
  nth_error (heap w) r = Some obj ->
  dict_get obj "transforms" = Some (PyDict ts) ->
  dict_get obj "x_formats" = Some (Dialog.str_list xs) ->
  dict_get obj "y_formats" = Some (Dialog.str_list ys) ->
  dict_get obj "scalers" = Some (Dialog.str_list ss) ->
  dict_get obj "last_transform" = Some (PyStr trans) ->
  dict_get ts trans = Some (PyDict e) ->
  dict_get e "transform_name" = Some (PyStr name) ->
  dict_get e "x_format" = Some (PyStr xf) ->
  dict_get e "y_format" = Some (PyStr yf) ->
  dict_get e "scaler" = Some (PyStr sc) ->
  exists dlg,
    Dialog.init (Some r) (w, Dialog.blank) = (Ok tt, (w, dlg))
    /\ Dialog.settings dlg = Some r
    /\ Dialog.transform_combo dlg = box (firstn 10 (dict_keys ts)) trans
    /\ Dialog.transform_name_edit dlg
       = (if is_empty name || startswith name "EPSG" then trans else name)
    /\ Dialog.x_format_combo dlg = box (firstn 10 xs) (if is_empty xf then ",.0f" else xf)
    /\ Dialog.y_format_combo dlg = box (firstn 10 ys) (if is_empty yf then ",.0f" else yf)
    /\ Dialog.scaler_combo dlg
       = box (firstn 10 ss)
           (if is_empty (masked Dialog.scaler_mask sc) then "1"
            else masked Dialog.scaler_mask sc)
    /\ (all_digits sc = true -> String.length sc <= 9 ->
        masked Dialog.scaler_mask sc = sc)
    /\ Dialog.result_code dlg = None.
Proof.
  intros Ho Hts Hxs Hys Hss Hlast He Hn Hx Hy Hsc.
  eexists. split; [eapply init_run; eassumption|].
  repeat split. apply masked_digits.
Qed.

Lemma X23_dialog_opens_on_the_entry_of_the_last_transform_witness :
  (exists dlg,
     Dialog.init (Some 0) (fst demo_state, Dialog.blank) = (Ok tt, (fst demo_state, dlg))
     /\ Dialog.transform_combo dlg
        = box ["EPSG:6414"; "+proj=calcofi +ellps=clrk66"] "EPSG:6414"
     /\ Dialog.transform_name_edit dlg = "EPSG:6414"
     /\ Dialog.x_format_combo dlg = box [".1f"; ",.0f"] ",.0f"
     /\ Dialog.scaler_combo dlg = box ["1"; "1000"; "1852"] "1")
  /\ (exists dlg,
        Dialog.init (Some 0) (fst bad_scale_state, Dialog.blank)
        = (Ok tt, (fst bad_scale_state, dlg))
        /\ Dialog.scaler_combo dlg = box ["1"; "1000"; "1852"] "13").
Proof.
  split.
  - destruct (X23_dialog_opens_on_the_entry_of_the_last_transform (fst demo_state) 0
                default_settings
                [("EPSG:6414", entry ",.0f" ",.0f" "EPSG:6414" "1");
                 ("+proj=calcofi +ellps=clrk66", entry ",.1f" ",.1f" "Line, Station" "1")]
                [("x_format", PyStr ",.0f"); ("y_format", PyStr ",.0f");
                 ("transform_name", PyStr "EPSG:6414"); ("scaler", PyStr "1")]
                "EPSG:6414" "EPSG:6414" ",.0f" ",.0f" "1"
                [".1f"; ",.0f"] [".1f"; ",.0f"] ["1"; "1000"; "1852"])
      as (dlg & Hrun & _ & Ht & Hl & Hx & _ & Hs & _); try reflexivity.
    exists dlg. split; [exact Hrun|]. split; [exact Ht|]. split; [exact Hl|].
    split; [exact Hx | exact Hs].
  - destruct (X23_dialog_opens_on_the_entry_of_the_last_transform (fst bad_scale_state) 0
                (dict_set default_settings "transforms"
                   (PyDict
                      [("EPSG:6414", entry ",.0f" ",.0f" "EPSG:6414" "1e3");
                       ("+proj=calcofi +ellps=clrk66",
                        entry ",.1f" ",.1f" "Line, Station" "1")]))
                [("EPSG:6414", entry ",.0f" ",.0f" "EPSG:6414" "1e3");
                 ("+proj=calcofi +ellps=clrk66", entry ",.1f" ",.1f" "Line, Station" "1")]
                [("x_format", PyStr ",.0f"); ("y_format", PyStr ",.0f");
                 ("transform_name", PyStr "EPSG:6414"); ("scaler", PyStr "1e3")]
                "EPSG:6414" "EPSG:6414" ",.0f" ",.0f" "1e3"
                [".1f"; ",.0f"] [".1f"; ",.0f"] ["1"; "1000"; "1852"])
      as (dlg & Hrun & _ & _ & _ & _ & _ & Hs & _); try reflexivity.
    exists dlg. split; [exact Hrun | exact Hs].
Defined.

(** ** The settings survive the sessions *)

Lemma extends_get (X : pydict) :
  forall (acc : pydict) (k : string) (v : pyval),
    extends (PyDict X) acc = true ->
    dict_get X k = Some v ->
    exists a, dict_get acc k = Some a
              /\ forall xk da, v = PyDict xk -> a = PyDict da -> extends (PyDict xk) da = true.
Proof.
  induction X as [|[k1 x] X IH]; intros acc k v Hext Hget; [discriminate|].
  rewrite extends_cons in Hext. destruct acc as [|[k0 b] acc]; [discriminate|].
  apply andb_prop in Hext as [Hext Hrest]. apply andb_prop in Hext as [Hk Hcompat].
  apply String.eqb_eq in Hk. subst k0.
  cbn [dict_get] in Hget |- *. destruct (String.eqb k k1).
  - injection Hget as ->. exists b. split; [reflexivity|].
    intros xk da -> ->. exact Hcompat.
  - eapply IH; eauto.
Qed.

Lemma settings_like_default : settings_like default_settings.
Proof. split; [exact default_settings_unique | reflexivity]. Qed.

(** Writing a value that is no dict under a key of the settings. *)
Lemma settings_like_set (obj : pydict) (k : string) (v : pyval) :
  settings_like obj -> is_dict v = false -> unique_keys v ->
  settings_like (dict_set obj k v).
Proof.
  intros [Hu Hext] Hv Huv. split.
  - now apply unique_keys_set.
  - apply extends_set; [exact Hext|]. intros xk _. now destruct v.
Qed.

Lemma unique_keys_str_list (l : list string) : unique_keys (Dialog.str_list l).
Proof. constructor. induction l; constructor; [constructor | assumption]. Qed.

Lemma unique_keys_entry (d : Dialog.ConfigDialog) : unique_keys (PyDict (dialog_entry d)).
Proof.
  unfold dialog_entry.
  repeat first [ constructor | solve [simpl; intuition discriminate] ].
Qed.

Lemma dict_update_entry (old : pydict) (d : Dialog.ConfigDialog) :
  dict_update old (dialog_entry d)
  = dict_set (dict_set (dict_set (dict_set old
      "transform_name" (PyStr (Dialog.transform_name_edit d)))
      "x_format" (PyStr (currentText (Dialog.x_format_combo d))))
      "y_format" (PyStr (currentText (Dialog.y_format_combo d))))
      "scaler" (PyStr (currentText (Dialog.scaler_combo d))).
Proof. reflexivity. Qed.

(** The settings [update_settings] leaves are settings still. *)
Lemma settings_like_saved (obj ts : pydict) (d : Dialog.ConfigDialog) :
  settings_like obj ->
  dict_get obj "transforms" = Some (PyDict ts) ->
  (forall v, dict_get ts (currentText (Dialog.transform_combo d)) = Some v ->
             is_dict v = true) ->
  settings_like (saved_settings obj ts d).
Proof.
  intros Hobj Hts Hentry. unfold saved_settings. cbv zeta.
  set (trans := currentText (Dialog.transform_combo d)) in *.
  repeat (apply settings_like_set;
          [| reflexivity | first [apply unique_keys_str_list | constructor]]).
  destruct Hobj as [Hu Hext].
  pose proof (unique_keys_dict _ Hu) as [_ Hvals].
  pose proof (Hvals _ _ Hts) as Huts.
  pose proof (unique_keys_dict _ Huts) as [_ Hentries].
  assert (He : unique_keys (PyDict match dict_get ts trans with
                                   | Some (PyDict old) => dict_update old (dialog_entry d)
                                   | _ => dialog_entry d
                                   end)).
  { destruct (dict_get ts trans) as [[| | | | | |old]|] eqn:Eg; try apply unique_keys_entry.
    rewrite dict_update_entry.
    repeat (apply unique_keys_set; [|constructor]). eapply Hentries; eauto. }
  split.
  - apply unique_keys_set; [exact Hu|]. apply unique_keys_set; assumption.
  - apply extends_set; [exact Hext|].
    intros dts Hdts.
    destruct (extends_get _ _ _ _ Hext Hdts) as (a & Ha & Hcompat).
    rewrite Hts in Ha. injection Ha as <-.
    specialize (Hcompat dts ts eq_refl eq_refl).
    apply extends_set; [exact Hcompat|].
    intros xk Hxk.
    destruct (extends_get _ _ _ _ Hcompat Hxk) as (a & Ha & Hold).
    pose proof (Hentry a Ha) as Hdict. destruct a as [| | | | | |old]; try discriminate.
    rewrite Ha. specialize (Hold xk old eq_refl eq_refl).
    rewrite dict_update_entry.
    repeat (apply extends_set; [|intros ? _; exact I]). exact Hold.
Qed.

Lemma Forall_heap_write (h : list pydict) (r : ref) (d : pydict) :
  Forall settings_like h -> settings_like d -> Forall settings_like (heap_write h r d).
Proof.
  intros Hh Hd. revert r.
  induction Hh as [|a h Ha Hh IH]; intros [|r]; simpl; constructor; auto.
Qed.

Lemma store_nth (w : World) (r : ref) (obj : pydict) :
  store_of_settings w -> nth_error (heap w) r = Some obj -> settings_like obj.
Proof.
  intros Hw Hr. unfold store_of_settings in Hw. rewrite Forall_forall in Hw.
  apply Hw. eapply nth_error_In; eauto.
Qed.

Lemma set_setting_keeps_settings `{H : Host} (k : string) (v : pyval) :
  is_dict v = false -> unique_keys v ->
  stable (fun s : Dialog.St => store_of_settings (fst s)) (Dialog.set_setting k v).
Proof.
  intros Hv Hu [w d] res s'. unfold Dialog.set_setting, deref, assign. run.
  destruct (Dialog.settings d) as [r|]; run; [|intros [= <- <-]; auto].
  destruct (nth_error (heap w) r) as [obj|] eqn:Er; run; [|intros [= <- <-]; auto].
  intros [= <- <-] Hw. cbn [fst] in *. unfold store_of_settings. cbn [heap].
  apply Forall_heap_write; [exact Hw|].
  apply settings_like_set; auto. eapply store_nth; eauto.
Qed.

(** [update_settings] raises before it has written anything, or writes all
    it has to write. *)
Lemma update_settings_cases `{H : Host} (w : World) (d : Dialog.ConfigDialog)
    (res : result unit) (s' : Dialog.St) :
  Dialog.update_settings (w, d) = (res, s') ->
  ((exists e, res = Raise e) /\ s' = (w, d))
  \/ exists r obj ts,
       Dialog.settings d = Some r
       /\ nth_error (heap w) r = Some obj
       /\ dict_get obj "transforms" = Some (PyDict ts)
       /\ (forall v, dict_get ts (currentText (Dialog.transform_combo d)) = Some v ->
                     is_dict v = true)
       /\ res = Ok tt
       /\ s' = (set_heap (heap_write (heap w) r (saved_settings obj ts d)) w, d).
Proof.
  assert (Hno : forall e, (Raise e, (w, d)) = (res, s') ->
                          ((exists e, res = Raise e) /\ s' = (w, d))
                          \/ exists r obj ts,
                               Dialog.settings d = Some r
                               /\ nth_error (heap w) r = Some obj
                               /\ dict_get obj "transforms" = Some (PyDict ts)
                               /\ (forall v,
                                     dict_get ts (currentText (Dialog.transform_combo d)) = Some v ->
                                     is_dict v = true)
                               /\ res = Ok tt
                               /\ s' = (set_heap (heap_write (heap w) r
                                                    (saved_settings obj ts d)) w, d)).
  { intros e [= <- <-]. left. eauto. }
  destruct (Dialog.settings d) as [r|] eqn:Hs.
  2: { unfold Dialog.update_settings, Dialog.setting, Dialog.settings_object. run.
       rewrite Hs. run. apply Hno. }
  destruct (nth_error (heap w) r) as [obj|] eqn:Ho.
  2: { unfold Dialog.update_settings, Dialog.setting, Dialog.settings_object, deref. run.
       rewrite Hs. run. rewrite Ho. run. apply Hno. }
  destruct (dict_get obj "transforms") as [tv|] eqn:Hts.
  2: { unfold Dialog.update_settings. run.
       rewrite (setting_run _ _ _ _ _ Hs Ho), getitem_dict, Hts. run. apply Hno. }
  destruct tv as [|b|n|lit|text|l|ts].
  1-6: unfold Dialog.update_settings; run;
    rewrite (setting_run _ _ _ _ _ Hs Ho), getitem_dict, Hts; run;
    cbn [contains]; run;
    try apply Hno.
  - (* a text: membership is the substring test *)
    destruct (is_substring (currentText (Dialog.transform_combo d)) text); run;
      cbn [getitem]; run; apply Hno.
  - (* a list: membership is among its items *)
    destruct (existsb (is_str (currentText (Dialog.transform_combo d))) l); run;
      cbn [getitem]; run; apply Hno.
  - assert (Hyes : (forall v, dict_get ts (currentText (Dialog.transform_combo d)) = Some v ->
                              is_dict v = true) ->
                   Dialog.update_settings (w, d) = (res, s') ->
                   res = Ok tt
                   /\ s' = (set_heap (heap_write (heap w) r (saved_settings obj ts d)) w, d)).
    { intros Hentry Hrun.
      rewrite (update_settings_run w d r obj ts Hs Ho Hts Hentry) in Hrun.
      injection Hrun as <- <-. auto. }
    destruct (dict_get ts (currentText (Dialog.transform_combo d))) as [v|] eqn:Eg.
    + destruct (is_dict v) eqn:Ev.
      * intros Hrun. right. exists r, obj, ts.
        assert (Hentry : forall v', Some v = Some v' -> is_dict v' = true)
          by (intros v' Hv'; congruence).
        destruct (Hyes Hentry Hrun) as [-> ->].
        do 3 (split; [first [reflexivity | assumption]|]).
        split; [intros v0 Hv0; rewrite Eg in Hv0; now apply Hentry|]. split; reflexivity.
      * unfold Dialog.update_settings. run.
        rewrite (setting_run _ _ _ _ _ Hs Ho), getitem_dict, Hts. run.
        cbn [contains]. unfold dict_has. rewrite Eg. run.
        rewrite getitem_dict, Eg. run.
        destruct v; try discriminate; run; apply Hno.
    + intros Hrun. right. exists r, obj, ts.
      assert (Hentry : forall v', None = Some v' -> is_dict v' = true)
        by (intros v' Hv'; discriminate).
      destruct (Hyes Hentry Hrun) as [-> ->].
        do 3 (split; [first [reflexivity | assumption]|]).
        split; [intros v0 Hv0; rewrite Eg in Hv0; now apply Hentry|]. split; reflexivity.
Qed.

Lemma update_settings_keeps_settings `{H : Host} :
  stable (fun s : Dialog.St => store_of_settings (fst s)) Dialog.update_settings.
Proof.
  intros [w d] res s' Hrun Hw. cbn [fst] in Hw.
  apply update_settings_cases in Hrun
    as [[_ ->]|(r & obj & ts & _ & Ho & Hts & Hentry & _ & ->)];
    [exact Hw|].
  cbn [fst]. unfold store_of_settings. cbn [set_heap heap].
  apply Forall_heap_write; [exact Hw|].
  apply settings_like_saved; auto. eapply store_nth; eauto.
Qed.

(** X24: [update_settings] writes all or nothing, and [accept] with it:
    when one of them raises (the settings are [None], their transforms are
    no dict, the entry of the transform is no dict), nothing has been
    written to the settings object and the dialog is as it was. *)
Theorem X24_update_settings_writes_all_or_nothing `{H : Host}
    (w : World) (d : Dialog.ConfigDialog) :
  (forall e s', Dialog.update_settings (w, d) = (Raise e, s') -> s' = (w, d))
  /\ (forall e w' d', Dialog.accept (w, d) = (Raise e, (w', d')) ->
                      heap w' = heap w /\ qsettings w' = qsettings w /\ d' = d).
Proof.
  assert (Hraise : forall w0 e s', Dialog.update_settings (w0, d) = (Raise e, s') ->
                                   s' = (w0, d)).
  { intros w0 e s' Hrun.
    destruct (update_settings_cases _ _ _ _ Hrun)
      as [[_ Hs]|(r & obj & ts & _ & _ & _ & _ & Hres & _)]; [exact Hs | discriminate]. }
  split; [apply Hraise|].
  intros e w' d'. rewrite accept_run. cbv zeta.
  destruct (get_transform (CrsStr (currentText (Dialog.transform_combo d))) w)
    as [[[nt|]|e0] w1] eqn:Hres;
    pose proof (get_transform_frame _ _ _ _ Hres) as (Hh & Hq & _).
  - destruct (format_float Dialog.sample (currentText (Dialog.x_format_combo d)));
      [|discriminate].
    destruct (format_float Dialog.sample (currentText (Dialog.y_format_combo d)));
      [|discriminate].
    destruct (py_int (currentText (Dialog.scaler_combo d))); [|discriminate].
    unfold bind.
    destruct (Dialog.update_settings (w1, d)) as [[[]|e1] s1] eqn:Eu; [discriminate|].
    intros [= _ Heq]. apply Hraise in Eu. subst s1. injection Heq as <- <-. auto.
  - discriminate.
  - intros [= _ <- <-]. auto.
Qed.

(** A step on the world that writes no object, or allocates a copy of the
    defaults. *)
Ltac settings_leaf :=
  intros;
  try match goal with
      | Hm : get_transform _ _ = _ |- _ => apply get_transform_frame in Hm as (Hm & _)
      | Hm : deref _ _ = _ |- _ => apply deref_frame in Hm; subst
      | Hm : modify (add_message _) _ = _ |- _ => injection Hm as _ <-
      | Hm : alloc default_settings _ = _ |- _ => injection Hm as _ <-
      | Hm : get _ = _ |- _ => injection Hm as _ <-
      | Hm : current_project_crs _ = _ |- _ =>
          cbv [current_project_crs bind get ret] in Hm; injection Hm as _ <-
      | Hm : new_crs _ _ = _ |- _ =>
          cbv [new_crs bind modify ret] in Hm; injection Hm as _ <-
      end;
  cbn [fst snd] in *; unfold store_of_settings in *;
  cbn [heap add_message set_heap add_call] in *;
  first [ assumption
        | match goal with Hm : heap _ = heap _ |- _ => rewrite Hm; assumption end
        | apply Forall_app; split;
          [assumption | constructor; [apply settings_like_default | constructor]] ].

Lemma dialog_methods_keep_settings `{H : Host} :
  let P := fun s : Dialog.St => store_of_settings (fst s) in
  stable P Dialog.on_transform_change
  /\ stable P Dialog.accept
  /\ stable P Dialog.reset_to_defaults
  /\ (forall ps, stable P (Dialog.init ps)).
Proof.
  intros P. subst P.
  assert (Hgui : stable (fun s : Dialog.St => store_of_settings (fst s)) Dialog.update_gui)
    by (unfold_dialog; stab settings_leaf).
  assert (Hchange : stable (fun s : Dialog.St => store_of_settings (fst s))
                      Dialog.on_transform_change).
  { unfold Dialog.on_transform_change, Dialog.raise_error_msg, Dialog.setting,
      Dialog.settings_object.
    stab settings_leaf.
    apply set_setting_keeps_settings; [reflexivity | constructor]. }
  pose proof update_settings_keeps_settings as Hupd.
  split; [exact Hchange|]. split; [|split].
  - unfold Dialog.accept, Dialog.raise_error_msg. stab settings_leaf.
  - unfold Dialog.reset_to_defaults, Dialog.change_transform_combo, Dialog.setting,
      Dialog.settings_object.
    stab settings_leaf.
  - intros ps. unfold Dialog.init, Dialog.setting, Dialog.settings_object.
    stab settings_leaf.
Qed.

Lemma exec_keeps_settings `{H : Host} (events : list event) :
  stable (fun s : Dialog.St => store_of_settings (fst s)) (Dialog.exec_ events).
Proof.
  destruct dialog_methods_keep_settings as (Hchange & Haccept & Hreset & _).
  induction events as [|e rest IH]; cbn [Dialog.exec_].
  - apply stable_ret.
  - apply stable_bind.
    + destruct e; cbn [Dialog.handle]; unfold Dialog.reject; stab settings_leaf.
    + intros _. apply stable_bind; [apply stable_self|]. intros me.
      destruct (Dialog.result_code me); [apply stable_ret | exact IH].
Qed.

Lemma read_settings_keeps_settings :
  stable (fun s : Widget.St => store_of_settings (fst s)) Widget.read_settings.
Proof.
  intros [w me] res s'. rewrite read_settings_run. cbv zeta.
  assert (Hadd : forall d, settings_like d -> store_of_settings w ->
                           store_of_settings (set_heap (heap w ++ [d]) w)).
  { intros d Hd Hw. unfold store_of_settings. cbn [set_heap heap].
    apply Forall_app. split; [exact Hw | constructor; [exact Hd | constructor]]. }
  destruct (is_empty (qsettings w)).
  { intros [= _ <-]. apply Hadd, settings_like_default. }
  destruct (json_loads (qsettings w)) as [v|e] eqn:Hloads.
  2: { intros [= _ <-]. apply Hadd, settings_like_default. }
  destruct (_recursive_update default_settings v) as [d|e] eqn:Hm.
  2: { intros [= _ <-]. apply Hadd, settings_like_default. }
  intros [= _ <-]. apply Hadd.
  assert (Hd : exists items,
             v = PyDict items /\ d = recursive_update_dict default_settings (PyDict items)).
  { unfold _recursive_update in Hm. destruct v; try discriminate.
    injection Hm as <-. eexists. split; reflexivity. }
  destruct Hd as (items & -> & ->).
  pose proof (json_loads_unique_keys _ _ Hloads) as Hu.
  split.
  - apply merge_unique_keys; [exact Hu | exact default_settings_unique].
  - apply merge_extends. exact Hu.
Qed.

Lemma update_from_settings_keeps_settings `{H : Host} (arg : option ref) :
  stable (fun s : Widget.St => store_of_settings (fst s)) (Widget.update_from_settings arg).
Proof.
  intros s res s' Hrun Hs.
  pose proof (update_from_settings_heap arg (heap (fst s)) _ _ _ Hrun eq_refl) as Hh.
  unfold store_of_settings in *. now rewrite Hh.
Qed.

Lemma on_config_dialog_keeps_settings `{H : Host} (events : list event) :
  stable (fun s : Widget.St => store_of_settings (fst s)) (Widget.on_config_dialog events).
Proof.
  intros [w me] res s'. rewrite on_config_dialog_run.
  destruct ((Dialog.init (settings me) ;; Dialog.exec_ events)%M (w, Dialog.blank))
    as [r0 [w1 dlg]] eqn:Ed.
  intros Hrun Hw. cbn [fst] in Hw.
  assert (Hw1 : store_of_settings w1).
  { assert (Hst : stable (fun s : Dialog.St => store_of_settings (fst s))
                    (Dialog.init (settings me) ;; Dialog.exec_ events)%M).
    { apply stable_bind; [apply dialog_methods_keep_settings|].
      intros _. apply exec_keeps_settings. }
    exact (Hst _ _ _ Ed Hw). }
  destruct r0 as [[[]|]|e].
  - exact (update_from_settings_keeps_settings _ _ _ _ Hrun Hw1).
  - injection Hrun as _ <-. exact Hw1.
  - injection Hrun as _ <-. exact Hw1.
  - injection Hrun as _ <-. exact Hw1.
Qed.

Lemma sessions_keep_settings `{H : Host} (l : list (list event)) :
  stable (fun s : Widget.St => store_of_settings (fst s)) (sessions l).
Proof.
  induction l as [|events rest IH]; cbn [sessions].
  - apply stable_ret.
  - apply stable_bind; [apply on_config_dialog_keeps_settings | intros _; exact IH].
Qed.

(** X25: the settings survive the sessions. Start with no settings object
    in memory, whatever text is stored; construct the widget, show it, and
    let the user go through any number of dialog sessions, each of any
    events and however it ends. Whatever settings object the widget then
    has, when the host's [json.dumps] writes it as a text that [json.loads]
    reads back, [write_settings] followed by the [read_settings] of a new
    widget returns and leaves that widget with settings equal to it: the
    merge onto the defaults changes nothing of what the widget has saved. *)
Theorem X25_settings_survive_the_sessions `{H : Host}
    (l : list (list event)) (w0 w : World) (me fresh : SecondaryCoordinates)
    (res : result unit) (d : pydict) :
  heap w0 = [] ->
  (Widget.init ;; Widget.initGui ;; sessions l)%M (w0, Widget.blank) = (res, (w, me)) ->
  settings_value (w, me) = Some d ->
  json_loads (json_dumps d) = Ok (PyDict d) ->
  exists w2 w3 me3,
    Widget.write_settings (w, me) = (Ok tt, (w2, me))
    /\ qsettings w2 = json_dumps d
    /\ Widget.read_settings (w2, fresh) = (Ok tt, (w3, me3))
    /\ settings_value (w3, me3) = Some d.
Proof.
  intros Hempty Hrun Hval Hloads.
  assert (Hst : stable (fun s : Widget.St => store_of_settings (fst s))
                  (Widget.init ;; Widget.initGui ;; sessions l)%M).
  { pose proof read_settings_keeps_settings as Hread.
    pose proof (update_from_settings_keeps_settings None) as Happly.
    pose proof (sessions_keep_settings l) as Hsessions.
    unfold Widget.init, Widget.initGui. stab settings_leaf. }
  assert (Hw : store_of_settings w).
  { apply (Hst _ _ _ Hrun). unfold store_of_settings. cbn [fst]. rewrite Hempty. constructor. }
  unfold settings_value in Hval. cbn [fst snd] in Hval.
  destruct (settings me) as [r|] eqn:Hs; [|discriminate].
  destruct (store_nth w r d Hw Hval) as [Hu Hext].
  destruct (reload_run w me fresh r d Hs Hval Hu Hext Hloads) as [Hwrite Hread].
  eexists _, _, _. split; [exact Hwrite|]. split; [reflexivity|].
  split; [exact Hread|].
  unfold settings_value. cbn [fst snd with_settings settings set_heap heap set_qsettings].
  apply nth_error_last.
Qed.

Lemma X25_settings_survive_the_sessions_witness :
  exists d w2 w3 me3,
    fst after_sessions = Ok tt
    /\ settings_value (snd after_sessions) = Some d
    /\ lookup_path (PyDict d) ["transforms"; "EPSG:4326"; "transform_name"]
       = Some (PyStr "WGS 84")
    /\ lookup_path (PyDict d) ["transforms"; "EPSG:6414"; "x_format"] = Some (PyStr ".2f")
    /\ Widget.write_settings (snd after_sessions) = (Ok tt, (w2, snd (snd after_sessions)))
    /\ Widget.read_settings (w2, Widget.blank) = (Ok tt, (w3, me3))
    /\ settings_value (w3, me3) = Some d.
Proof.
  pose (d := match settings_value (snd after_sessions) with Some d => d | None => [] end).
  destruct (X25_settings_survive_the_sessions two_sessions (stored old_text)
              (fst (snd after_sessions)) (snd (snd after_sessions)) Widget.blank
              (fst after_sessions) d)
    as (w2 & w3 & me3 & Hwrite & _ & Hread & Hval);
    [vm_compute; reflexivity ..|].
  exists d, w2, w3, me3.
  split; [reflexivity|]. split; [vm_compute; reflexivity|].
  split; [vm_compute; reflexivity|]. split; [vm_compute; reflexivity|].
  split; [exact Hwrite|]. split; [exact Hread | exact Hval].
Defined.
